(** * An idempotent balance ledger over a transactional key-value store

    Shallow embedding of [src/types.ts], [src/config.ts], [src/user/user.ts]
    and [src/transact/transact.ts].  Calls to the store client are the only
    effect of the program: an asynchronous function is a tree whose nodes are
    the commands it sends and whose branches are indexed by what the client
    answers. *)

From Stdlib Require Import ZArith QArith Lqa DecimalString DecimalPos DecimalZ.
From stdpp Require Import base option list strings gmap.
From Stdlib Require Import Ascii.

Local Open Scope string_scope.

(** ** JavaScript values used by the code *)

Module JS.

(** [!s] on a string is true exactly for the empty string. *)
Definition truthy (s : string) : bool := negb (String.eqb s "").

(** An IEEE double as far as [validate] looks at it. *)
Inductive number :=
| NaN
| Finite (x : Q)
| PlusInfinity
| MinusInfinity.

Definition isNaN (n : number) : bool :=
  match n with NaN => true | _ => false end.

(** [n <= 0]; every comparison with [NaN] is false. *)
Definition le_zero (n : number) : bool :=
  match n with
  | NaN => false
  | Finite x => Qle_bool x 0
  | PlusInfinity => false
  | MinusInfinity => true
  end.

(** [String(n)] for an integral number, which is what [`${n}`] and
    [n.toString()] print. *)
Definition toString (n : Z) : string := NilZero.string_of_int (Z.to_int n).

End JS.

(** The builtin [Number(s)] conversion from strings is a parameter of the
    development. *)
Class Runtime := { Number : string -> JS.number }.

(** ** [src/types.ts] *)

Record TConfig := {
  DB_USERS_TABLE : string;
  DB_TRANSACTIONS_TABLE : string;
  DEFAULT_BALANCE : Z;
  DEFAULT_CURRENCY : string;
  USER_SEED_SIZE : Z
}.

Record Balance := { Balance_amount : option Z; Balance_currency : string }.

Record GetUserBalanceInput := { GetUserBalanceInput_userId : string }.

(** [enum TransactionType]: a string enum, whose members are these strings at
    run time.  The services compare the [type] of a request with [===], test
    it with [!] and store it as a string attribute, so the field is the
    string it is at run time; the enum is what the static type lets through. *)
Module TransactionType.
Definition CREDIT : string := "credit".
Definition DEBIT : string := "debit".
End TransactionType.

Record TransactionInput := {
  idempotentKey : string;
  userId : string;
  amount : string;
  type : string
}.

(** ** The shapes of [@aws-sdk/client-dynamodb] that the code touches *)

Inductive AttributeValue :=
| S (s : string)
| N (n : string)
| BOOL (b : bool)
| NULL.

Definition AttributeValue_S (v : AttributeValue) : option string :=
  match v with S s => Some s | _ => None end.

Definition AttributeValue_N (v : AttributeValue) : option string :=
  match v with N n => Some n | _ => None end.

Abbreviation Item := (gmap string AttributeValue).

Module GetItemInput.
Record t := { TableName : string; Key : Item }.
End GetItemInput.

Module Update.
Record t := {
  TableName : string;
  Key : Item;
  UpdateExpression : string;
  ExpressionAttributeValues : Item;
  ExpressionAttributeNames : gmap string string;
  ConditionExpression : option string
}.
End Update.

Module Put.
Record t := {
  TableName : string;
  Item : Item;
  ConditionExpression : option string
}.
End Put.

Inductive TransactWriteItem :=
| Update (u : Update.t)
| Put (p : Put.t).

Inductive Command :=
| GetItemCommand (params : GetItemInput.t)
| TransactWriteItemsCommand (TransactItems : list TransactWriteItem).

Inductive Output :=
| GetItemCommandOutput (Item : option Item)
| TransactWriteItemsCommandOutput.

(** [response.Item] *)
Definition Output_Item (response : Output) : option Item :=
  match response with
  | GetItemCommandOutput i => i
  | TransactWriteItemsCommandOutput => None
  end.

Record CancellationReason := {
  Code : option string;
  Reason_Item : option Item
}.

(** ** What can be thrown *)

Inductive Exception :=
| Error (message : string)
| InvalidUserIdError
| UserNotFoundError (userId : string)
| InvalidAmountError
| InvalidIdempotencyKeyError
| InvalidTransactionTypeError
| InsufficientBalanceError
| DuplicateTransactionError (idempotentKey : string)
| TransactionCanceledException (message : string)
    (CancellationReasons : option (list CancellationReason))
| ServiceException (name message : string).

Definition Exception_message (e : Exception) : string :=
  match e with
  | Error m => m
  | InvalidUserIdError => "Missing required userId field"
  | UserNotFoundError u => "User with ID " ++ u ++ " not found"
  | InvalidAmountError => "Invalid amount"
  | InvalidIdempotencyKeyError => "Invalid idempotency key"
  | InvalidTransactionTypeError => "Invalid transaction type"
  | InsufficientBalanceError => "Insufficient balance"
  | DuplicateTransactionError k => "Transaction " ++ k ++ " has already been processed"
  | TransactionCanceledException m _ => m
  | ServiceException _ m => m
  end.

(** ** Asynchronous computations over the store client *)

Inductive Outcome (A : Type) :=
| Returned (value : A)
| Thrown (reason : Exception).
Arguments Returned {A} value.
Arguments Thrown {A} reason.

Inductive Async (A : Type) :=
| Return (value : A)
| Throw (reason : Exception)
| Send (command : Command) (continue : Outcome Output -> Async A).
Arguments Return {A} value.
Arguments Throw {A} reason.
Arguments Send {A} command continue.

Fixpoint bind {A B} (f : A -> Async B) (p : Async A) : Async B :=
  match p with
  | Return a => f a
  | Throw e => Throw e
  | Send c k => Send c (fun r => bind f (k r))
  end.

#[export] Instance Async_ret : MRet Async := @Return.
#[export] Instance Async_bind : MBind Async := @bind.

(** [await client.send(command)] outside any [try]. *)
Definition send (command : Command) : Async Output :=
  Send command (fun r =>
    match r with
    | Returned response => Return response
    | Thrown e => Throw e
    end).

(** ** [src/config.ts] *)

Definition Config : TConfig := {|
  DB_USERS_TABLE := "Users";
  DB_TRANSACTIONS_TABLE := "Transactions";
  DEFAULT_BALANCE := 100;
  DEFAULT_CURRENCY := "USD";
  USER_SEED_SIZE := 25
|}.

(** ** [src/user/user.ts] *)

Module UserService.

Record t := {
  _defaultBalance : Balance;
  _tableName : string
}.

Definition new (config : TConfig) : t := {|
  _tableName := DB_USERS_TABLE config;
  _defaultBalance := {|
    Balance_amount := Some (DEFAULT_BALANCE config);
    Balance_currency := DEFAULT_CURRENCY config
  |}
|}.

Definition getUserItem (this : t) (userId : string) : Async (option Item) :=
  response ← send (GetItemCommand {|
    GetItemInput.TableName := _tableName this;
    GetItemInput.Key := {[ "userId" := S userId ]}
  |});
  mret (Output_Item response).

(** What a template literal prints for an optional number and an optional
    string. *)
Definition print_number (n : option Z) : string :=
  match n with Some n => JS.toString n | None => "undefined" end.

Definition print_string (s : option string) : string :=
  match s with Some s => s | None => "undefined" end.

Definition getUserBalance (this : t) (input : GetUserBalanceInput) : Async string :=
  if negb (JS.truthy (GetUserBalanceInput_userId input)) then
    Throw InvalidUserIdError
  else
    item ← getUserItem this (GetUserBalanceInput_userId input);
    match item with
    | Some item =>
        let balance := item !! "balance" in
        let currency := item !! "currency" in
        match balance with
        | None =>
            mret (print_number (Balance_amount (_defaultBalance this)) ++ " "
                  ++ Balance_currency (_defaultBalance this))
        | Some balance =>
            mret (print_string (AttributeValue_N balance) ++ " "
                  ++ match currency ≫= AttributeValue_S with
                     | Some s => if JS.truthy s then s
                                 else Balance_currency (_defaultBalance this)
                     | None => Balance_currency (_defaultBalance this)
                     end)
        end
    | None => Throw (UserNotFoundError (GetUserBalanceInput_userId input))
    end.

End UserService.

Definition createUserBalanceFn (config : TConfig)
    : GetUserBalanceInput -> Async string :=
  let userService := UserService.new config in
  fun input => UserService.getUserBalance userService input.

(** ** [src/transact/transact.ts] *)

Module TransactService.

Record t := {
  _tableName : string;
  _usersTableName : string
}.

Definition new (config : TConfig) : t := {|
  _tableName := DB_TRANSACTIONS_TABLE config;
  _usersTableName := DB_USERS_TABLE config
|}.

Definition checkExistingTransaction (this : t) (idempotencyKey : string)
    : Async (option Item) :=
  let params := {|
    GetItemInput.TableName := _tableName this;
    GetItemInput.Key := {[ "idempotencyKey" := S idempotencyKey ]}
  |} in
  response ← send (GetItemCommand params);
  mret (Output_Item response).

Definition validate `{Runtime} (input : TransactionInput) : Outcome unit :=
  if negb (JS.truthy (userId input)) then
    Thrown (UserNotFoundError (userId input))
  else if negb (JS.truthy (idempotentKey input)) then
    Thrown InvalidIdempotencyKeyError
  else if negb (JS.truthy (amount input))
          || JS.isNaN (Number (amount input))
          || JS.le_zero (Number (amount input)) then
    Thrown InvalidAmountError
  (* "if it's not empty, the type system would have already checked it" *)
  else if negb (JS.truthy (type input)) then
    Thrown InvalidTransactionTypeError
  else
    Returned tt.

Definition isCredit (input : TransactionInput) : bool :=
  String.eqb (type input) TransactionType.CREDIT.

Definition creditUserBalance (this : t) (input : TransactionInput) : TransactWriteItem :=
  Update {|
    Update.TableName := _usersTableName this;
    Update.Key := {[ "userId" := S (userId input) ]};
    Update.UpdateExpression :=
      "SET #balance = if_not_exists(#balance, :zero) + :amount";
    Update.ExpressionAttributeValues :=
      {[ ":amount" := N (amount input); ":zero" := N "0" ]};
    Update.ExpressionAttributeNames := {[ "#balance" := "balance" ]};
    Update.ConditionExpression := None
  |}.

Definition debitUserBalance (this : t) (input : TransactionInput) : TransactWriteItem :=
  Update {|
    Update.TableName := _usersTableName this;
    Update.Key := {[ "userId" := S (userId input) ]};
    Update.UpdateExpression := "SET #balance = #balance - :amount";
    Update.ExpressionAttributeValues := {[ ":amount" := N (amount input) ]};
    Update.ExpressionAttributeNames := {[ "#balance" := "balance" ]};
    Update.ConditionExpression :=
      Some "attribute_exists(#balance) AND #balance >= :amount"
  |}.

(** [now] is what [Date.now()] reads during the call. *)
Definition insertNewTransaction (this : t) (now : Z) (input : TransactionInput)
    : TransactWriteItem :=
  Put {|
    Put.TableName := _tableName this;
    Put.Item := {[
      "idempotencyKey" := S (idempotentKey input);
      "userId" := S (userId input);
      "amount" := N (amount input);
      "type" := S (type input);
      "timestamp" := N (JS.toString now)
    ]};
    Put.ConditionExpression := Some "attribute_not_exists(idempotencyKey)"
  |}.

(** [error.CancellationReasons?.[0]?.Code === "ConditionalCheckFailed"] *)
Definition firstStatementFailed (CancellationReasons : option (list CancellationReason))
    : bool :=
  match CancellationReasons with
  | Some (reason :: _) =>
      match Code reason with
      | Some c => String.eqb c "ConditionalCheckFailed"
      | None => false
      end
  | _ => false
  end.

(** The predicate passed to [some]. *)
Definition reportsKey (input : TransactionInput) (reason : CancellationReason) : bool :=
  match Code reason with
  | Some c => String.eqb c "ConditionalCheckFailed"
  | None => false
  end
  && match (Reason_Item reason ≫= (fun i : Item => i !! "idempotencyKey"))
             ≫= AttributeValue_S with
     | Some s => String.eqb s (idempotentKey input)
     | None => false
     end.

(** [error.CancellationReasons?.some(...)], [undefined] being falsy. *)
Definition idempotencyConflict (input : TransactionInput)
    (CancellationReasons : option (list CancellationReason)) : bool :=
  match CancellationReasons with
  | Some l => existsb (reportsKey input) l
  | None => false
  end.

(** The [catch] block of [transact]. *)
Definition transact_catch (this : t) (input : TransactionInput) (error : Exception)
    : Async unit :=
  match error with
  | TransactionCanceledException message CancellationReasons =>
      if negb (isCredit input) && firstStatementFailed CancellationReasons then
        Throw InsufficientBalanceError
      else
      if idempotencyConflict input CancellationReasons then
        existingTransaction ← checkExistingTransaction this (idempotentKey input);
        match existingTransaction with
        | Some _ => mret tt
        | None => Throw (Error ("Transaction failed: " ++ message))
        end
      else
        Throw (Error ("Transaction failed: " ++ message))
  | _ => Throw error
  end.

Definition transact (this : t) (now : Z) (input : TransactionInput) : Async unit :=
  Send
    (TransactWriteItemsCommand [
       (if isCredit input then creditUserBalance this input
        else debitUserBalance this input);
       insertNewTransaction this now input
     ])
    (fun r =>
       match r with
       | Returned _ => mret tt
       | Thrown error => transact_catch this input error
       end).

End TransactService.

Definition createTransactFn `{Runtime} (now : Z) (input : TransactionInput)
    : Async unit :=
  let userService := UserService.new Config in
  let transactService := TransactService.new Config in
  match TransactService.validate input with
  | Thrown e => Throw e
  | Returned _ =>
      user ← UserService.getUserItem userService (userId input);
      match user with
      | None => Throw (UserNotFoundError (userId input))
      | Some _ =>
          existing ← TransactService.checkExistingTransaction transactService
                       (idempotentKey input);
          match existing with
          | Some _ => mret tt
          | None => TransactService.transact transactService now input
          end
      end
  end.

(** ** Running a computation against a client

    A client answers each command and may change the world [W] it stands
    for. *)

Fixpoint run {W A} (client : Command -> W -> W * Outcome Output)
    (p : Async A) (w : W) : W * Outcome A :=
  match p with
  | Return a => (w, Returned a)
  | Throw e => (w, Thrown e)
  | Send c k => let '(w', r) := client c w in run client (k r) w'
  end.

(** The commands sent, in order. *)
Fixpoint sent {W A} (client : Command -> W -> W * Outcome Output)
    (p : Async A) (w : W) : list Command :=
  match p with
  | Return _ => []
  | Throw _ => []
  | Send c k => let '(w', r) := client c w in c :: sent client (k r) w'
  end.

Definition isWrite (c : Command) : bool :=
  match c with
  | TransactWriteItemsCommand _ => true
  | GetItemCommand _ => false
  end.

(** A computation that sends no write, whatever the client answers. *)
Fixpoint readOnly {A} (p : Async A) : Prop :=
  match p with
  | Return _ => True
  | Throw _ => True
  | Send c k => isWrite c = false /\ forall r, readOnly (k r)
  end.

(** ** The transactional store *)

Module Store.

(** Decimal strings as the store reads them: an optional minus sign, digits
    and an optional fraction. *)
Definition readFraction (s : string) : option Q :=
  match String.index 0 "." s with
  | Some i =>
      let whole := String.substring 0 i s in
      let fraction := String.substring (i + 1) (String.length s - (i + 1)) s in
      match NilZero.uint_of_string whole, NilZero.uint_of_string fraction with
      | Some a, Some b =>
          let scale := Pos.pow 10 (Pos.of_nat (String.length fraction)) in
          Some (Qmake (Z.of_uint a * Z.pos scale + Z.of_uint b) scale)
      | _, _ => None
      end
  | None => None
  end.

Definition readN (s : string) : option Q :=
  match NilZero.int_of_string s with
  | Some d => Some (inject_Z (Z.of_int d))
  | None =>
      match s with
      | String ("-")%char rest => Qopp <$> readFraction rest
      | _ => readFraction s
      end
  end.

(** The least [k <= fuel] with [d] dividing [10 ^ k]. *)
Fixpoint decimals (fuel : nat) (k : Z) (d : Z) : option Z :=
  if (10 ^ k mod d =? 0)%Z then Some k
  else match fuel with
       | O => None
       | Datatypes.S fuel => decimals fuel (k + 1)%Z d
       end.

Fixpoint pad (width : nat) (s : string) : string :=
  match width with
  | O => s
  | Datatypes.S w => if (String.length s <? width)%nat then pad w ("0" ++ s) else s
  end.

Definition printN (q : Q) : string :=
  let q := Qred q in
  let d := Z.pos (Qden q) in
  match decimals (Pos.size_nat (Qden q)) 0 d with
  | Some k =>
      let m := (Z.abs (Qnum q) * (10 ^ k / d))%Z in
      (if (Qnum q <? 0)%Z then "-" else "")
      ++ JS.toString (m / 10 ^ k)
      ++ (if (k =? 0)%Z then ""
          else "." ++ pad (Z.to_nat k) (JS.toString (m mod 10 ^ k)))
  | None => "NaN"
  end.

(** Attribute values at rest: numbers are kept as numbers. *)
Inductive Value :=
| Str (s : string)
| Num (q : Q)
| Bool (b : bool)
| Null.

Abbreviation Row := (gmap string Value).

Definition store_value (v : AttributeValue) : option Value :=
  match v with
  | S s => Some (Str s)
  | N n => Num <$> readN n
  | BOOL b => Some (Bool b)
  | NULL => Some Null
  end.

Definition wire_value (v : Value) : AttributeValue :=
  match v with
  | Str s => S s
  | Num q => N (printN q)
  | Bool b => BOOL b
  | Null => NULL
  end.

(** An item is accepted when each of its numbers reads as a number. *)
Definition store_item (i : Item) : option Row :=
  if decide (map_Forall (fun _ v => is_Some (store_value v)) i)
  then Some (omap store_value i)
  else None.

Definition wire_item (r : Row) : Item := wire_value <$> r.

(** Modelled from the spec: the two keyed collections of section 6, Users
    keyed by [userId] and Transactions keyed by [idempotencyKey], which the
    provisioning scripts create under the names of [Config]. *)
Record Database := {
  Users : gmap string Row;
  Transactions : gmap string Row
}.

Inductive Table := UsersTable | TransactionsTable.

Definition table (TableName : string) : option Table :=
  if String.eqb TableName (DB_USERS_TABLE Config) then Some UsersTable
  else if String.eqb TableName (DB_TRANSACTIONS_TABLE Config) then Some TransactionsTable
  else None.

(** [KeySchema] of [src/schema/create.ts] *)
Definition keyName (t : Table) : string :=
  match t with
  | UsersTable => "userId"
  | TransactionsTable => "idempotencyKey"
  end.

Definition rows (db : Database) (t : Table) : gmap string Row :=
  match t with
  | UsersTable => Users db
  | TransactionsTable => Transactions db
  end.

Definition write (db : Database) (t : Table) (k : string) (r : Row) : Database :=
  match t with
  | UsersTable => {| Users := <[k := r]> (Users db); Transactions := Transactions db |}
  | TransactionsTable => {| Users := Users db; Transactions := <[k := r]> (Transactions db) |}
  end.

Definition keyOf (t : Table) (Key : Item) : option string :=
  Key !! keyName t ≫= AttributeValue_S.

(** Modelled from the spec: the expressions of the conditional update and of
    the guarded insert (section 6: set-if-absent-else-add, subtract-with-guard
    and insert-if-absent).  The store reads the expression strings the
    services send into this syntax. *)
Inductive Operand :=
| Path (p : string)
| Placeholder (v : string)
| IfNotExists (p : string) (otherwise : Operand).

Inductive SetValue :=
| Plus (a b : Operand)
| Minus (a b : Operand).

Inductive Condition :=
| AttributeExists (p : string)
| AttributeNotExists (p : string)
| GreaterOrEqual (a b : Operand)
| And (c d : Condition).

Definition readUpdateExpression (s : string) : option (string * SetValue) :=
  if String.eqb s "SET #balance = if_not_exists(#balance, :zero) + :amount" then
    Some ("#balance",
          Plus (IfNotExists "#balance" (Placeholder ":zero")) (Placeholder ":amount"))
  else if String.eqb s "SET #balance = #balance - :amount" then
    Some ("#balance", Minus (Path "#balance") (Placeholder ":amount"))
  else None.

Definition readConditionExpression (s : string) : option Condition :=
  if String.eqb s "attribute_exists(#balance) AND #balance >= :amount" then
    Some (And (AttributeExists "#balance")
              (GreaterOrEqual (Path "#balance") (Placeholder ":amount")))
  else if String.eqb s "attribute_not_exists(idempotencyKey)" then
    Some (AttributeNotExists "idempotencyKey")
  else None.

Section Evaluation.

Variable names : gmap string string.
Variable values : Row.
Variable old : option Row.

Definition attribute (p : string) : string := default p (names !! p).

Definition fetch (p : string) : option Value :=
  old ≫= (fun r : Row => r !! attribute p).

Fixpoint operand (o : Operand) : option Value :=
  match o with
  | Path p => fetch p
  | Placeholder v => values !! v
  | IfNotExists p otherwise =>
      match fetch p with
      | Some v => Some v
      | None => operand otherwise
      end
  end.

(** A comparison with a missing operand, or between values of different
    types, is false. *)
Definition greaterOrEqual (x y : option Value) : bool :=
  match x, y with
  | Some (Num a), Some (Num b) => Qle_bool b a
  | Some (Str a), Some (Str b) => String.leb b a
  | _, _ => false
  end.

Fixpoint holds (c : Condition) : bool :=
  match c with
  | AttributeExists p => bool_decide (is_Some (fetch p))
  | AttributeNotExists p => negb (bool_decide (is_Some (fetch p)))
  | GreaterOrEqual a b => greaterOrEqual (operand a) (operand b)
  | And c d => holds c && holds d
  end.

Definition arithmetic (f : Q -> Q -> Q) (x y : option Value) : option Value :=
  match x, y with
  | Some (Num a), Some (Num b) => Some (Num (f a b))
  | _, _ => None
  end.

Definition setValue (v : SetValue) : option Value :=
  match v with
  | Plus a b => arithmetic Qplus (operand a) (operand b)
  | Minus a b => arithmetic Qminus (operand a) (operand b)
  end.

End Evaluation.

(** What one operation of an atomic write comes to, on the state the write
    starts from. *)
Inductive Verdict :=
| Passed (t : Table) (k : string) (new : Row)
| ConditionalCheckFailed (old : option Row)
| ValidationError.

Definition malformed {A} : Outcome A :=
  Thrown (ServiceException "ValidationException" "The request is malformed").

Definition unknownTable {A} : Outcome A :=
  Thrown (ServiceException "ResourceNotFoundException" "Requested resource not found").

Definition readGuard (ConditionExpression : option string) : option (option Condition) :=
  match ConditionExpression with
  | None => Some None
  | Some s => Some <$> readConditionExpression s
  end.

Definition guardHolds (names : gmap string string) (values : Row) (old : option Row)
    (guard : option Condition) : bool :=
  match guard with
  | Some c => holds names values old c
  | None => true
  end.

Definition prepareUpdate (db : Database) (u : Update.t) : Outcome Verdict :=
  match table (Update.TableName u) with
  | None => unknownTable
  | Some t =>
      match keyOf t (Update.Key u),
            store_item (Update.Key u),
            readUpdateExpression (Update.UpdateExpression u),
            store_item (Update.ExpressionAttributeValues u),
            readGuard (Update.ConditionExpression u) with
      | Some k, Some key, Some (path, v), Some values, Some guard =>
          let names := Update.ExpressionAttributeNames u in
          let old := rows db t !! k in
          if guardHolds names values old guard then
            match setValue names values old v with
            | Some x => Returned (Passed t k (<[attribute names path := x]> (default key old)))
            | None => Returned ValidationError
            end
          else Returned (ConditionalCheckFailed old)
      | _, _, _, _, _ => malformed
      end
  end.

Definition preparePut (db : Database) (p : Put.t) : Outcome Verdict :=
  match table (Put.TableName p) with
  | None => unknownTable
  | Some t =>
      match keyOf t (Put.Item p),
            store_item (Put.Item p),
            readGuard (Put.ConditionExpression p) with
      | Some k, Some new, Some guard =>
          let old := rows db t !! k in
          if guardHolds ∅ ∅ old guard then Returned (Passed t k new)
          else Returned (ConditionalCheckFailed old)
      | _, _, _ => malformed
      end
  end.

Definition prepare (db : Database) (op : TransactWriteItem) : Outcome Verdict :=
  match op with
  | Update u => prepareUpdate db u
  | Put p => preparePut db p
  end.

Fixpoint prepareAll (db : Database) (ops : list TransactWriteItem)
    : Outcome (list Verdict) :=
  match ops with
  | [] => Returned []
  | op :: ops =>
      match prepare db op with
      | Thrown e => Thrown e
      | Returned v =>
          match prepareAll db ops with
          | Thrown e => Thrown e
          | Returned vs => Returned (v :: vs)
          end
      end
  end.

Definition passed (v : Verdict) : bool :=
  match v with Passed _ _ _ => true | _ => false end.

Definition commit (db : Database) (v : Verdict) : Database :=
  match v with
  | Passed t k new => write db t k new
  | _ => db
  end.

(** The guard-failure signal, one entry per operation of the write.  Whether
    the store also hands back the record that stood in the way is left open:
    [echo] says so. *)
Definition reasonOf (echo : bool) (v : Verdict) : CancellationReason :=
  match v with
  | Passed _ _ _ => {| Code := Some "None"; Reason_Item := None |}
  | ConditionalCheckFailed old =>
      {| Code := Some "ConditionalCheckFailed";
         Reason_Item := if echo then wire_item <$> old else None |}
  | ValidationError => {| Code := Some "ValidationError"; Reason_Item := None |}
  end.

Definition cancelled (echo : bool) (vs : list Verdict) : Exception :=
  TransactionCanceledException
    "Transaction cancelled, please refer cancellation reasons for specific reasons"
    (Some (map (reasonOf echo) vs)).

(** Modelled from the spec: the atomic multi-item write of section 6.  Every
    guard is evaluated on the state the write starts from; the operations
    commit together when all guards hold and none does otherwise. *)
Definition transactWriteItems (echo : bool) (db : Database)
    (ops : list TransactWriteItem) : Database * Outcome Output :=
  match prepareAll db ops with
  | Thrown e => (db, Thrown e)
  | Returned vs =>
      if forallb passed vs then
        (foldl commit db vs, Returned TransactWriteItemsCommandOutput)
      else (db, Thrown (cancelled echo vs))
  end.

(** Modelled from the spec: the point read of section 6. *)
Definition getItem (db : Database) (params : GetItemInput.t)
    : Database * Outcome Output :=
  match table (GetItemInput.TableName params) with
  | None => (db, unknownTable)
  | Some t =>
      match keyOf t (GetItemInput.Key params) with
      | Some k => (db, Returned (GetItemCommandOutput (wire_item <$> rows db t !! k)))
      | None => (db, malformed)
      end
  end.

(** Modelled from the spec: the store client's [send]. *)
Definition send (echo : bool) (command : Command) (db : Database)
    : Database * Outcome Output :=
  match command with
  | GetItemCommand params => getItem db params
  | TransactWriteItemsCommand ops => transactWriteItems echo db ops
  end.

End Store.

(** ** Vocabulary of the statements *)

(** The point reads and the atomic write that the services send. *)
Definition usersGet (config : TConfig) (userId : string) : Command :=
  GetItemCommand {|
    GetItemInput.TableName := DB_USERS_TABLE config;
    GetItemInput.Key := {[ "userId" := S userId ]}
  |}.

Definition ledgerGet (config : TConfig) (idempotencyKey : string) : Command :=
  GetItemCommand {|
    GetItemInput.TableName := DB_TRANSACTIONS_TABLE config;
    GetItemInput.Key := {[ "idempotencyKey" := S idempotencyKey ]}
  |}.

Definition atomicWrite (config : TConfig) (now : Z) (input : TransactionInput)
    : Command :=
  let this := TransactService.new config in
  TransactWriteItemsCommand [
    (if TransactService.isCredit input
     then TransactService.creditUserBalance this input
     else TransactService.debitUserBalance this input);
    TransactService.insertNewTransaction this now input
  ].

(** An amount that passes the third check of [validate]. *)
Definition positiveAmount `{Runtime} (s : string) : Prop :=
  s <> "" /\ JS.isNaN (Number s) = false /\ JS.le_zero (Number s) = false.

(** The two rejections that the [catch] block of [transact] gives a meaning
    of their own. *)
Definition balanceGuardRejection (input : TransactionInput) (e : Exception) : bool :=
  match e with
  | TransactionCanceledException _ reasons =>
      negb (TransactService.isCredit input)
      && TransactService.firstStatementFailed reasons
  | _ => false
  end.

Definition ledgerGuardRejection (input : TransactionInput) (e : Exception) : bool :=
  match e with
  | TransactionCanceledException _ reasons =>
      TransactService.idempotencyConflict input reasons
  | _ => false
  end.

(** A client that plays back prepared answers, the way the mocked [send] of
    the test suites does. *)
Definition scripted (command : Command) (answers : list (Outcome Output))
    : list (Outcome Output) * Outcome Output :=
  match answers with
  | answer :: rest => (rest, answer)
  | [] => ([], Thrown (ServiceException "TypeError" "no answer prepared"))
  end.

(** A runtime whose [Number] reads the plain decimal literals of
    [Store.readN], and the empty string as zero. *)
Definition decimalNumber (s : string) : JS.number :=
  if String.eqb s "" then JS.Finite 0
  else match Store.readN s with
       | Some q => JS.Finite q
       | None => JS.NaN
       end.

Definition decimalRuntime : Runtime := {| Number := decimalNumber |}.

(** What the two operations of the atomic write come to on a store [db],
    for an amount that the store reads as [a]. *)
Definition balanceOf (row : option Store.Row) : option Store.Value :=
  row ≫= (fun r : Store.Row => r !! "balance").

Definition userKey (userId : string) : Store.Row :=
  {[ "userId" := Store.Str userId ]}.

Definition withBalance (old : option Store.Row) (userId : string) (q : Q)
    : Store.Row :=
  <["balance" := Store.Num q]> (default (userKey userId) old).

Definition creditVerdict (db : Store.Database) (input : TransactionInput) (a : Q)
    : Store.Verdict :=
  let old := Store.Users db !! userId input in
  match balanceOf old with
  | None =>
      Store.Passed Store.UsersTable (userId input) (withBalance old (userId input) (0 + a))
  | Some (Store.Num b) =>
      Store.Passed Store.UsersTable (userId input) (withBalance old (userId input) (b + a))
  | Some _ => Store.ValidationError
  end.

Definition debitVerdict (db : Store.Database) (input : TransactionInput) (a : Q)
    : Store.Verdict :=
  let old := Store.Users db !! userId input in
  match balanceOf old with
  | Some (Store.Num b) =>
      if Qle_bool a b
      then Store.Passed Store.UsersTable (userId input)
             (withBalance old (userId input) (b - a))
      else Store.ConditionalCheckFailed old
  | _ => Store.ConditionalCheckFailed old
  end.

(** [q] is the balance that the balance update of the request sets, the
    amount being read as [a]. *)
Definition newBalance (db : Store.Database) (input : TransactionInput) (a q : Q)
    : Prop :=
  let balance := balanceOf (Store.Users db !! userId input) in
  if TransactService.isCredit input then
    (balance = None /\ q = (0 + a)%Q)
    \/ (exists b : Q, balance = Some (Store.Num b) /\ q = (b + a)%Q)
  else
    exists b : Q, balance = Some (Store.Num b) /\ (a <= b)%Q /\ q = (b - a)%Q.

Definition balanceVerdict (db : Store.Database) (input : TransactionInput) (a : Q)
    : Store.Verdict :=
  if TransactService.isCredit input then creditVerdict db input a
  else debitVerdict db input a.

Definition ledgerRecord (now : Z) (input : TransactionInput) (a : Q) : Store.Row := {[
  "idempotencyKey" := Store.Str (idempotentKey input);
  "userId" := Store.Str (userId input);
  "amount" := Store.Num a;
  "type" := Store.Str (type input);
  "timestamp" := Store.Num (inject_Z now)
]}.

Definition ledgerVerdict (db : Store.Database) (now : Z) (input : TransactionInput)
    (a : Q) : Store.Verdict :=
  let existing := Store.Transactions db !! idempotentKey input in
  if bool_decide (is_Some (existing ≫= (fun r : Store.Row => r !! "idempotencyKey")))
  then Store.ConditionalCheckFailed existing
  else Store.Passed Store.TransactionsTable (idempotentKey input)
         (ledgerRecord now input a).

(** Every stored balance is at least zero. *)
Definition nonnegative (db : Store.Database) : Prop :=
  forall (userId : string) (row : Store.Row) (b : Q),
    Store.Users db !! userId = Some row ->
    row !! "balance" = Some (Store.Num b) ->
    (0 <= b)%Q.

(** A decimal string that the runtime holds for a positiveAmount number is read by
    the store as a positiveAmount number. *)
Definition agrees (rt : Runtime) : Prop :=
  forall (s : string) (a : Q),
    Store.readN s = Some a ->
    JS.isNaN (Number s) = false ->
    JS.le_zero (Number s) = false ->
    (0 < a)%Q.

(** ** The scenarios of the specification *)

(** User ["11"] was never funded and user ["9"] holds 5. *)
Definition exampleStore : Store.Database := {|
  Store.Users := {[
    "11" := {[ "userId" := Store.Str "11" ]};
    "9" := {[ "userId" := Store.Str "9"; "balance" := Store.Num 5 ]}
  ]};
  Store.Transactions := ∅
|}.

Definition creditRequest : TransactionInput := {|
  idempotentKey := "1";
  userId := "11";
  amount := "10";
  type := TransactionType.CREDIT
|}.

Definition debitRequest : TransactionInput := {|
  idempotentKey := "5";
  userId := "9";
  amount := "10";
  type := TransactionType.DEBIT
|}.

(** The store once [creditRequest] has been carried out at time 1700. *)
Definition creditedStore : Store.Database := {|
  Store.Users := {[
    "11" := {[ "userId" := Store.Str "11"; "balance" := Store.Num (0 + 10) ]};
    "9" := {[ "userId" := Store.Str "9"; "balance" := Store.Num 5 ]}
  ]};
  Store.Transactions := {[ "1" := ledgerRecord 1700 creditRequest 10 ]}
|}.

(** A cancellation as the mocked client of the test suite reports it. *)
Definition balanceGuardFailed : Exception :=
  TransactionCanceledException "Transaction cancelled"
    (Some [ {| Code := Some "ConditionalCheckFailed"; Reason_Item := None |};
            {| Code := Some "None"; Reason_Item := None |} ]).

Definition ledgerGuardFailed (key : string) : Exception :=
  TransactionCanceledException "Transaction cancelled"
    (Some [ {| Code := Some "None"; Reason_Item := None |};
            {| Code := Some "ConditionalCheckFailed";
               Reason_Item := Some {[ "idempotencyKey" := S key ]} |} ]).

Definition conflictingWriter : Exception :=
  TransactionCanceledException "Transaction cancelled"
    (Some [ {| Code := Some "TransactionConflict"; Reason_Item := None |};
            {| Code := Some "None"; Reason_Item := None |} ]).

(** A request whose type is no member of [TransactionType]. *)
Definition refundRequest : TransactionInput := {|
  idempotentKey := "key123";
  userId := "user123";
  amount := "100";
  type := "refund"
|}.

(** The key of [creditRequest] again, for a user that does not exist. *)
Definition strangerRequest : TransactionInput := {|
  idempotentKey := "1";
  userId := "404";
  amount := "10";
  type := TransactionType.CREDIT
|}.

(** The key of [creditRequest] again, as a debit of another amount by another
    user. *)
Definition otherRequest : TransactionInput := {|
  idempotentKey := "1";
  userId := "9";
  amount := "3";
  type := TransactionType.DEBIT
|}.

Definition cancelledMessage : string :=
  "Transaction cancelled, please refer cancellation reasons for specific reasons".

(** [creditRequest] with an amount that is not positiveAmount. *)
Definition zeroRequest : TransactionInput := {|
  idempotentKey := "1";
  userId := "11";
  amount := "0";
  type := TransactionType.CREDIT
|}.


(** ** The fixtures of the test suites *)

Definition mockConfig : TConfig := {|
  DB_TRANSACTIONS_TABLE := "transactions-table";
  DB_USERS_TABLE := "users-table";
  DEFAULT_BALANCE := 100;
  DEFAULT_CURRENCY := "USD";
  USER_SEED_SIZE := 25
|}.

Definition validInput : TransactionInput := {|
  userId := "user123";
  idempotentKey := "key123";
  amount := "100";
  type := TransactionType.CREDIT
|}.

Definition debitInput : TransactionInput := {|
  userId := "user123";
  idempotentKey := "key123";
  amount := "100";
  type := TransactionType.DEBIT
|}.

Definition mockTransaction : Item := {[
  "idempotencyKey" := S "key123";
  "userId" := S "user123";
  "amount" := N "100";
  "type" := S TransactionType.CREDIT
]}.

(** A request with the given fields left out, which [validate] sees as
    empty. *)
Definition without (userId' idempotentKey' amount' type' : bool) : TransactionInput := {|
  userId := if userId' then "" else "user123";
  idempotentKey := if idempotentKey' then "" else "key123";
  amount := if amount' then "" else "100";
  type := if type' then "" else TransactionType.CREDIT
|}.

Definition resolved (Item : option Item) : Outcome Output :=
  Returned (GetItemCommandOutput Item).

(** ** Further vocabulary *)

(** Every row of the store carries the key it is stored under. *)
Definition keyed (db : Store.Database) : Prop :=
  (forall (userId : string) (row : Store.Row),
     Store.Users db !! userId = Some row ->
     row !! "userId" = Some (Store.Str userId))
  /\ (forall (key : string) (row : Store.Row),
       Store.Transactions db !! key = Some row ->
       row !! "idempotencyKey" = Some (Store.Str key)).

(** The store after the atomic write of [input] has gone through, leaving
    the balance [q]. *)
Definition written (db : Store.Database) (now : Z) (input : TransactionInput)
    (a q : Q) : Store.Database := {|
  Store.Users :=
    <[userId input := withBalance (Store.Users db !! userId input) (userId input) q]>
      (Store.Users db);
  Store.Transactions :=
    <[idempotentKey input := ledgerRecord now input a]> (Store.Transactions db)
|}.

(** A debit of all that user ["9"] holds. *)
Definition exactRequest : TransactionInput := {|
  idempotentKey := "7";
  userId := "9";
  amount := "5";
  type := TransactionType.DEBIT
|}.

(** User ["1"] as the seeding script leaves a user without balance. *)
Definition seededStore : Store.Database := {|
  Store.Users := {[ "1" := {[ "userId" := Store.Str "1";
                              "currency" := Store.Str "USD" ]} ]};
  Store.Transactions := ∅
|}.

(** A store with no users and no ledger. *)
Definition emptyStore : Store.Database := {|
  Store.Users := ∅;
  Store.Transactions := ∅
|}.

Definition firstCredit : TransactionInput := {|
  idempotentKey := "k1";
  userId := "1";
  amount := "10";
  type := TransactionType.CREDIT
|}.

(** ** [src/user/index.ts] and [src/transact/index.ts]

    The two entry scripts write to the console and end the process with an
    exit code.  A script is an asynchronous computation that yields what it
    has written and how it ended.  What is recorded is what the scripts
    write themselves; the warning that [getUserBalance] writes for a user
    without balance is not.  Each script is taken as run directly, which is
    when its guard [process.argv[1] === __filename] lets it run. *)

Inductive Console :=
| console_log (message : string)
| console_error (message : string) (error : option Exception).

Fixpoint attempt {A} (p : Async A) : Async (Outcome A) :=
  match p with
  | Return a => Return (Returned a)
  | Throw e => Return (Thrown e)
  | Send c k => Send c (fun r => attempt (k r))
  end.

Abbreviation Script A := (Async (list Console * Outcome A)).

Definition say (line : Console) : Script unit := mret ([line], Returned tt).

(** [await p] *)
Definition await {A} (p : Async A) : Script A :=
  settled ← attempt p; mret ([], settled).

(** [p; f] *)
Definition andThen {A B} (p : Script A) (f : A -> Script B) : Script B :=
  done ← p;
  match snd done with
  | Returned a => more ← f a; mret ((fst done ++ fst more)%list, snd more)
  | Thrown e => mret (fst done, Thrown e)
  end.

(** [try { p } catch (error) { handler }] *)
Definition try {A} (p : Script A) (handler : Exception -> Script A) : Script A :=
  done ← p;
  match snd done with
  | Returned a => mret (fst done, Returned a)
  | Thrown e => more ← handler e; mret ((fst done ++ fst more)%list, snd more)
  end.

(** [main().then(...).catch(...)]: the console output and the exit code. *)
Definition launch (main : Script unit) : Async (list Console * Z) :=
  done ← main;
  match snd done with
  | Returned _ =>
      mret ((fst done ++ [console_log "Application finished successfully"])%list,
            0%Z)
  | Thrown error =>
      mret ((fst done
             ++ [console_error "Error running application:" (Some error)])%list,
            1%Z)
  end.

Module UserIndex.

Definition input : GetUserBalanceInput := {| GetUserBalanceInput_userId := "1" |}.

Definition main : Script unit :=
  andThen (say (console_log "Starting application...")) (fun _ =>
  let userService := UserService.new Config in
  try
    (andThen (await (UserService.getUserBalance userService input)) (fun balance =>
     say (console_error
            ("User " ++ GetUserBalanceInput_userId input ++ "'s balance is " ++ balance)
            None)))
    (fun error =>
     say (console_error
            ("User " ++ GetUserBalanceInput_userId input ++ " not found:")
            (Some error)))).

Definition script : Async (list Console * Z) := launch main.

End UserIndex.

Module TransactIndex.

Definition input : TransactionInput := {|
  idempotentKey := "1";
  userId := "11";
  amount := "10";
  type := TransactionType.CREDIT
|}.

Definition main `{Runtime} (now : Z) : Script unit :=
  andThen (say (console_log "Starting application...")) (fun _ =>
  let transact := createTransactFn now in
  try (await (transact input)) (fun error => mret ([], Thrown error))).

Definition script `{Runtime} (now : Z) : Async (list Console * Z) := launch (main now).

End TransactIndex.

(** ** [src/db/client.ts], [src/db/seed.ts], [src/schema/create.ts],
    [src/schema/index.ts]

    The seeding and the schema scripts use the aggregated client, through
    its methods [batchWriteItem], [listTables] and [createTable].  Numbers
    are rationals, so a draw of [Math.random()] is a rational; each script
    is taken as run directly. *)

Module Admin.

Module AttributeDefinition.
Record t := { AttributeName : string; AttributeType : string }.
End AttributeDefinition.

Module KeySchemaElement.
Record t := { AttributeName : string; KeyType : string }.
End KeySchemaElement.

Module ProvisionedThroughput.
Record t := { ReadCapacityUnits : Z; WriteCapacityUnits : Z }.
End ProvisionedThroughput.

Module GlobalSecondaryIndex.
Record t := {
  IndexName : string;
  KeySchema : list KeySchemaElement.t;
  ProjectionType : string;
  ProvisionedThroughput : ProvisionedThroughput.t
}.
End GlobalSecondaryIndex.

Module CreateTableInput.
Record t := {
  TableName : string;
  AttributeDefinitions : list AttributeDefinition.t;
  KeySchema : list KeySchemaElement.t;
  GlobalSecondaryIndexes : option (list GlobalSecondaryIndex.t);
  ProvisionedThroughput : ProvisionedThroughput.t
}.
End CreateTableInput.

(** [result.$metadata.httpStatusCode] *)
Record CreateTableOutput := { httpStatusCode : option Z }.

Record ListTablesOutput := { TableNames : option (list string) }.

Inductive WriteRequest :=
| PutRequest (Item : Item).

Module BatchWriteItemInput.
Record t := {
  RequestItems : gmap string (list WriteRequest);
  ReturnItemCollectionMetrics : string;
  ReturnConsumedCapacity : string
}.
End BatchWriteItemInput.

Record ConsumedCapacity := {
  ConsumedCapacity_TableName : option string;
  CapacityUnits : option Q
}.

Record BatchWriteItemOutput := {
  UnprocessedItems : option (gmap string (list WriteRequest));
  BatchWriteItemOutput_ConsumedCapacity : option (list ConsumedCapacity)
}.

(** What is written to the console.  A value printed through
    [JSON.stringify], or handed to the console as it is, is kept as the
    value. *)
Inductive Line :=
| log (message : string)
| log_error (err : Exception)
| log_params (params : BatchWriteItemInput.t)
| info (message : string)
| info_unprocessed (items : option (gmap string (list WriteRequest)))
| info_capacity (capacity : option (list ConsumedCapacity))
| warn_unprocessed (item : WriteRequest)
| error (message : string) (err : Exception)
| error_thrown (err : Exception).

(** A computation of the scripts: console output, [Math.random()] and the
    three methods of the client. *)
Inductive Task (A : Type) :=
| Done (a : A)
| Fail (e : Exception)
| Say (line : Line) (continue : Task A)
| Random (continue : Q -> Task A)
| ListTables (continue : Outcome ListTablesOutput -> Task A)
| CreateTable (params : CreateTableInput.t)
    (continue : Outcome CreateTableOutput -> Task A)
| BatchWriteItem (params : BatchWriteItemInput.t)
    (continue : Outcome BatchWriteItemOutput -> Task A).

Arguments Done {A} a.
Arguments Fail {A} e.
Arguments Say {A} line continue.
Arguments Random {A} continue.
Arguments ListTables {A} continue.
Arguments CreateTable {A} params continue.
Arguments BatchWriteItem {A} params continue.

Fixpoint Task_bind {A B} (f : A -> Task B) (p : Task A) : Task B :=
  match p with
  | Done a => f a
  | Fail e => Fail e
  | Say line k => Say line (Task_bind f k)
  | Random k => Random (fun x => Task_bind f (k x))
  | ListTables k => ListTables (fun r => Task_bind f (k r))
  | CreateTable params k => CreateTable params (fun r => Task_bind f (k r))
  | BatchWriteItem params k => BatchWriteItem params (fun r => Task_bind f (k r))
  end.

#[global] Instance Task_ret : MRet Task := @Done.
#[global] Instance Task_mbind : MBind Task := @Task_bind.

Definition say (line : Line) : Task unit := Say line (Done tt).

Definition random : Task Q := Random Done.

(** [await client.method(...)] outside any [try]. *)
Definition await {A} (r : Outcome A) : Task A :=
  match r with
  | Returned a => Done a
  | Thrown e => Fail e
  end.

(** *** [src/db/seed.ts] *)

(** [x.toFixed(2)] is a parameter of the development. *)
Class Format := { toFixed2 : Q -> string }.

Definition putRequest `{Format} (i : nat) : Task WriteRequest :=
  draw ← random;
  let haveBalance := negb (Qle_bool draw (1 # 2)) in
  let userId : Item := {[ "userId" := S (JS.toString (Z.of_nat i + 1)) ]} in
  if haveBalance then
    draw ← random;
    mret (PutRequest
            (<["currency" := S (DEFAULT_CURRENCY Config)]>
               (<["balance" := N (toFixed2 (draw * 10000))]> userId)))
  else
    mret (PutRequest (<["currency" := S (DEFAULT_CURRENCY Config)]> userId)).

(** [Array.from({ length }).map((_, i) => ...)], from index [i] on. *)
Fixpoint putRequests `{Format} (i : nat) (length : nat) : Task (list WriteRequest) :=
  match length with
  | O => mret []
  | Datatypes.S length =>
      request ← putRequest i;
      rest ← putRequests (Datatypes.S i) length;
      mret (request :: rest)
  end.

Definition seed_params (putRequests : list WriteRequest) : BatchWriteItemInput.t := {|
  BatchWriteItemInput.RequestItems := {[ DB_USERS_TABLE Config := putRequests ]};
  BatchWriteItemInput.ReturnItemCollectionMetrics := "SIZE";
  BatchWriteItemInput.ReturnConsumedCapacity := "TOTAL"
|}.

Fixpoint warn_each (items : list WriteRequest) : Task unit :=
  match items with
  | [] => mret tt
  | item :: items => say (warn_unprocessed item);; warn_each items
  end.

Definition seed `{Format} (size : Z) : Task unit :=
  putRequests ← putRequests 0 (Z.to_nat size);
  let params := seed_params putRequests in
  say (log_params params);;
  result ← BatchWriteItem params await;
  match UnprocessedItems result ≫= (fun items : gmap string (list WriteRequest) =>
                                     items !! DB_USERS_TABLE Config) with
  | Some items => warn_each items
  | None => mret tt
  end;;
  say (info ("Seeded " ++ JS.toString (Z.of_nat (List.length putRequests)) ++ " users"));;
  say (info_unprocessed (UnprocessedItems result));;
  say (info_capacity (BatchWriteItemOutput_ConsumedCapacity result)).

(** [p.then(...).catch(...)] around a task, with the exit code when
    [process.exit] is called. *)
Fixpoint settle {A} (p : Task A) (resolved : A -> Task (option Z))
    (rejected : Exception -> Task (option Z)) : Task (option Z) :=
  match p with
  | Done a => resolved a
  | Fail e => rejected e
  | Say line k => Say line (settle k resolved rejected)
  | Random k => Random (fun x => settle (k x) resolved rejected)
  | ListTables k => ListTables (fun r => settle (k r) resolved rejected)
  | CreateTable params k => CreateTable params (fun r => settle (k r) resolved rejected)
  | BatchWriteItem params k =>
      BatchWriteItem params (fun r => settle (k r) resolved rejected)
  end.

Definition seed_script `{Format} : Task (option Z) :=
  settle (seed (USER_SEED_SIZE Config))
    (fun _ => say (info "Seed completed");; mret None)
    (fun err => say (error_thrown err);; mret (Some 1%Z)).

(** *** [src/schema/create.ts] *)

Definition createTable (params : CreateTableInput.t) : Task unit :=
  CreateTable params (fun r =>
    match r with
    | Returned result =>
        if bool_decide (httpStatusCode result = Some 200%Z) then
          say (info ("Table " ++ CreateTableInput.TableName params
                     ++ " created successfully"))
        else mret tt
    | Thrown err =>
        say (error ("Error creating table " ++ CreateTableInput.TableName params ++ ":")
               err);;
        Fail err
    end).

Definition transactionsParams : CreateTableInput.t := {|
  CreateTableInput.TableName := DB_TRANSACTIONS_TABLE Config;
  CreateTableInput.AttributeDefinitions := [
    {| AttributeDefinition.AttributeName := "idempotencyKey";
       AttributeDefinition.AttributeType := "S" |};
    {| AttributeDefinition.AttributeName := "userId";
       AttributeDefinition.AttributeType := "S" |}
  ];
  CreateTableInput.KeySchema := [
    {| KeySchemaElement.AttributeName := "idempotencyKey";
       KeySchemaElement.KeyType := "HASH" |}
  ];
  CreateTableInput.GlobalSecondaryIndexes := Some [
    {| GlobalSecondaryIndex.IndexName := "userIdIndex";
       GlobalSecondaryIndex.KeySchema := [
         {| KeySchemaElement.AttributeName := "userId";
            KeySchemaElement.KeyType := "HASH" |}
       ];
       GlobalSecondaryIndex.ProjectionType := "ALL";
       GlobalSecondaryIndex.ProvisionedThroughput := {|
         ProvisionedThroughput.ReadCapacityUnits := 1;
         ProvisionedThroughput.WriteCapacityUnits := 1
       |} |}
  ];
  CreateTableInput.ProvisionedThroughput := {|
    ProvisionedThroughput.ReadCapacityUnits := 5;
    ProvisionedThroughput.WriteCapacityUnits := 5
  |}
|}.

Definition createTransactionsSchema : Task unit := createTable transactionsParams.

Definition usersParams : CreateTableInput.t := {|
  CreateTableInput.TableName := DB_USERS_TABLE Config;
  CreateTableInput.AttributeDefinitions := [
    {| AttributeDefinition.AttributeName := "userId";
       AttributeDefinition.AttributeType := "S" |}
  ];
  CreateTableInput.KeySchema := [
    {| KeySchemaElement.AttributeName := "userId";
       KeySchemaElement.KeyType := "HASH" |}
  ];
  CreateTableInput.GlobalSecondaryIndexes := None;
  CreateTableInput.ProvisionedThroughput := {|
    ProvisionedThroughput.ReadCapacityUnits := 1;
    ProvisionedThroughput.WriteCapacityUnits := 1
  |}
|}.

Definition createUsersSchema : Task unit := createTable usersParams.

(** *** [src/schema/index.ts] *)

Definition checkTableExists (tableName : string) : Task bool :=
  ListTables (fun r =>
    match r with
    | Returned data =>
        match TableNames data with
        | Some response => mret (bool_decide (tableName ∈ response))
        | None => mret false
        end
    | Thrown err => say (log_error err);; mret false
    end).

Definition createSchema : Task unit :=
  say (log "Creating schema...");;
  users ← checkTableExists (DB_USERS_TABLE Config);
  (if negb users then createUsersSchema else mret tt);;
  transactions ← checkTableExists (DB_TRANSACTIONS_TABLE Config);
  (if negb transactions then createTransactionsSchema else mret tt).

Definition schema_script : Task (option Z) :=
  settle createSchema
    (fun _ => say (log "Schema created successfully");; mret (Some 0%Z))
    (fun err => say (error "Error creating schema:" err);; mret (Some 1%Z)).

(** *** Running a task *)

(** A client answers each call, and the runtime each [Math.random()], and
    may change the world [W] they stand for. *)
Record Client (W : Type) := {
  Math_random : W -> W * Q;
  client_listTables : W -> W * Outcome ListTablesOutput;
  client_createTable : CreateTableInput.t -> W -> W * Outcome CreateTableOutput;
  client_batchWriteItem :
    BatchWriteItemInput.t -> W -> W * Outcome BatchWriteItemOutput
}.

Arguments Math_random {W} _ _.
Arguments client_listTables {W} _ _.
Arguments client_createTable {W} _ _ _.
Arguments client_batchWriteItem {W} _ _ _.

Inductive Event :=
| printed (line : Line)
| called_listTables
| called_createTable (params : CreateTableInput.t)
| called_batchWriteItem (params : BatchWriteItemInput.t).

Fixpoint perform {W A} (client : Client W) (p : Task A) (w : W)
    : W * list Event * Outcome A :=
  match p with
  | Done a => (w, [], Returned a)
  | Fail e => (w, [], Thrown e)
  | Say line k =>
      let '(w', events, r) := perform client k w in (w', printed line :: events, r)
  | Random k =>
      let '(w', x) := Math_random client w in perform client (k x) w'
  | ListTables k =>
      let '(w', answer) := client_listTables client w in
      let '(w'', events, r) := perform client (k answer) w' in
      (w'', called_listTables :: events, r)
  | CreateTable params k =>
      let '(w', answer) := client_createTable client params w in
      let '(w'', events, r) := perform client (k answer) w' in
      (w'', called_createTable params :: events, r)
  | BatchWriteItem params k =>
      let '(w', answer) := client_batchWriteItem client params w in
      let '(w'', events, r) := perform client (k answer) w' in
      (w'', called_batchWriteItem params :: events, r)
  end.

Definition isCall (e : Event) : bool :=
  match e with printed _ => false | _ => true end.

Definition calls (events : list Event) : list Event := filter isCall events.

Definition isWarning (e : Event) : bool :=
  match e with printed (warn_unprocessed _) => true | _ => false end.

End Admin.

(** *** Vocabulary for the scripts *)

(** What [seed] makes of the user at index [i]. *)
Definition seeded `{Admin.Format} (i : nat) (item : Item) : Prop :=
  item !! "userId" = Some (S (JS.toString (Z.of_nat i + 1)))
  /\ item !! "currency" = Some (S (DEFAULT_CURRENCY Config))
  /\ (item !! "balance" = None
      \/ exists x : Q, item !! "balance" = Some (N (Admin.toFixed2 (x * 10000))))
  /\ (forall name : string,
        is_Some (item !! name) ->
        name = "userId" \/ name = "balance" \/ name = "currency").

(** The [userId] attributes of the requests, in order. *)
Definition userIds (requests : list Admin.WriteRequest) : list (option AttributeValue) :=
  map (fun request => match request with Admin.PutRequest item => item !! "userId" end)
    requests.

(** [result.UnprocessedItems?.[Config.DB_USERS_TABLE]], nothing when it is
    undefined. *)
Definition unprocessed (result : Admin.BatchWriteItemOutput) : list Admin.WriteRequest :=
  default [] (Admin.UnprocessedItems result
              ≫= (fun items : gmap string (list Admin.WriteRequest) =>
                    items !! DB_USERS_TABLE Config)).

(** The attributes that a key schema names. *)
Definition keyNames (schema : list Admin.KeySchemaElement.t) : list string :=
  map Admin.KeySchemaElement.AttributeName schema.

(** The attributes that the key schemas of the indexes name. *)
Definition indexKeyNames (params : Admin.CreateTableInput.t) : list string :=
  default [] (Admin.CreateTableInput.GlobalSecondaryIndexes params)
  ≫= (fun index => keyNames (Admin.GlobalSecondaryIndex.KeySchema index)).

(** The declared type of an attribute, if the table declares one. *)
Definition attributeType (params : Admin.CreateTableInput.t) (name : string)
    : option string :=
  Admin.AttributeDefinition.AttributeType
  <$> List.find (fun d => String.eqb (Admin.AttributeDefinition.AttributeName d) name)
        (Admin.CreateTableInput.AttributeDefinitions params).

(** The type tag an attribute value is sent under. *)
Definition typeOf (v : AttributeValue) : string :=
  match v with
  | S _ => "S"
  | N _ => "N"
  | BOOL _ => "BOOL"
  | NULL => "NULL"
  end.

(** Every attribute of [item] that the table declares has the declared
    type. *)
Definition wellTyped (params : Admin.CreateTableInput.t) (item : Item) : Prop :=
  forall (name : string) (v : AttributeValue) (t : string),
    item !! name = Some v -> attributeType params name = Some t -> typeOf v = t.

(** [key] is a primary key of the table: the key attributes, no others, with
    the declared types. *)
Definition isKeyOf (params : Admin.CreateTableInput.t) (key : Item) : Prop :=
  (forall name : string,
     is_Some (key !! name) <-> name ∈ keyNames (Admin.CreateTableInput.KeySchema params))
  /\ wellTyped params key.

(** [item] can be stored in the table: it has the key attributes, and what
    the table declares has the declared type. *)
Definition fits (params : Admin.CreateTableInput.t) (item : Item) : Prop :=
  (forall name : string,
     name ∈ keyNames (Admin.CreateTableInput.KeySchema params) -> is_Some (item !! name))
  /\ wellTyped params item.

(** One step of [createSchema]: the table is created unless it is listed. *)
Definition ensure (tableName : string) (params : Admin.CreateTableInput.t)
    : Admin.Task unit :=
  present ← Admin.checkTableExists tableName;
  if negb present then Admin.createTable params else mret tt.

(** What [checkTableExists] makes of the answer to the listing. *)
Definition reported (tableName : string) (answer : Outcome Admin.ListTablesOutput)
    : bool :=
  match answer with
  | Returned {| Admin.TableNames := Some names |} => bool_decide (tableName ∈ names)
  | _ => false
  end.


(** *** Fixtures for the scripts *)

(** A format whose [toFixed(2)] rounds a non-negative rational to the
    nearest hundredth, halves upwards. *)
Definition decimalToFixed2 (x : Q) : string :=
  let scaled := (x * 100 + (1 # 2))%Q in
  let hundredths := (Qnum scaled / Z.pos (Qden scaled))%Z in
  JS.toString (hundredths / 100) ++ "."
  ++ Store.pad 2 (JS.toString (hundredths mod 100)).

Definition decimalFormat : Admin.Format := {| Admin.toFixed2 := decimalToFixed2 |}.

(** What the mocked client and the mocked [Math.random] of the test suite
    have been prepared with. *)
Record Prepared := {
  draws : list Q;
  listings : list (Outcome Admin.ListTablesOutput);
  creations : list (Outcome Admin.CreateTableOutput);
  batches : list (Outcome Admin.BatchWriteItemOutput)
}.

Definition unprepared {A} : Outcome A :=
  Thrown (ServiceException "TypeError" "no answer prepared").

(** A client that plays back prepared answers; a draw that was not prepared
    is 0. *)
Definition scriptedAdmin : Admin.Client Prepared := {|
  Admin.Math_random := fun w =>
    match draws w with
    | x :: rest =>
        ({| draws := rest; listings := listings w; creations := creations w;
            batches := batches w |}, x)
    | [] => (w, 0%Q)
    end;
  Admin.client_listTables := fun w =>
    match listings w with
    | answer :: rest =>
        ({| draws := draws w; listings := rest; creations := creations w;
            batches := batches w |}, answer)
    | [] => (w, unprepared)
    end;
  Admin.client_createTable := fun _ w =>
    match creations w with
    | answer :: rest =>
        ({| draws := draws w; listings := listings w; creations := rest;
            batches := batches w |}, answer)
    | [] => (w, unprepared)
    end;
  Admin.client_batchWriteItem := fun _ w =>
    match batches w with
    | answer :: rest =>
        ({| draws := draws w; listings := listings w; creations := creations w;
            batches := rest |}, answer)
    | [] => (w, unprepared)
    end
|}.

(** The requests of the batches sent. *)
Definition requestsOf (events : list Admin.Event) : list Admin.WriteRequest :=
  events ≫= (fun e =>
    match e with
    | Admin.called_batchWriteItem params =>
        default [] (Admin.BatchWriteItemInput.RequestItems params !! DB_USERS_TABLE Config)
    | _ => []
    end).


(** The parameters of the batches sent. *)
Definition batchesOf (events : list Admin.Event) : list Admin.BatchWriteItemInput.t :=
  events ≫= (fun e =>
    match e with
    | Admin.called_batchWriteItem params => [params]
    | _ => []
    end).

(** The item that [seed] makes of the first user when the draws are 0.8
    and 0.5. *)
Definition seededItem : Item := {[
  "userId" := S "1";
  "balance" := N "5000.00";
  "currency" := S "USD"
]}.

Definition prepared (draws : list Q) (listings : list (Outcome Admin.ListTablesOutput))
    (creations : list (Outcome Admin.CreateTableOutput))
    (batches : list (Outcome Admin.BatchWriteItemOutput)) : Prepared := {|
  draws := draws;
  listings := listings;
  creations := creations;
  batches := batches
|}.

Definition listed (names : list string) : Outcome Admin.ListTablesOutput :=
  Returned {| Admin.TableNames := Some names |}.

Definition throttled : Exception :=
  ServiceException "ThrottlingException" "Rate exceeded".


(** * Properties *)

(** ** JavaScript truthiness *)

Lemma truthy_true (s : string) : JS.truthy s = true <-> s <> "".
Proof.
  unfold JS.truthy. destruct (String.eqb_spec s ""); simpl; split; congruence.
Qed.

Lemma truthy_false (s : string) : JS.truthy s = false <-> s = "".
Proof.
  unfold JS.truthy. destruct (String.eqb_spec s ""); simpl; split; congruence.
Qed.

Lemma isCredit_true (input : TransactionInput) :
  TransactService.isCredit input = true <-> type input = TransactionType.CREDIT.
Proof. unfold TransactService.isCredit. apply String.eqb_eq. Qed.

Lemma isCredit_DEBIT (input : TransactionInput) :
  type input = TransactionType.DEBIT -> TransactService.isCredit input = false.
Proof. unfold TransactService.isCredit. by intros ->. Qed.

(** ** [validate] *)

Lemma validate_Returned `{Runtime} (input : TransactionInput) :
  TransactService.validate input = Returned tt <->
  userId input <> "" /\ idempotentKey input <> "" /\ positiveAmount (amount input)
  /\ type input <> "".
Proof.
  unfold TransactService.validate, positiveAmount.
  rewrite <- !truthy_true.
  destruct (JS.truthy (userId input)), (JS.truthy (idempotentKey input)),
    (JS.truthy (amount input)), (JS.isNaN (Number (amount input))),
    (JS.le_zero (Number (amount input))), (JS.truthy (type input));
    simpl; split; try discriminate; try (intros (? & ? & (? & ? & ?) & ?); discriminate);
    intros _; repeat split; reflexivity.
Qed.

(** ** Running against a client *)

Section Client.

Context {W : Type} (client : Command -> W -> W * Outcome Output).

Lemma run_Send {A} (c : Command) (k : Outcome Output -> Async A) (w w' : W)
    (r : Outcome Output) :
  client c w = (w', r) -> run client (Send c k) w = run client (k r) w'.
Proof. intros E. simpl. by rewrite E. Qed.

Lemma sent_Send {A} (c : Command) (k : Outcome Output -> Async A) (w w' : W)
    (r : Outcome Output) :
  client c w = (w', r) -> sent client (Send c k) w = c :: sent client (k r) w'.
Proof. intros E. simpl. by rewrite E. Qed.

Lemma run_bind {A B} (f : A -> Async B) (p : Async A) (w : W) :
  run client (p ≫= f) w =
  match run client p w with
  | (w', Returned a) => run client (f a) w'
  | (w', Thrown e) => (w', Thrown e)
  end.
Proof.
  revert w. induction p as [a|e|c k IH]; intros w; [done..|].
  change (Send c k ≫= f) with (Send c (fun r => k r ≫= f)). simpl.
  destruct (client c w) as [w' r]. apply IH.
Qed.

Lemma run_checkExistingTransaction (config : TConfig) (key : string) (w w' : W)
    (r : Outcome Output) :
  client (ledgerGet config key) w = (w', r) ->
  run client
    (TransactService.checkExistingTransaction (TransactService.new config) key) w =
  (w', match r with
       | Returned response => Returned (Output_Item response)
       | Thrown e => Thrown e
       end).
Proof.
  intros E. unfold TransactService.checkExistingTransaction. simpl.
  unfold ledgerGet in E. rewrite E. by destruct r.
Qed.

End Client.

(** ** The store *)

Lemma readN_toString (z : Z) : Store.readN (JS.toString z) = Some (inject_Z z).
Proof.
  unfold Store.readN, JS.toString.
  rewrite NilZero.isi.
  - by rewrite DecimalZ.of_to.
  - destruct z; simpl; try discriminate.
    intros [= E]. by apply (DecimalPos.Unsigned.to_uint_nonnil p).
  - destruct z; simpl; try discriminate.
    intros [= E]. by apply (DecimalPos.Unsigned.to_uint_nonnil p).
Qed.

Lemma store_item_Some (i : Item) :
  map_Forall (fun _ v => is_Some (Store.store_value v)) i ->
  Store.store_item i = Some (omap Store.store_value i).
Proof. intros Hall. unfold Store.store_item. by rewrite decide_True. Qed.

Lemma store_item_None (i : Item) (k : string) (v : AttributeValue) :
  i !! k = Some v -> Store.store_value v = None -> Store.store_item i = None.
Proof.
  intros Hk Hv. unfold Store.store_item. rewrite decide_False; [done|].
  intros Hall. specialize (Hall k v Hk). simpl in Hall. rewrite Hv in Hall.
  by destruct Hall.
Qed.

Lemma getItem_state (db : Store.Database) (params : GetItemInput.t) :
  fst (Store.getItem db params) = db.
Proof.
  unfold Store.getItem. destruct (Store.table _); [|done].
  by destruct (Store.keyOf _ _).
Qed.

Lemma getUserItem_store (echo : bool) (db : Store.Database) (userId : string) :
  run (Store.send echo) (UserService.getUserItem (UserService.new Config) userId) db =
  (db, Returned (Store.wire_item <$> Store.Users db !! userId)).
Proof. reflexivity. Qed.

Lemma checkExistingTransaction_store (echo : bool) (db : Store.Database)
    (key : string) :
  run (Store.send echo)
    (TransactService.checkExistingTransaction (TransactService.new Config) key) db =
  (db, Returned (Store.wire_item <$> Store.Transactions db !! key)).
Proof. reflexivity. Qed.




(** Reads leave the store as it is. *)
Lemma readOnly_state {A} (echo : bool) (p : Async A) (db : Store.Database) :
  readOnly p -> fst (run (Store.send echo) p db) = db.
Proof.
  revert db. induction p as [a|e|c k IH]; intros db; simpl; [done..|].
  intros [Hc Hk]. destruct c as [params|ops]; [|done]. simpl.
  pose proof (getItem_state db params) as Hs.
  destruct (Store.getItem db params) as [db' r]. simpl in Hs. subst db'.
  by apply IH.
Qed.

Lemma readOnly_transact_catch (this : TransactService.t) (input : TransactionInput)
    (error : Exception) :
  readOnly (TransactService.transact_catch this input error).
Proof.
  destruct error; simpl; try done.
  destruct (_ && _); simpl; [done|].
  destruct (TransactService.idempotencyConflict _ _); simpl; [|done].
  split; [done|]. intros [response|e]; simpl; [|done].
  by destruct (Output_Item response).
Qed.

(** *** What the store makes of the operations of [transact] *)

Section Prepare.

Variable db : Store.Database.
Variable input : TransactionInput.
Variable now : Z.

Local Abbreviation this := (TransactService.new Config).
Local Abbreviation old := (Store.Users db !! userId input).

Lemma keyOf_userKey :
  Store.keyOf Store.UsersTable {[ "userId" := S (userId input) ]} = Some (userId input).
Proof. reflexivity. Qed.

Lemma store_item_userKey :
  Store.store_item {[ "userId" := S (userId input) ]} = Some (userKey (userId input)).
Proof.
  rewrite store_item_Some.
  - by rewrite omap_singleton_Some with (y := Store.Str (userId input)).
  - apply map_Forall_singleton. simpl. eauto.
Qed.

Ltac open_update :=
  unfold Store.prepare, TransactService.creditUserBalance,
    TransactService.debitUserBalance, Store.prepareUpdate;
  cbn [Update.TableName Update.Key Update.UpdateExpression
       Update.ExpressionAttributeValues Update.ExpressionAttributeNames
       Update.ConditionExpression TransactService._usersTableName this
       TransactService.new];
  change (Store.table (DB_USERS_TABLE Config)) with (Some Store.UsersTable);
  cbv beta iota;
  rewrite keyOf_userKey, store_item_userKey.

Lemma prepare_credit (a : Q) :
  Store.readN (amount input) = Some a ->
  Store.prepare db (TransactService.creditUserBalance this input) =
  Returned (creditVerdict db input a).
Proof.
  intros Ha. open_update.
  change (Store.readUpdateExpression _) with
    (Some ("#balance",
           Store.Plus (Store.IfNotExists "#balance" (Store.Placeholder ":zero"))
             (Store.Placeholder ":amount"))).
  rewrite store_item_Some.
  2:{ apply map_Forall_insert_2; [simpl; rewrite Ha; eauto|].
      apply map_Forall_singleton. simpl. eauto. }
  cbn [Store.readGuard Store.guardHolds Store.setValue Store.operand].
  rewrite !lookup_omap.
  change (({[ ":amount" := N (amount input); ":zero" := N "0" ]} : Item) !! ":amount")
    with (Some (N (amount input))).
  change (({[ ":amount" := N (amount input); ":zero" := N "0" ]} : Item) !! ":zero")
    with (Some (N "0")).
  cbn [mbind option_bind Store.store_value fmap option_fmap option_map].
  rewrite Ha. change (Store.readN "0") with (Some (inject_Z 0)).
  cbn [option_map]. unfold Store.fetch.
  change (Store.attribute {[ "#balance" := "balance" ]} "#balance") with "balance".
  change (Store.rows db Store.UsersTable !! userId input) with old.
  unfold creditVerdict. fold old. unfold balanceOf.
  by destruct (old ≫= _) as [[]|].
Qed.

Lemma prepare_debit (a : Q) :
  Store.readN (amount input) = Some a ->
  Store.prepare db (TransactService.debitUserBalance this input) =
  Returned (debitVerdict db input a).
Proof.
  intros Ha. open_update.
  change (Store.readUpdateExpression _) with
    (Some ("#balance",
           Store.Minus (Store.Path "#balance") (Store.Placeholder ":amount"))).
  rewrite store_item_Some.
  2:{ apply map_Forall_singleton. simpl. rewrite Ha. eauto. }
  change (Store.readGuard _) with
    (Some (Some (Store.And (Store.AttributeExists "#balance")
             (Store.GreaterOrEqual (Store.Path "#balance")
                (Store.Placeholder ":amount"))))).
  cbn [Store.guardHolds Store.holds Store.setValue Store.operand].
  rewrite !lookup_omap.
  change (({[ ":amount" := N (amount input) ]} : Item) !! ":amount")
    with (Some (N (amount input))).
  cbn [mbind option_bind Store.store_value fmap option_fmap option_map].
  rewrite Ha. cbn [option_map]. unfold Store.fetch.
  change (Store.attribute {[ "#balance" := "balance" ]} "#balance") with "balance".
  change (Store.rows db Store.UsersTable !! userId input) with old.
  unfold debitVerdict. fold old. unfold balanceOf.
  destruct (old ≫= _) as [[]|]; simpl; try reflexivity.
  by destruct (Qle_bool a q).
Qed.

Lemma prepare_unreadable (op : TransactWriteItem) :
  op = TransactService.creditUserBalance this input
  \/ op = TransactService.debitUserBalance this input ->
  Store.readN (amount input) = None ->
  Store.prepare db op = Store.malformed.
Proof.
  intros Hop Ha.
  assert (Hv : Store.store_value (N (amount input)) = None) by (simpl; by rewrite Ha).
  destruct Hop as [-> | ->]; open_update;
    rewrite (store_item_None _ ":amount" (N (amount input))); try done;
    by destruct (Store.readUpdateExpression _) as [[]|].
Qed.

Lemma store_item_ledgerRecord (a : Q) :
  Store.readN (amount input) = Some a ->
  Store.store_item {[
      "idempotencyKey" := S (idempotentKey input);
      "userId" := S (userId input);
      "amount" := N (amount input);
      "type" := S (type input);
      "timestamp" := N (JS.toString now)
    ]} = Some (ledgerRecord now input a).
Proof.
  intros Ha. rewrite store_item_Some.
  - f_equal. unfold ledgerRecord.
    rewrite (omap_insert_Some _ _ _ _ (Store.Str (idempotentKey input))) by done.
    rewrite (omap_insert_Some _ _ _ _ (Store.Str (userId input))) by done.
    rewrite (omap_insert_Some _ _ _ _ (Store.Num a)) by (simpl; by rewrite Ha).
    rewrite (omap_insert_Some _ _ _ _ (Store.Str (type input))) by done.
    by rewrite (omap_singleton_Some _ _ _ (Store.Num (inject_Z now)))
      by (simpl; by rewrite readN_toString).
  - repeat apply map_Forall_insert_2; try apply map_Forall_empty;
      simpl; rewrite ?Ha, ?readN_toString; eauto.
Qed.

Lemma prepare_insert (a : Q) :
  Store.readN (amount input) = Some a ->
  Store.prepare db (TransactService.insertNewTransaction this now input) =
  Returned (ledgerVerdict db now input a).
Proof.
  intros Ha.
  unfold Store.prepare, TransactService.insertNewTransaction, Store.preparePut.
  cbn [Put.TableName Put.Item Put.ConditionExpression
       TransactService._tableName this TransactService.new].
  change (Store.table (DB_TRANSACTIONS_TABLE Config))
    with (Some Store.TransactionsTable).
  cbv beta iota.
  rewrite (store_item_ledgerRecord a Ha).
  change (Store.keyOf Store.TransactionsTable _) with (Some (idempotentKey input)).
  change (Store.readGuard _) with
    (Some (Some (Store.AttributeNotExists "idempotencyKey"))).
  cbn [Store.guardHolds Store.holds]. unfold Store.fetch.
  change (Store.attribute ∅ "idempotencyKey") with "idempotencyKey".
  change (Store.rows db Store.TransactionsTable) with (Store.Transactions db).
  unfold ledgerVerdict. cbn zeta. by destruct (bool_decide _).
Qed.

(** The answer of the store to the atomic write of [transact]. *)
Lemma atomicWrite_store (echo : bool) :
  Store.send echo (atomicWrite Config now input) db =
  match Store.readN (amount input) with
  | None => (db, Store.malformed)
  | Some a =>
      let v1 := balanceVerdict db input a in
      let v2 := ledgerVerdict db now input a in
      if Store.passed v1 && Store.passed v2
      then (Store.commit (Store.commit db v1) v2,
            Returned TransactWriteItemsCommandOutput)
      else (db, Thrown (Store.cancelled echo [v1; v2]))
  end.
Proof.
  unfold atomicWrite. fold this.
  cbn [Store.send]. unfold Store.transactWriteItems. cbn [Store.prepareAll].
  destruct (Store.readN (amount input)) as [a|] eqn:Ha.
  - rewrite (prepare_insert a Ha).
    assert (Store.prepare db
              (if TransactService.isCredit input
               then TransactService.creditUserBalance this input
               else TransactService.debitUserBalance this input)
            = Returned (balanceVerdict db input a)) as ->.
    { unfold balanceVerdict. destruct (TransactService.isCredit input).
      - by apply prepare_credit.
      - by apply prepare_debit. }
    cbn [forallb foldl]. cbv zeta.
    by rewrite andb_true_r.
  - rewrite prepare_unreadable; [done| |done].
    destruct (TransactService.isCredit input); auto.
Qed.

End Prepare.

(** *** The services run against the store *)

Section StoreRuns.

Variable echo : bool.
Variable db : Store.Database.
Variable now : Z.
Variable input : TransactionInput.

Lemma transact_store :
  run (Store.send echo)
    (TransactService.transact (TransactService.new Config) now input) db =
  match Store.readN (amount input) with
  | None => (db, Store.malformed)
  | Some a =>
      let v1 := balanceVerdict db input a in
      let v2 := ledgerVerdict db now input a in
      if Store.passed v1 && Store.passed v2
      then (Store.commit (Store.commit db v1) v2, Returned tt)
      else run (Store.send echo)
             (TransactService.transact_catch (TransactService.new Config) input
                (Store.cancelled echo [v1; v2])) db
  end.
Proof.
  unfold TransactService.transact. cbn [run].
  change (TransactWriteItemsCommand _) with (atomicWrite Config now input).
  rewrite atomicWrite_store.
  destruct (Store.readN (amount input)) as [a|]; [|reflexivity].
  cbv zeta. destruct (Store.passed _ && Store.passed _); reflexivity.
Qed.

Lemma createTransactFn_store `{Runtime} :
  TransactService.validate input = Returned tt ->
  run (Store.send echo) (createTransactFn now input) db =
  match Store.Users db !! userId input with
  | None => (db, Thrown (UserNotFoundError (userId input)))
  | Some _ =>
      match Store.Transactions db !! idempotentKey input with
      | Some _ => (db, Returned tt)
      | None =>
          run (Store.send echo)
            (TransactService.transact (TransactService.new Config) now input) db
      end
  end.
Proof.
  intros Hvalid. unfold createTransactFn. rewrite Hvalid. cbv beta iota zeta.
  rewrite (run_bind (Store.send echo)), getUserItem_store.
  destruct (Store.Users db !! userId input) as [row|]; [|done].
  cbv beta iota delta [fmap option_fmap option_map].
  rewrite (run_bind (Store.send echo)), checkExistingTransaction_store.
  by destruct (Store.Transactions db !! idempotentKey input) as [record|].
Qed.

Lemma createTransactFn_invalid `{Runtime} (e : Exception) :
  TransactService.validate input = Thrown e ->
  run (Store.send echo) (createTransactFn now input) db = (db, Thrown e).
Proof. intros Hinvalid. unfold createTransactFn. by rewrite Hinvalid. Qed.

(** A rejected write never ends in success on the store: the pre-check of
    the ledger has no second chance there. *)
Lemma transact_catch_state (e : Exception) :
  fst (run (Store.send echo)
         (TransactService.transact_catch (TransactService.new Config) input e) db) = db.
Proof. apply readOnly_state, readOnly_transact_catch. Qed.

End StoreRuns.

(** What a successful run of the orchestrated operation has done. *)
Lemma createTransactFn_success `{Runtime} (echo : bool) (db db1 : Store.Database)
    (now : Z) (input : TransactionInput) :
  run (Store.send echo) (createTransactFn now input) db = (db1, Returned tt) ->
  TransactService.validate input = Returned tt
  /\ is_Some (Store.Users db !! userId input)
  /\ ((is_Some (Store.Transactions db !! idempotentKey input) /\ db1 = db)
      \/ (Store.Transactions db !! idempotentKey input = None
          /\ exists a : Q,
               Store.readN (amount input) = Some a
               /\ Store.passed (balanceVerdict db input a) = true
               /\ db1 = Store.commit (Store.commit db (balanceVerdict db input a))
                          (Store.Passed Store.TransactionsTable (idempotentKey input)
                             (ledgerRecord now input a)))).
Proof.
  intros Hrun.
  destruct (TransactService.validate input) as [[]|e] eqn:Hvalid.
  2:{ by rewrite (createTransactFn_invalid echo db now input e Hvalid) in Hrun. }
  split; [done|].
  rewrite (createTransactFn_store echo db now input Hvalid) in Hrun.
  destruct (Store.Users db !! userId input) as [row|] eqn:Hrow; [|done].
  split; [done|].
  destruct (Store.Transactions db !! idempotentKey input) as [record|] eqn:Hrecord.
  { left. split; [done|]. by injection Hrun as <-. }
  right. split; [done|].
  rewrite transact_store in Hrun.
  destruct (Store.readN (amount input)) as [a|] eqn:Hamount; [|done].
  exists a. split; [done|]. cbv zeta in Hrun.
  assert (Hledger : ledgerVerdict db now input a
            = Store.Passed Store.TransactionsTable (idempotentKey input)
                (ledgerRecord now input a)).
  { unfold ledgerVerdict. by rewrite Hrecord. }
  rewrite Hledger in Hrun. cbn [Store.passed] in Hrun. rewrite andb_true_r in Hrun.
  destruct (Store.passed (balanceVerdict db input a)) eqn:Hpassed.
  { split; [done|]. by injection Hrun as <-. }
  exfalso. revert Hrun Hpassed. unfold balanceVerdict, creditVerdict, debitVerdict.
  rewrite Hrow. simpl balanceOf.
  destruct (TransactService.isCredit input) eqn:Hcredit;
    destruct (row !! "balance") as [[]|]; simpl; rewrite ?Hcredit; simpl;
    try discriminate.
  destruct (Qle_bool a q); simpl; rewrite ?Hcredit; discriminate.
Qed.

(** A request whose key is in the ledger and whose user exists is a no-op. *)
Lemma createTransactFn_replay `{Runtime} (echo : bool) (db : Store.Database)
    (now : Z) (input : TransactionInput) :
  TransactService.validate input = Returned tt ->
  is_Some (Store.Users db !! userId input) ->
  is_Some (Store.Transactions db !! idempotentKey input) ->
  run (Store.send echo) (createTransactFn now input) db = (db, Returned tt).
Proof.
  intros Hvalid [row Hrow] [record Hrecord].
  by rewrite (createTransactFn_store echo db now input Hvalid), Hrow, Hrecord.
Qed.

Lemma commit_balanceVerdict_user (db : Store.Database) (input : TransactionInput)
    (a : Q) (userId' : string) :
  is_Some (Store.Users db !! userId') ->
  is_Some (Store.Users (Store.commit db (balanceVerdict db input a)) !! userId').
Proof.
  intros Huser.
  destruct (balanceVerdict db input a) as [t k new| |] eqn:Hv; simpl; try done.
  assert (t = Store.UsersTable) as ->.
  { revert Hv. unfold balanceVerdict, creditVerdict, debitVerdict.
    repeat case_match; congruence. }
  simpl. destruct (decide (k = userId')) as [->|Hne].
  - rewrite lookup_insert_eq. eauto.
  - by rewrite lookup_insert_ne.
Qed.

Lemma balanceVerdict_passed (db : Store.Database) (input : TransactionInput) (a : Q) :
  Store.passed (balanceVerdict db input a) = true ->
  exists q : Q,
    newBalance db input a q
    /\ Store.Users (Store.commit db (balanceVerdict db input a))
       = <[userId input := withBalance (Store.Users db !! userId input)
                             (userId input) q]> (Store.Users db).
Proof.
  unfold balanceVerdict, newBalance, creditVerdict, debitVerdict.
  destruct (TransactService.isCredit input);
    destruct (balanceOf (Store.Users db !! userId input)) as [[s|b|?|]|];
    simpl; try discriminate.
  - intros _. exists (b + a)%Q. split; [|done]. right. eauto.
  - intros _. exists (0 + a)%Q. split; [|done]. by left.
  - destruct (Qle_bool a b) eqn:Hle; simpl; [|discriminate].
    intros _. exists (b - a)%Q. split; [|done].
    exists b. split_and!; [done| |done]. by apply Qle_bool_iff.
Qed.

Lemma balanceVerdict_ledger (db : Store.Database) (input : TransactionInput) (a : Q) :
  Store.Transactions (Store.commit db (balanceVerdict db input a))
  = Store.Transactions db.
Proof.
  unfold balanceVerdict, creditVerdict, debitVerdict.
  repeat case_match; reflexivity.
Qed.

(** *** Balances under the two operations *)

Lemma nonnegative_balanceVerdict (db : Store.Database) (input : TransactionInput)
    (a : Q) :
  nonnegative db -> (0 < a)%Q ->
  nonnegative (Store.commit db (balanceVerdict db input a)).
Proof.
  intros Hdb Ha.
  assert (Hset : forall q, (0 <= q)%Q ->
            nonnegative
              (Store.commit db
                 (Store.Passed Store.UsersTable (userId input)
                    (withBalance (Store.Users db !! userId input) (userId input) q)))).
  { intros q Hq uid row b. simpl.
    destruct (decide (userId input = uid)) as [<-|Hne].
    - rewrite lookup_insert_eq. intros [= <-]. unfold withBalance.
      rewrite lookup_insert_eq. by intros [= <-].
    - rewrite lookup_insert_ne by done. apply Hdb. }
  unfold balanceVerdict, creditVerdict, debitVerdict.
  destruct (Store.Users db !! userId input) as [row|] eqn:Hrow; simpl.
  - destruct (row !! "balance") as [[s|b|?|]|] eqn:Hb;
      destruct (TransactService.isCredit input); simpl; try done.
    + apply Hset. pose proof (Hdb _ _ _ Hrow Hb). lra.
    + destruct (Qle_bool a b) eqn:Hle; [|done].
      apply Hset. apply Qle_bool_iff in Hle. lra.
    + apply Hset. lra.
  - destruct (TransactService.isCredit input); simpl; [|done].
    apply Hset. lra.
Qed.

Lemma nonnegative_ledgerVerdict (db : Store.Database) (now : Z)
    (input : TransactionInput) (a : Q) (db' : Store.Database) :
  nonnegative db ->
  nonnegative (Store.commit db (ledgerVerdict db' now input a)).
Proof.
  intros Hdb. unfold ledgerVerdict. by destruct (bool_decide _).
Qed.

(** ** The test suites, replayed

    [src/user/user.test.ts] and [src/transact/transact.test.ts] against the
    embedding, the mocked [send] being [scripted]. *)

Section UserServiceTests.

Local Abbreviation userService := (UserService.new mockConfig).
Local Abbreviation ask userId := ({| GetUserBalanceInput_userId := userId |}).

Example getUserBalance_without_userId :
  UserService.getUserBalance userService (ask "") = Throw InvalidUserIdError.
Proof. reflexivity. Qed.

Example getUserBalance_user_exists :
  run scripted (UserService.getUserBalance userService (ask "user123"))
    [resolved (Some {[ "balance" := N "200"; "currency" := S "EUR" ]})]
  = ([], Returned "200 EUR").
Proof. reflexivity. Qed.

Example getUserBalance_balance_undefined :
  run scripted (UserService.getUserBalance userService (ask "user123"))
    [resolved (Some ∅)]
  = ([], Returned "100 USD").
Proof. reflexivity. Qed.

Example getUserBalance_currency_undefined :
  run scripted (UserService.getUserBalance userService (ask "user123"))
    [resolved (Some {[ "balance" := N "200" ]})]
  = ([], Returned "200 USD").
Proof. reflexivity. Qed.

Example getUserBalance_user_missing :
  run scripted (UserService.getUserBalance userService (ask "nonexistentUser"))
    [resolved None]
  = ([], Thrown (UserNotFoundError "nonexistentUser")).
Proof. reflexivity. Qed.

Example getUserBalance_table_name :
  sent scripted (UserService.getUserBalance userService (ask "user123"))
    [resolved (Some {[ "balance" := N "200"; "currency" := S "EUR" ]})]
  = [GetItemCommand {|
       GetItemInput.TableName := "users-table";
       GetItemInput.Key := {[ "userId" := S "user123" ]}
     |}].
Proof. reflexivity. Qed.

Example getUserItem_store_error :
  run scripted (UserService.getUserItem userService "user123")
    [Thrown (Error "DynamoDB error")]
  = ([], Thrown (Error "DynamoDB error")).
Proof. reflexivity. Qed.

End UserServiceTests.

Section TransactServiceTests.

Local Abbreviation transactService := (TransactService.new mockConfig).
Local Abbreviation validate := (@TransactService.validate decimalRuntime).

Example validate_without_userId :
  validate (without true false false false) = Thrown (UserNotFoundError "").
Proof. reflexivity. Qed.

Example validate_without_idempotencyKey :
  validate (without false true false false) = Thrown InvalidIdempotencyKeyError.
Proof. reflexivity. Qed.

Example validate_without_amount :
  validate (without false false true false) = Thrown InvalidAmountError.
Proof. reflexivity. Qed.

Example validate_amount_not_a_number :
  validate {| userId := "user123"; idempotentKey := "key123";
              amount := "not-a-number"; type := TransactionType.CREDIT |}
  = Thrown InvalidAmountError.
Proof. reflexivity. Qed.

Example validate_amount_zero :
  validate {| userId := "user123"; idempotentKey := "key123";
              amount := "0"; type := TransactionType.CREDIT |}
  = Thrown InvalidAmountError.
Proof. reflexivity. Qed.

Example validate_without_type :
  validate (without false false false true) = Thrown InvalidTransactionTypeError.
Proof. reflexivity. Qed.

Example validate_valid_input : validate validInput = Returned tt.
Proof. reflexivity. Qed.

Example checkExistingTransaction_found :
  run scripted (TransactService.checkExistingTransaction transactService "key123")
    [resolved (Some mockTransaction)]
  = ([], Returned (Some mockTransaction))
  /\ sent scripted (TransactService.checkExistingTransaction transactService "key123")
       [resolved (Some mockTransaction)]
     = [GetItemCommand {|
          GetItemInput.TableName := "transactions-table";
          GetItemInput.Key := {[ "idempotencyKey" := S "key123" ]}
        |}].
Proof. split; reflexivity. Qed.

Example checkExistingTransaction_missing :
  run scripted (TransactService.checkExistingTransaction transactService "key123")
    [resolved None]
  = ([], Returned None).
Proof. reflexivity. Qed.

Example transact_credit :
  exists (u : Update.t) (p : Put.t),
    sent scripted (TransactService.transact transactService 1700 validInput)
      [resolved None; Returned TransactWriteItemsCommandOutput]
    = [TransactWriteItemsCommand [Update u; Put p]]
    /\ Update.UpdateExpression u
       = "SET #balance = if_not_exists(#balance, :zero) + :amount".
Proof. eexists _, _. split; reflexivity. Qed.

Example transact_debit :
  exists (u : Update.t) (p : Put.t),
    sent scripted (TransactService.transact transactService 1700 debitInput)
      [resolved None; Returned TransactWriteItemsCommandOutput]
    = [TransactWriteItemsCommand [Update u; Put p]]
    /\ Update.UpdateExpression u = "SET #balance = #balance - :amount"
    /\ Update.ConditionExpression u
       = Some "attribute_exists(#balance) AND #balance >= :amount".
Proof. eexists _, _. split_and!; reflexivity. Qed.

Example transact_insufficient :
  run scripted (TransactService.transact transactService 1700 debitInput)
    [Thrown balanceGuardFailed]
  = ([], Thrown InsufficientBalanceError).
Proof. reflexivity. Qed.

Example transact_idempotency_race :
  run scripted (TransactService.transact transactService 1700 validInput)
    [Thrown (ledgerGuardFailed "key123"); resolved (Some mockTransaction)]
  = ([], Returned tt).
Proof. reflexivity. Qed.

End TransactServiceTests.
(** ** The test suite of the seeding script, replayed

    [src/db/seed.test.ts] against the embedding, the mocked client and the
    mocked [Math.random] being [scriptedAdmin].  The suite replaces the
    configuration by one of its own; the replay keeps [Config]. *)

Section SeedTests.

Local Abbreviation seed := (@Admin.seed decimalFormat).
Local Abbreviation events p w := (snd (fst (Admin.perform scriptedAdmin p w))).
Local Abbreviation outcome p w := (snd (Admin.perform scriptedAdmin p w)).

Local Abbreviation mockResponse := ({|
  Admin.UnprocessedItems := Some ∅;
  Admin.BatchWriteItemOutput_ConsumedCapacity :=
    Some [ {| Admin.ConsumedCapacity_TableName := Some "users-table";
              Admin.CapacityUnits := Some 10%Q |} ]
|}).

Local Abbreviation unprocessedItem := (Admin.PutRequest {[
  "userId" := S "1";
  "balance" := N "100";
  "currency" := S "USD"
]}).

Example seed_expected_number_of_records :
  let sent := events (seed 5) (prepared [] [] [] [Returned mockResponse]) in
  List.length (batchesOf sent) = 1%nat
  /\ List.length (requestsOf sent) = 5%nat
  /\ map Admin.BatchWriteItemInput.ReturnItemCollectionMetrics (batchesOf sent) = ["SIZE"]
  /\ map Admin.BatchWriteItemInput.ReturnConsumedCapacity (batchesOf sent) = ["TOTAL"].
Proof. vm_compute. done. Qed.

Example seed_logs_unprocessed_items :
  let response := {|
    Admin.UnprocessedItems := Some {[ DB_USERS_TABLE Config := [unprocessedItem] ]};
    Admin.BatchWriteItemOutput_ConsumedCapacity :=
      Some [ {| Admin.ConsumedCapacity_TableName := Some "users-table";
                Admin.CapacityUnits := Some 10%Q |} ]
  |} in
  filter Admin.isWarning (events (seed 3) (prepared [] [] [] [Returned response]))
  = [Admin.printed (Admin.warn_unprocessed unprocessedItem)].
Proof. vm_compute. reflexivity. Qed.

Example seed_empty_response :
  let response := {|
    Admin.UnprocessedItems := None;
    Admin.BatchWriteItemOutput_ConsumedCapacity := None
  |} in
  outcome (seed 2) (prepared [] [] [] [Returned response]) = Returned tt
  /\ List.length (batchesOf (events (seed 2) (prepared [] [] [] [Returned response])))
     = 1%nat.
Proof. vm_compute. done. Qed.

Example seed_numeric_and_missing_balances :
  let response := {|
    Admin.UnprocessedItems := Some ∅;
    Admin.BatchWriteItemOutput_ConsumedCapacity := None
  |} in
  let draws := [8 # 10; 1 # 2; 2 # 10; 3 # 10]%Q in
  map (fun request =>
         match request with Admin.PutRequest item => item !! "balance" end)
    (requestsOf (events (seed 2) (prepared draws [] [] [Returned response])))
  = [Some (N "5000.00"); None].
Proof. vm_compute. reflexivity. Qed.

End SeedTests.


(** ** The specification, statement by statement *)

Section Claims.

Context {W : Type} (client : Command -> W -> W * Outcome Output).


(** C2, as amended.  Let the atomic write be rejected with [e].  If [e] is a
    cancellation that is not the balance-guard rejection of a debit and that
    reports, under [ConditionalCheckFailed], a record carrying the request's
    idempotency key, [transact] reads the ledger again for that key and sends
    nothing more: with a record found it returns normally, with none it
    fails with the generic error that carries the message of [e].  If [e] is
    not a cancelled transaction it is thrown again as it is.  A cancellation
    that matches neither guard pattern fails with the same generic error
    carrying its message. *)
Theorem transact_conflict_resolution (config : TConfig) (now : Z)
    (input : TransactionInput) (w w1 : W) (e : Exception) :
  client (atomicWrite config now input) w = (w1, Thrown e) ->
  let p := TransactService.transact (TransactService.new config) now input in
  (balanceGuardRejection input e = false ->
   ledgerGuardRejection input e = true ->
   forall (w2 : W) (reread : Outcome Output),
     client (ledgerGet config (idempotentKey input)) w1 = (w2, reread) ->
     sent client p w
       = [atomicWrite config now input; ledgerGet config (idempotentKey input)]
     /\ (forall response, reread = Returned response ->
         is_Some (Output_Item response) ->
         run client p w = (w2, Returned tt))
     /\ (forall response, reread = Returned response ->
         Output_Item response = None ->
         run client p w
           = (w2, Thrown (Error ("Transaction failed: " ++ Exception_message e)))))
  /\ ((forall message reasons, e <> TransactionCanceledException message reasons) ->
      run client p w = (w1, Thrown e))
  /\ (forall message reasons,
        e = TransactionCanceledException message reasons ->
        balanceGuardRejection input e = false ->
        ledgerGuardRejection input e = false ->
        run client p w = (w1, Thrown (Error ("Transaction failed: " ++ message)))).
Proof.
  intros Hwrite p. subst p. unfold TransactService.transact.
  rewrite (run_Send client _ _ w w1 _ Hwrite).
  rewrite (sent_Send client _ _ w w1 _ Hwrite).
  split; [|split].
  - intros Hbalance Hledger w2 reread Hread.
    destruct e as [| | | | | | | |message reasons|]; try discriminate.
    cbn [TransactService.transact_catch].
    simpl in Hbalance, Hledger. rewrite Hbalance, Hledger.
    rewrite (run_bind client).
    rewrite (run_checkExistingTransaction client config _ w1 w2 _ Hread).
    split; [|split].
    + change (?q ≫= ?f) with (bind f q). simpl.
      unfold ledgerGet in Hread. simpl in Hread. rewrite Hread.
      destruct reread as [response|e]; simpl; [|done].
      by destruct (Output_Item response).
    + by intros response -> [item ->].
    + by intros response -> ->.
  - intros Hother.
    destruct e as [| | | | | | | |message reasons|]; try reflexivity.
    by destruct (Hother message reasons).
  - intros message reasons -> Hbalance Hledger.
    cbn [TransactService.transact_catch]. simpl in Hbalance, Hledger.
    by rewrite Hbalance, Hledger.
Qed.


(** C5.  The orchestrated operation validates first, and a validation failure
    is thrown before anything is sent.  Then it looks the user up and fails
    with [UserNotFoundError] when there is no record, having sent nothing
    else.  Then it reads the ledger for the idempotency key and returns at
    once when a record exists.  Only otherwise does it go on to [transact],
    whose first command is the atomic write. *)
Theorem createTransactFn_order `{Runtime} (now : Z) (input : TransactionInput) (w : W) :
  let fn := createTransactFn now input in
  let lookup := usersGet Config (userId input) in
  let precheck := ledgerGet Config (idempotentKey input) in
  (forall e, TransactService.validate input = Thrown e ->
     run client fn w = (w, Thrown e) /\ sent client fn w = [])
  /\ (TransactService.validate input = Returned tt ->
      forall (w1 : W) (user : Output),
        client lookup w = (w1, Returned user) ->
        (Output_Item user = None ->
           run client fn w = (w1, Thrown (UserNotFoundError (userId input)))
           /\ sent client fn w = [lookup])
        /\ (is_Some (Output_Item user) ->
            forall (w2 : W) (existing : Output),
              client precheck w1 = (w2, Returned existing) ->
              (is_Some (Output_Item existing) ->
                 run client fn w = (w2, Returned tt)
                 /\ sent client fn w = [lookup; precheck])
              /\ (Output_Item existing = None ->
                  let rest := TransactService.transact (TransactService.new Config)
                                now input in
                  run client fn w = run client rest w2
                  /\ sent client fn w = lookup :: precheck :: sent client rest w2
                  /\ exists more, sent client rest w2
                                  = atomicWrite Config now input :: more))).
Proof.
  intros fn lookup precheck. subst fn lookup precheck. unfold createTransactFn.
  split.
  - intros e ->. done.
  - intros ->. intros w1 user Hlookup.
    change (bind ?f ?q) with (mbind f q). simpl.
    unfold usersGet in Hlookup. simpl in Hlookup. rewrite Hlookup. simpl.
    split.
    + by intros ->.
    + intros [item ->] w2 existing Hpre. simpl.
      unfold ledgerGet in Hpre. simpl in Hpre. rewrite Hpre. simpl.
      split.
      * by intros [record ->].
      * intros ->. cbv zeta. split_and!; try reflexivity.
        unfold TransactService.transact, atomicWrite. cbn [sent].
        destruct (client _ w2) as [w3 r]. eauto.
Qed.

(** C6, as amended.  [validate] is a function of the request alone and
    checks in this order, the first violation deciding: an empty [userId]
    throws [UserNotFoundError]; then an empty [idempotentKey] throws
    [InvalidIdempotencyKeyError]; then an [amount] that is empty, not a
    number or at most zero throws [InvalidAmountError]; then an empty [type]
    throws [InvalidTransactionTypeError]; a request with none of these
    passes, whatever its non-empty [type]. *)
Theorem validate_order `{Runtime} (input : TransactionInput) :
  (userId input = "" ->
     TransactService.validate input = Thrown (UserNotFoundError (userId input)))
  /\ (userId input <> "" -> idempotentKey input = "" ->
      TransactService.validate input = Thrown InvalidIdempotencyKeyError)
  /\ (userId input <> "" -> idempotentKey input <> "" ->
      (amount input = "" \/ JS.isNaN (Number (amount input)) = true
       \/ JS.le_zero (Number (amount input)) = true) ->
      TransactService.validate input = Thrown InvalidAmountError)
  /\ (userId input <> "" -> idempotentKey input <> "" ->
      positiveAmount (amount input) -> type input = "" ->
      TransactService.validate input = Thrown InvalidTransactionTypeError)
  /\ (userId input <> "" -> idempotentKey input <> "" ->
      positiveAmount (amount input) -> type input <> "" ->
      TransactService.validate input = Returned tt).
Proof.
  unfold TransactService.validate, positiveAmount.
  rewrite <- !truthy_true, <- !truthy_false.
  destruct (JS.truthy (userId input)), (JS.truthy (idempotentKey input)),
    (JS.truthy (amount input)), (JS.isNaN (Number (amount input))),
    (JS.le_zero (Number (amount input))), (JS.truthy (type input));
    simpl; repeat split; try done; intros; destruct_or?; destruct_and?; done.
Qed.

(** C9.  [getUserBalance] throws [InvalidUserIdError] for an empty [userId]
    without sending anything.  Otherwise it sends the one point read of the
    user and nothing else, so no write; it throws [UserNotFoundError] when
    no record comes back, returns the default amount and the default
    currency when the record has no [balance], and returns the stored
    balance with the default currency when the record has a balance but no
    [currency]. *)
Theorem getUserBalance_cases (config : TConfig) (input : GetUserBalanceInput)
    (w w' : W) (answer : Outcome Output) :
  let userId := GetUserBalanceInput_userId input in
  let fn := createUserBalanceFn config in
  (userId = "" -> fn input = Throw InvalidUserIdError)
  /\ (userId <> "" ->
      client (usersGet config userId) w = (w', answer) ->
      sent client (fn input) w = [usersGet config userId]
      /\ (forall response, answer = Returned response ->
          Output_Item response = None ->
          run client (fn input) w = (w', Thrown (UserNotFoundError userId)))
      /\ (forall response item, answer = Returned response ->
          Output_Item response = Some item ->
          item !! "balance" = None ->
          run client (fn input) w
            = (w', Returned (JS.toString (DEFAULT_BALANCE config) ++ " "
                             ++ DEFAULT_CURRENCY config)))
      /\ (forall response item n, answer = Returned response ->
          Output_Item response = Some item ->
          item !! "balance" = Some (N n) ->
          item !! "currency" = None ->
          run client (fn input) w
            = (w', Returned (n ++ " " ++ DEFAULT_CURRENCY config)))).
Proof.
  intros userId fn. subst fn.
  unfold createUserBalanceFn, UserService.getUserBalance. fold userId. split.
  - by intros ->.
  - intros Hu Hc. apply truthy_true in Hu. rewrite Hu. simpl.
    unfold usersGet in Hc. rewrite Hc. split.
    { destruct answer as [response|e]; simpl; [|done].
      destruct (Output_Item response) as [item|]; simpl; [|done].
      by destruct (item !! "balance"). }
    split; [|split].
    + intros response -> Hi. simpl. by rewrite Hi.
    + intros response item -> Hi Hb. simpl. rewrite Hi. simpl. by rewrite Hb.
    + intros response item n -> Hi Hb Hcur. simpl. rewrite Hi. simpl.
      by rewrite Hb, Hcur.
Qed.

End Claims.

Section Ledger.

Variable echo : bool.

(** C7.  A DEBIT on a user whose stored balance is below the amount fails
    with [InsufficientBalanceError] and leaves the store, balances and ledger
    alike, exactly as it was. *)
Theorem debit_insufficient_balance (db : Store.Database) (now : Z)
    (input : TransactionInput) (row : Store.Row) (b a : Q) :
  type input = TransactionType.DEBIT ->
  Store.Users db !! userId input = Some row ->
  row !! "balance" = Some (Store.Num b) ->
  Store.readN (amount input) = Some a ->
  (b < a)%Q ->
  run (Store.send echo)
    (TransactService.transact (TransactService.new Config) now input) db
  = (db, Thrown InsufficientBalanceError).
Proof.
  intros Hdebit Hrow Hbalance Hamount Hless.
  rewrite transact_store, Hamount. cbv zeta.
  unfold balanceVerdict, debitVerdict.
  rewrite (isCredit_DEBIT input Hdebit), Hrow. simpl. rewrite Hbalance.
  assert (Qle_bool a b = false) as ->.
  { apply not_true_is_false. rewrite Qle_bool_iff. lra. }
  simpl. by rewrite (isCredit_DEBIT input Hdebit).
Qed.

(** C8.  From a store in which every stored balance is at least zero, and
    for a request that passes validation, a run of [transact], and of the
    orchestrated operation, leaves every stored balance at least zero,
    whether it succeeds or fails. *)
Theorem balances_stay_nonnegative (rt : Runtime) (db : Store.Database) (now : Z)
    (input : TransactionInput) :
  agrees rt ->
  nonnegative db ->
  TransactService.validate input = Returned tt ->
  nonnegative
    (fst (run (Store.send echo)
            (TransactService.transact (TransactService.new Config) now input) db))
  /\ nonnegative (fst (run (Store.send echo) (createTransactFn now input) db)).
Proof.
  intros Hagree Hdb Hvalid.
  assert (Hrun : nonnegative
            (fst (run (Store.send echo)
                    (TransactService.transact (TransactService.new Config) now input)
                    db))).
  { rewrite transact_store.
    destruct (Store.readN (amount input)) as [a|] eqn:Hamount; [|done].
    cbv zeta. destruct (_ && _).
    - simpl. apply nonnegative_ledgerVerdict, nonnegative_balanceVerdict; [done|].
      apply validate_Returned in Hvalid as (_ & _ & (_ & Hnan & Hpos) & _).
      by apply (Hagree (amount input)).
    - by rewrite transact_catch_state. }
  split; [done|].
  rewrite (createTransactFn_store echo db now input Hvalid).
  destruct (Store.Users db !! userId input); [|done].
  by destruct (Store.Transactions db !! idempotentKey input).
Qed.

(** C4, as amended.  When a first invocation of the orchestrated operation
    succeeds, the ledger holds a record for the request's idempotency key; a
    second invocation of the same request succeeds and leaves the store
    exactly as the first left it; and the first invocation either found the
    record in place and changed nothing, or committed the atomic write once:
    the balance of the user moved by the amount once and one record went
    into the ledger under the key. *)
Theorem transact_twice (rt : Runtime) (db db1 : Store.Database) (now1 now2 : Z)
    (input : TransactionInput) :
  run (Store.send echo) (createTransactFn now1 input) db = (db1, Returned tt) ->
  is_Some (Store.Transactions db1 !! idempotentKey input)
  /\ run (Store.send echo) (createTransactFn now2 input) db1 = (db1, Returned tt)
  /\ ((is_Some (Store.Transactions db !! idempotentKey input) /\ db1 = db)
      \/ (Store.Transactions db !! idempotentKey input = None
          /\ exists a q : Q,
               Store.readN (amount input) = Some a
               /\ newBalance db input a q
               /\ Store.Users db1
                  = <[userId input := withBalance (Store.Users db !! userId input)
                                        (userId input) q]> (Store.Users db)
               /\ Store.Transactions db1
                  = <[idempotentKey input := ledgerRecord now1 input a]>
                      (Store.Transactions db))).
Proof.
  intros Hfirst.
  apply createTransactFn_success in Hfirst as (Hvalid & Huser & Hdone).
  assert (Hledger : is_Some (Store.Transactions db1 !! idempotentKey input)).
  { destruct Hdone as [[Hrecord ->]|(_ & a & _ & _ & ->)]; [done|].
    simpl. rewrite lookup_insert_eq. eauto. }
  assert (Huser1 : is_Some (Store.Users db1 !! userId input)).
  { destruct Hdone as [[_ ->]|(_ & a & _ & _ & ->)]; [done|].
    by apply commit_balanceVerdict_user. }
  split; [done|]. split; [by apply createTransactFn_replay|].
  destruct Hdone as [Hdone|(Hfresh & a & Hamount & Hpassed & ->)]; [by left|].
  right. split; [done|].
  destruct (balanceVerdict_passed db input a Hpassed) as (q & Hq & Husers).
  exists a, q. split_and!; try done.
  simpl. by rewrite balanceVerdict_ledger.
Qed.

(** C10, as amended.  After a call that succeeded, a second call with the
    same idempotency key that passes validation and names an existing user
    returns normally and leaves the store untouched, whatever its [userId],
    [amount] and [type].  Likewise, after a rejection that reports the
    request's key, [transact] returns normally as soon as the ledger read
    yields a record, whatever the record holds. *)
Theorem replay_ignores_fields (rt : Runtime) (db db1 : Store.Database)
    (now1 now2 : Z) (first second : TransactionInput) :
  (run (Store.send echo) (createTransactFn now1 first) db = (db1, Returned tt) ->
   idempotentKey second = idempotentKey first ->
   TransactService.validate second = Returned tt ->
   is_Some (Store.Users db1 !! userId second) ->
   run (Store.send echo) (createTransactFn now2 second) db1 = (db1, Returned tt))
  /\ (forall (W : Type) (client : Command -> W -> W * Outcome Output)
        (config : TConfig) (w w1 w2 : W) (e : Exception) (record : Item),
        client (atomicWrite config now2 second) w = (w1, Thrown e) ->
        balanceGuardRejection second e = false ->
        ledgerGuardRejection second e = true ->
        client (ledgerGet config (idempotentKey second)) w1
          = (w2, Returned (GetItemCommandOutput (Some record))) ->
        run client (TransactService.transact (TransactService.new config) now2 second) w
          = (w2, Returned tt)).
Proof.
  split.
  - intros Hfirst Hkey Hvalid Huser.
    apply createTransactFn_replay; [done..|]. rewrite Hkey.
    apply createTransactFn_success in Hfirst as (_ & _ & Hdone).
    destruct Hdone as [[Hrecord ->]|(_ & a & _ & _ & ->)]; [done|].
    simpl. rewrite lookup_insert_eq. eauto.
  - intros W client config w w1 w2 e record Hwrite Hbalance Hledger Hread.
    unfold TransactService.transact.
    rewrite (run_Send client _ _ w w1 _ Hwrite).
    destruct e; try discriminate. cbn [TransactService.transact_catch].
    simpl in Hbalance, Hledger. rewrite Hbalance, Hledger.
    rewrite (run_bind client).
    by rewrite (run_checkExistingTransaction client config _ w1 w2 _ Hread).
Qed.

End Ledger.

(** ** The scenarios, checked *)

Lemma agrees_decimalRuntime : agrees decimalRuntime.
Proof.
  intros s a Hread. simpl. unfold decimalNumber.
  destruct (String.eqb_spec s "") as [->|_]; [discriminate|].
  rewrite Hread. simpl. intros _ Hle.
  apply not_true_iff_false in Hle. rewrite Qle_bool_iff in Hle. lra.
Qed.

Lemma nonnegative_exampleStore : nonnegative exampleStore.
Proof.
  intros uid row b. simpl.
  destruct (decide (uid = "11")) as [->|Hne11].
  { intros [= <-]. discriminate. }
  rewrite lookup_insert_ne by done.
  destruct (decide (uid = "9")) as [->|Hne9].
  { intros [= <-]. intros [= <-]. done. }
  by rewrite lookup_singleton_ne.
Qed.


(** A cancellation that no guard explains is not thrown again as it is. *)
Lemma transact_rewraps_cancellation :
  let outcome :=
    run scripted
      (TransactService.transact (TransactService.new Config) 1700 creditRequest)
      [Thrown conflictingWriter] in
  balanceGuardRejection creditRequest conflictingWriter = false
  /\ ledgerGuardRejection creditRequest conflictingWriter = false
  /\ snd outcome = Thrown (Error "Transaction failed: Transaction cancelled")
  /\ snd outcome <> Thrown conflictingWriter.
Proof. vm_compute. split_and!; try reflexivity. discriminate. Qed.

Lemma transact_conflict_resolution_witness :
  let p := TransactService.transact (TransactService.new Config) 1700 creditRequest in
  let found := Returned (GetItemCommandOutput (Some {[ "idempotencyKey" := S "1" ]})) in
  let missing := Returned (GetItemCommandOutput None) in
  let throttled := ServiceException "ThrottlingException" "Rate exceeded" in
  run scripted p [Thrown (ledgerGuardFailed "1"); found] = ([], Returned tt)
  /\ run scripted p [Thrown (ledgerGuardFailed "1"); missing]
     = ([], Thrown (Error "Transaction failed: Transaction cancelled"))
  /\ run scripted p [Thrown throttled] = ([], Thrown throttled)
  /\ run scripted p [Thrown conflictingWriter]
     = ([], Thrown (Error "Transaction failed: Transaction cancelled")).
Proof.
  intros p found missing throttled. split_and!.
  - destruct (transact_conflict_resolution scripted Config 1700 creditRequest
                [Thrown (ledgerGuardFailed "1"); found] [found]
                (ledgerGuardFailed "1") eq_refl) as (Hreread & _ & _).
    destruct (Hreread eq_refl eq_refl [] found eq_refl) as (_ & Hfound & _).
    apply (Hfound (GetItemCommandOutput (Some {[ "idempotencyKey" := S "1" ]}))).
    + reflexivity.
    + simpl. eauto.
  - destruct (transact_conflict_resolution scripted Config 1700 creditRequest
                [Thrown (ledgerGuardFailed "1"); missing] [missing]
                (ledgerGuardFailed "1") eq_refl) as (Hreread & _ & _).
    destruct (Hreread eq_refl eq_refl [] missing eq_refl) as (_ & _ & Hmissing).
    apply (Hmissing (GetItemCommandOutput None)); reflexivity.
  - destruct (transact_conflict_resolution scripted Config 1700 creditRequest
                [Thrown throttled] [] throttled eq_refl) as (_ & Hother & _).
    apply Hother. discriminate.
  - destruct (transact_conflict_resolution scripted Config 1700 creditRequest
                [Thrown conflictingWriter] [] conflictingWriter eq_refl)
      as (_ & _ & Hunmatched).
    apply (Hunmatched "Transaction cancelled" _ eq_refl); reflexivity.
Defined.


Lemma createTransactFn_order_witness :
  let client := Store.send false in
  run client (@createTransactFn decimalRuntime 1700 zeroRequest) exampleStore
    = (exampleStore, Thrown InvalidAmountError)
  /\ sent client (@createTransactFn decimalRuntime 1700 zeroRequest) exampleStore = []
  /\ run client (@createTransactFn decimalRuntime 1700 strangerRequest) exampleStore
     = (exampleStore, Thrown (UserNotFoundError "404"))
  /\ sent client (@createTransactFn decimalRuntime 1700 strangerRequest) exampleStore
     = [usersGet Config "404"]
  /\ run client (@createTransactFn decimalRuntime 1800 creditRequest) creditedStore
     = (creditedStore, Returned tt)
  /\ sent client (@createTransactFn decimalRuntime 1800 creditRequest) creditedStore
     = [usersGet Config "11"; ledgerGet Config "1"]
  /\ sent client (@createTransactFn decimalRuntime 1700 creditRequest) exampleStore
     = [usersGet Config "11"; ledgerGet Config "1";
        atomicWrite Config 1700 creditRequest].
Proof.
  intros client.
  pose (found := fun (db : Store.Database) (u : string) =>
          GetItemCommandOutput (Store.wire_item <$> Store.Users db !! u)).
  pose (record := fun (db : Store.Database) (k : string) =>
          GetItemCommandOutput (Store.wire_item <$> Store.Transactions db !! k)).
  destruct (@createTransactFn_order _ client decimalRuntime 1700 zeroRequest
              exampleStore) as [Hinvalid _].
  destruct (Hinvalid InvalidAmountError eq_refl) as [Hrun0 Hsent0].
  destruct (@createTransactFn_order _ client decimalRuntime 1700 strangerRequest
              exampleStore) as [_ Hstranger].
  destruct (Hstranger eq_refl exampleStore (found exampleStore "404") eq_refl)
    as [Habsent _].
  destruct (Habsent eq_refl) as [Hrun1 Hsent1].
  destruct (@createTransactFn_order _ client decimalRuntime 1800 creditRequest
              creditedStore) as [_ Hreplay].
  destruct (Hreplay eq_refl creditedStore (found creditedStore "11") eq_refl)
    as [_ Hpresent].
  assert (Hsome : is_Some (Output_Item (found creditedStore "11")))
    by (vm_compute; eauto).
  destruct (Hpresent Hsome creditedStore (record creditedStore "1") eq_refl)
    as [Hexisting _].
  assert (Hsome' : is_Some (Output_Item (record creditedStore "1")))
    by (vm_compute; eauto).
  destruct (Hexisting Hsome') as [Hrun2 Hsent2].
  destruct (@createTransactFn_order _ client decimalRuntime 1700 creditRequest
              exampleStore) as [_ Hfresh].
  destruct (Hfresh eq_refl exampleStore (found exampleStore "11") eq_refl)
    as [_ Hpresent'].
  assert (Hsome'' : is_Some (Output_Item (found exampleStore "11")))
    by (vm_compute; eauto).
  destruct (Hpresent' Hsome'' exampleStore (record exampleStore "1") eq_refl)
    as [_ Hnone].
  destruct (Hnone eq_refl) as (_ & Hsent3 & _).
  split_and!; assumption.
Defined.

(** A type outside [TransactionType] passes. *)
Lemma validate_accepts_unknown_type :
  type refundRequest <> TransactionType.CREDIT
  /\ type refundRequest <> TransactionType.DEBIT
  /\ @TransactService.validate decimalRuntime refundRequest = Returned tt
  /\ @TransactService.validate decimalRuntime refundRequest
     <> Thrown InvalidTransactionTypeError.
Proof. vm_compute. split_and!; try discriminate. reflexivity. Qed.

Lemma validate_order_witness :
  let validate := @TransactService.validate decimalRuntime in
  let request := fun u k a t =>
    {| userId := u; idempotentKey := k; amount := a; type := t |} in
  validate (request "" "" "" "") = Thrown (UserNotFoundError "")
  /\ validate (request "user123" "" "" "") = Thrown InvalidIdempotencyKeyError
  /\ validate (request "user123" "key123" "not-a-number" "") = Thrown InvalidAmountError
  /\ validate (request "user123" "key123" "100" "")
     = Thrown InvalidTransactionTypeError
  /\ validate (request "user123" "key123" "100" "refund") = Returned tt.
Proof.
  intros validate request.
  assert (Hamount : @positiveAmount decimalRuntime "100").
  { split_and!; [discriminate|reflexivity..]. }
  split_and!.
  - apply (@validate_order decimalRuntime (request "" "" "" "")). reflexivity.
  - apply (@validate_order decimalRuntime (request "user123" "" "" ""));
      [discriminate|reflexivity].
  - apply (@validate_order decimalRuntime (request "user123" "key123" "not-a-number" ""));
      [discriminate..|]. right. left. reflexivity.
  - apply (@validate_order decimalRuntime (request "user123" "key123" "100" ""));
      [discriminate..|exact Hamount|reflexivity].
  - apply (@validate_order decimalRuntime (request "user123" "key123" "100" "refund"));
      [discriminate..|exact Hamount|discriminate].
Defined.

Lemma getUserBalance_cases_witness :
  let fn := createUserBalanceFn Config in
  let ask := fun u => {| GetUserBalanceInput_userId := u |} in
  fn (ask "") = Throw InvalidUserIdError
  /\ run (Store.send false) (fn (ask "404")) exampleStore
     = (exampleStore, Thrown (UserNotFoundError "404"))
  /\ run (Store.send false) (fn (ask "11")) exampleStore
     = (exampleStore, Returned "100 USD")
  /\ sent (Store.send false) (fn (ask "11")) exampleStore = [usersGet Config "11"]
  /\ run (Store.send false) (fn (ask "9")) exampleStore
     = (exampleStore, Returned "5 USD").
Proof.
  intros fn ask.
  pose (answer := fun (u : string) =>
          GetItemCommandOutput (Store.wire_item <$> Store.Users exampleStore !! u)).
  split_and!.
  - apply (getUserBalance_cases (Store.send false) Config (ask "")
             exampleStore exampleStore (Returned (answer ""))). reflexivity.
  - destruct (getUserBalance_cases (Store.send false) Config (ask "404")
                exampleStore exampleStore (Returned (answer "404"))) as [_ Hcases].
    destruct Hcases as (_ & Habsent & _); [discriminate|reflexivity|].
    apply (Habsent (answer "404")); reflexivity.
  - destruct (getUserBalance_cases (Store.send false) Config (ask "11")
                exampleStore exampleStore (Returned (answer "11"))) as [_ Hcases].
    destruct Hcases as (_ & _ & Hdefault & _); [discriminate|reflexivity|].
    apply (Hdefault (answer "11") {[ "userId" := S "11" ]}); reflexivity.
  - destruct (getUserBalance_cases (Store.send false) Config (ask "11")
                exampleStore exampleStore (Returned (answer "11"))) as [_ Hcases].
    destruct Hcases as (Hsent & _); [discriminate|reflexivity|].
    exact Hsent.
  - destruct (getUserBalance_cases (Store.send false) Config (ask "9")
                exampleStore exampleStore (Returned (answer "9"))) as [_ Hcases].
    destruct Hcases as (_ & _ & _ & Hstored); [discriminate|reflexivity|].
    apply (Hstored (answer "9") {[ "userId" := S "9"; "balance" := N "5" ]} "5");
      reflexivity.
Defined.

Lemma debit_insufficient_balance_witness :
  run (Store.send true)
    (TransactService.transact (TransactService.new Config) 1700 debitRequest)
    exampleStore
  = (exampleStore, Thrown InsufficientBalanceError).
Proof.
  apply (debit_insufficient_balance true exampleStore 1700 debitRequest
           {[ "userId" := Store.Str "9"; "balance" := Store.Num 5 ]} 5 10);
    try reflexivity.
Defined.

Lemma balances_stay_nonnegative_witness :
  nonnegative
    (fst (run (Store.send false)
            (TransactService.transact (TransactService.new Config) 1700 creditRequest)
            exampleStore))
  /\ nonnegative
       (fst (run (Store.send false) (@createTransactFn decimalRuntime 1700 debitRequest)
               exampleStore)).
Proof.
  split.
  - apply (balances_stay_nonnegative false decimalRuntime exampleStore 1700
             creditRequest agrees_decimalRuntime nonnegative_exampleStore).
    reflexivity.
  - apply (balances_stay_nonnegative false decimalRuntime exampleStore 1700
             debitRequest agrees_decimalRuntime nonnegative_exampleStore).
    reflexivity.
Defined.

(** Section 8: user ["9"] holds 5 and is debited 10, twice. *)
Lemma second_debit_fails :
  let first := run (Store.send false) (@createTransactFn decimalRuntime 1700 debitRequest)
                 exampleStore in
  let second := run (Store.send false) (@createTransactFn decimalRuntime 1800 debitRequest)
                  (fst first) in
  @TransactService.validate decimalRuntime debitRequest = Returned tt
  /\ snd second = Thrown InsufficientBalanceError
  /\ snd second <> Returned tt
  /\ Store.Transactions (fst second) !! idempotentKey debitRequest = None.
Proof. vm_compute. split_and!; try reflexivity. discriminate. Qed.

(** Section 8: user ["11"] has no balance and is credited 10, twice. *)
Lemma transact_twice_witness :
  is_Some (Store.Transactions creditedStore !! "1")
  /\ run (Store.send false) (@createTransactFn decimalRuntime 1800 creditRequest)
       creditedStore
     = (creditedStore, Returned tt)
  /\ Store.Users creditedStore !! "11"
     = Some {[ "userId" := Store.Str "11"; "balance" := Store.Num (0 + 10) ]}.
Proof.
  destruct (transact_twice false decimalRuntime exampleStore creditedStore 1700 1800
              creditRequest) as (Hrecord & Hsecond & Honce).
  - vm_compute. reflexivity.
  - split_and!; [exact Hrecord|exact Hsecond|reflexivity].
Defined.

(** A replay of the key of a credit that went through, for a user that
    does not exist. *)
Lemma replay_for_stranger_fails :
  let first := run (Store.send false) (@createTransactFn decimalRuntime 1700 creditRequest)
                 exampleStore in
  let second := run (Store.send false)
                  (@createTransactFn decimalRuntime 1800 strangerRequest) (fst first) in
  snd first = Returned tt
  /\ idempotentKey strangerRequest = idempotentKey creditRequest
  /\ @TransactService.validate decimalRuntime strangerRequest = Returned tt
  /\ snd second = Thrown (UserNotFoundError "404")
  /\ snd second <> Returned tt.
Proof. vm_compute. split_and!; try reflexivity. discriminate. Qed.

Lemma replay_ignores_fields_witness :
  run (Store.send false) (@createTransactFn decimalRuntime 1800 otherRequest)
    creditedStore
  = (creditedStore, Returned tt)
  /\ run scripted
       (TransactService.transact (TransactService.new Config) 1800 otherRequest)
       [Thrown (ledgerGuardFailed "1");
        Returned (GetItemCommandOutput
                    (Some (Store.wire_item (ledgerRecord 1700 creditRequest 10))))]
     = ([], Returned tt).
Proof.
  destruct (replay_ignores_fields false decimalRuntime exampleStore creditedStore
              1700 1800 creditRequest otherRequest) as [Hreplay Hreread].
  split.
  - apply Hreplay.
    + vm_compute. reflexivity.
    + reflexivity.
    + reflexivity.
    + vm_compute. eauto.
  - apply (Hreread _ scripted Config _
             [Returned (GetItemCommandOutput
                          (Some (Store.wire_item (ledgerRecord 1700 creditRequest 10))))]
             [] (ledgerGuardFailed "1")
             (Store.wire_item (ledgerRecord 1700 creditRequest 10)));
      reflexivity.
Defined.

(** Whether a second [transact] with a key already in the ledger returns
    normally depends on the store handing back the record that stood in
    the way. *)
Example transact_replay_with_record :
  snd (run (Store.send true)
         (TransactService.transact (TransactService.new Config) 1800 creditRequest)
         creditedStore)
  = Returned tt.
Proof. vm_compute. reflexivity. Qed.

Example transact_replay_without_record :
  run (Store.send false)
    (TransactService.transact (TransactService.new Config) 1800 creditRequest)
    creditedStore
  = (creditedStore, Thrown (Error ("Transaction failed: " ++ cancelledMessage))).
Proof. vm_compute. reflexivity. Qed.

(** * Further properties of the services *)

(** ** The atomic write on the store *)

Lemma ledgerVerdict_passed (db : Store.Database) (now : Z) (input : TransactionInput)
    (a : Q) :
  Store.passed (ledgerVerdict db now input a) = true ->
  ledgerVerdict db now input a
  = Store.Passed Store.TransactionsTable (idempotentKey input)
      (ledgerRecord now input a).
Proof. unfold ledgerVerdict. by destruct (bool_decide _). Qed.

Lemma transact_store_cases (echo : bool) (db db' : Store.Database) (now : Z)
    (input : TransactionInput) (out : Outcome unit) :
  run (Store.send echo)
    (TransactService.transact (TransactService.new Config) now input) db
  = (db', out) ->
  db' = db
  \/ (out = Returned tt
      /\ exists a q : Q,
           Store.readN (amount input) = Some a
           /\ newBalance db input a q
           /\ db' = written db now input a q).
Proof.
  rewrite transact_store.
  destruct (Store.readN (amount input)) as [a|] eqn:Hamount.
  2:{ intros [= <- _]. by left. }
  cbv zeta.
  destruct (Store.passed (balanceVerdict db input a)) eqn:Hbalance;
    destruct (Store.passed (ledgerVerdict db now input a)) eqn:Hledger;
    cbn [andb].
  2-4: intros Hrun; left;
    by rewrite <- (transact_catch_state echo db input
                     (Store.cancelled echo
                        [balanceVerdict db input a; ledgerVerdict db now input a])),
       Hrun.
  intros [= <- <-]. right. split; [done|].
  destruct (balanceVerdict_passed db input a Hbalance) as (q & Hq & Husers).
  exists a, q. split_and!; try done.
  rewrite (ledgerVerdict_passed db now input a Hledger).
  unfold written. rewrite <- Husers. simpl.
  by rewrite balanceVerdict_ledger.
Qed.

Lemma createTransactFn_store_cases `{Runtime} (echo : bool) (db db' : Store.Database)
    (now : Z) (input : TransactionInput) (out : Outcome unit) :
  run (Store.send echo) (createTransactFn now input) db = (db', out) ->
  db' = db
  \/ (out = Returned tt
      /\ Store.Transactions db !! idempotentKey input = None
      /\ exists a q : Q,
           Store.readN (amount input) = Some a
           /\ newBalance db input a q
           /\ db' = written db now input a q).
Proof.
  destruct (TransactService.validate input) as [[]|e] eqn:Hvalid.
  2:{ rewrite (createTransactFn_invalid echo db now input e Hvalid).
      intros [= <- _]. by left. }
  rewrite (createTransactFn_store echo db now input Hvalid).
  destruct (Store.Users db !! userId input) as [row|]; [|intros [= <- _]; by left].
  destruct (Store.Transactions db !! idempotentKey input) as [record|] eqn:Hfresh;
    [intros [= <- _]; by left|].
  intros Hrun.
  destruct (transact_store_cases echo db db' now input out Hrun)
    as [->|(-> & Hwritten)]; [by left|by right].
Qed.

Lemma written_other_user (db : Store.Database) (now : Z) (input : TransactionInput)
    (a q : Q) (u : string) :
  u <> userId input ->
  Store.Users (written db now input a q) !! u = Store.Users db !! u.
Proof. intros Hne. simpl. by rewrite lookup_insert_ne. Qed.

Lemma written_other_key (db : Store.Database) (now : Z) (input : TransactionInput)
    (a q : Q) (k : string) :
  k <> idempotentKey input ->
  Store.Transactions (written db now input a q) !! k = Store.Transactions db !! k.
Proof. intros Hne. simpl. by rewrite lookup_insert_ne. Qed.

Lemma keyed_written (db : Store.Database) (now : Z) (input : TransactionInput)
    (a q : Q) :
  keyed db -> keyed (written db now input a q).
Proof.
  intros [Husers Hledger]. split.
  - intros u row. simpl.
    destruct (decide (userId input = u)) as [<-|Hne].
    + rewrite lookup_insert_eq. intros [= <-]. unfold withBalance.
      rewrite lookup_insert_ne by done.
      destruct (Store.Users db !! userId input) as [old|] eqn:Hold; simpl.
      * by apply Husers.
      * reflexivity.
    + rewrite lookup_insert_ne by done. apply Husers.
  - intros k row. simpl.
    destruct (decide (idempotentKey input = k)) as [<-|Hne].
    + rewrite lookup_insert_eq. by intros [= <-].
    + rewrite lookup_insert_ne by done. apply Hledger.
Qed.

Section StoreEffects.

Variable echo : bool.

Lemma credited_user_on_store `{Runtime} (db : Store.Database) (now : Z)
    (input : TransactionInput) (row : Store.Row) (a : Q) :
  TransactService.validate input = Returned tt ->
  type input = TransactionType.CREDIT ->
  Store.Users db !! userId input = Some row ->
  Store.Transactions db !! idempotentKey input = None ->
  Store.readN (amount input) = Some a ->
  row !! "balance" = None ->
  exists after : Store.Database,
    run (Store.send echo) (createTransactFn now input) db = (after, Returned tt)
    /\ Store.Users after !! userId input
       = Some (<["balance" := Store.Num (0 + a)]> row).
Proof.
  intros Hvalid Hcredit Hrow Hfresh Hamount Hnone.
  apply isCredit_true in Hcredit.
  rewrite (createTransactFn_store echo db now input Hvalid), Hrow, Hfresh.
  rewrite transact_store, Hamount. cbv zeta.
  unfold balanceVerdict, creditVerdict, ledgerVerdict.
  rewrite Hcredit, Hrow, Hfresh. simpl balanceOf. rewrite Hnone. simpl.
  eexists. split; [reflexivity|]. simpl. by rewrite lookup_insert_eq.
Qed.

(** X1.  [transact] on the store is all or nothing: a call that throws
    leaves the store as it was, and any call either leaves the store as it
    was or returns normally with both the balance of the user updated and
    the ledger record inserted. *)
Theorem transact_all_or_nothing (db : Store.Database) (now : Z)
    (input : TransactionInput) :
  let result :=
    run (Store.send echo)
      (TransactService.transact (TransactService.new Config) now input) db in
  (forall e, snd result = Thrown e -> fst result = db)
  /\ (fst result = db
      \/ (snd result = Returned tt
          /\ exists a q : Q,
               Store.readN (amount input) = Some a
               /\ newBalance db input a q
               /\ fst result = written db now input a q)).
Proof.
  intros result.
  destruct result as [db' out] eqn:Hrun. subst result.
  destruct (transact_store_cases echo db db' now input out Hrun)
    as [->|(-> & Hwritten)]; simpl.
  - split; [done|by left].
  - split; [discriminate|]. right. by split.
Qed.

(** X2.  A call touches nothing but the user and the idempotency key of
    its request: every other user and every other ledger record is the same
    after [transact], and after the orchestrated operation, as before. *)
Theorem transact_frame (rt : Runtime) (db : Store.Database) (now : Z)
    (input : TransactionInput) (u k : string) :
  u <> userId input ->
  k <> idempotentKey input ->
  let after :=
    fst (run (Store.send echo)
           (TransactService.transact (TransactService.new Config) now input) db) in
  let after' := fst (run (Store.send echo) (createTransactFn now input) db) in
  Store.Users after !! u = Store.Users db !! u
  /\ Store.Transactions after !! k = Store.Transactions db !! k
  /\ Store.Users after' !! u = Store.Users db !! u
  /\ Store.Transactions after' !! k = Store.Transactions db !! k.
Proof.
  intros Hu Hk after after'.
  assert (Hafter : after = db \/ exists a q, after = written db now input a q).
  { subst after. clear after'.
    destruct (run (Store.send echo)
                (TransactService.transact (TransactService.new Config) now input) db)
      as [db1 out] eqn:Hrun.
    destruct (transact_store_cases echo db db1 now input out Hrun)
      as [->|(_ & a & q & _ & _ & ->)]; eauto. }
  assert (Hafter' : after' = db \/ exists a q, after' = written db now input a q).
  { subst after'. clear Hafter. clear after.
    destruct (run (Store.send echo) (createTransactFn now input) db)
      as [db1 out] eqn:Hrun.
    destruct (createTransactFn_store_cases echo db db1 now input out Hrun)
      as [->|(_ & _ & a & q & _ & _ & ->)]; eauto. }
  destruct Hafter as [->|(a & q & ->)], Hafter' as [->|(a' & q' & ->)];
    split_and!; try done;
    by (apply written_other_user || apply written_other_key).
Qed.

(** X3.  The ledger is append-only under the orchestrated operation: a
    record that is in the ledger is still there, unchanged, after any call,
    whatever the request.  [transact] alone keeps it too when the record
    carries its key attribute. *)
Theorem ledger_append_only (rt : Runtime) (db : Store.Database) (now : Z)
    (input : TransactionInput) (k : string) (record : Store.Row) :
  Store.Transactions db !! k = Some record ->
  Store.Transactions (fst (run (Store.send echo) (createTransactFn now input) db)) !! k
  = Some record
  /\ (is_Some (record !! "idempotencyKey") ->
      Store.Transactions
        (fst (run (Store.send echo)
                (TransactService.transact (TransactService.new Config) now input) db))
        !! k
      = Some record).
Proof.
  intros Hrecord. split.
  - destruct (run (Store.send echo) (createTransactFn now input) db)
      as [db1 out] eqn:Hrun. simpl fst.
    destruct (createTransactFn_store_cases echo db db1 now input out Hrun)
      as [->|(_ & Hfresh & a & q & _ & _ & ->)]; [done|].
    rewrite written_other_key; [done|]. intros ->. congruence.
  - intros Hkey. rewrite transact_store.
    destruct (Store.readN (amount input)) as [a|]; [|done]. cbv zeta.
    destruct (Store.passed (balanceVerdict db input a)) eqn:Hbalance;
      destruct (Store.passed (ledgerVerdict db now input a)) eqn:Hledger;
      cbn [andb]; try by rewrite transact_catch_state.
    simpl fst. rewrite (ledgerVerdict_passed db now input a Hledger).
    simpl. rewrite balanceVerdict_ledger.
    rewrite lookup_insert_ne; [done|]. intros <-.
    revert Hledger. unfold ledgerVerdict. rewrite Hrecord. simpl.
    by rewrite bool_decide_true.
Qed.

(** X4.  If every row of the store carries the key it is stored under, it
    still does after [transact] and after the orchestrated operation. *)
Theorem keyed_preserved (rt : Runtime) (db : Store.Database) (now : Z)
    (input : TransactionInput) :
  keyed db ->
  keyed (fst (run (Store.send echo)
                (TransactService.transact (TransactService.new Config) now input) db))
  /\ keyed (fst (run (Store.send echo) (createTransactFn now input) db)).
Proof.
  intros Hkeyed. split.
  - destruct (run (Store.send echo)
                (TransactService.transact (TransactService.new Config) now input) db)
      as [db1 out] eqn:Hrun. simpl fst.
    destruct (transact_store_cases echo db db1 now input out Hrun)
      as [->|(_ & a & q & _ & _ & ->)]; [done|by apply keyed_written].
  - destruct (run (Store.send echo) (createTransactFn now input) db)
      as [db1 out] eqn:Hrun. simpl fst.
    destruct (createTransactFn_store_cases echo db db1 now input out Hrun)
      as [->|(_ & _ & a & q & _ & _ & ->)]; [done|by apply keyed_written].
Qed.


(** X6.  A DEBIT that passes validation, for a user whose balance is at
    least the amount, equal included, and under a key that is not in the
    ledger, returns normally; the balance is then the old balance minus the
    amount and the ledger holds the record of the request. *)
Theorem debit_effect (rt : Runtime) (db : Store.Database) (now : Z)
    (input : TransactionInput) (row : Store.Row) (a b : Q) :
  TransactService.validate input = Returned tt ->
  type input = TransactionType.DEBIT ->
  Store.Users db !! userId input = Some row ->
  row !! "balance" = Some (Store.Num b) ->
  Store.Transactions db !! idempotentKey input = None ->
  Store.readN (amount input) = Some a ->
  (a <= b)%Q ->
  exists after : Store.Database,
    run (Store.send echo) (createTransactFn now input) db = (after, Returned tt)
    /\ Store.Users after !! userId input
       = Some (<["balance" := Store.Num (b - a)]> row)
    /\ Store.Transactions after !! idempotentKey input
       = Some (ledgerRecord now input a).
Proof.
  intros Hvalid Hdebit Hrow Hbalance Hfresh Hamount Hle.
  rewrite (createTransactFn_store echo db now input Hvalid), Hrow, Hfresh.
  rewrite transact_store, Hamount. cbv zeta.
  unfold balanceVerdict, debitVerdict, ledgerVerdict.
  rewrite (isCredit_DEBIT input Hdebit), Hrow, Hfresh. simpl balanceOf.
  rewrite Hbalance. apply Qle_bool_iff in Hle. rewrite Hle. simpl.
  eexists. split; [reflexivity|]. simpl. by rewrite !lookup_insert_eq.
Qed.


(** X8.  What the orchestrated operation has written under a new key,
    [checkExistingTransaction] reads back: a record with the idempotency
    key, the user and the type of the request, its amount and the time of
    the call. *)
Theorem ledger_round_trip (rt : Runtime) (db after : Store.Database) (now : Z)
    (input : TransactionInput) :
  Store.Transactions db !! idempotentKey input = None ->
  run (Store.send echo) (createTransactFn now input) db = (after, Returned tt) ->
  exists (item : Item) (a : Q),
    run (Store.send echo)
      (TransactService.checkExistingTransaction (TransactService.new Config)
         (idempotentKey input)) after
    = (after, Returned (Some item))
    /\ Store.readN (amount input) = Some a
    /\ item !! "idempotencyKey" = Some (S (idempotentKey input))
    /\ item !! "userId" = Some (S (userId input))
    /\ item !! "type" = Some (S (type input))
    /\ item !! "amount" = Some (N (Store.printN a))
    /\ item !! "timestamp" = Some (N (Store.printN (inject_Z now))).
Proof.
  intros Hfresh Hrun.
  apply createTransactFn_success in Hrun as (_ & _ & Hdone).
  destruct Hdone as [[[record Hrecord] _]|(_ & a & Hamount & _ & ->)];
    [congruence|].
  exists (Store.wire_item (ledgerRecord now input a)), a.
  rewrite checkExistingTransaction_store. simpl.
  rewrite lookup_insert_eq. split_and!; try done.
Qed.

(** X9.  The default balance is shown, never stored.  For a user that
    exists with a currency and no balance, [getUserBalance] shows the
    default amount and the default currency; once a CREDIT of that user has
    gone through it shows the amount credited, with the stored currency,
    and not the default plus the amount. *)
Theorem default_balance_is_display_only (rt : Runtime) (db : Store.Database)
    (now : Z) (input : TransactionInput) (row : Store.Row) (a : Q)
    (currency : string) :
  TransactService.validate input = Returned tt ->
  type input = TransactionType.CREDIT ->
  Store.Users db !! userId input = Some row ->
  row !! "balance" = None ->
  row !! "currency" = Some (Store.Str currency) ->
  currency <> "" ->
  Store.Transactions db !! idempotentKey input = None ->
  Store.readN (amount input) = Some a ->
  let ask := {| GetUserBalanceInput_userId := userId input |} in
  let after := fst (run (Store.send echo) (createTransactFn now input) db) in
  run (Store.send echo) (createUserBalanceFn Config ask) db
  = (db, Returned "100 USD")
  /\ run (Store.send echo) (createUserBalanceFn Config ask) after
     = (after, Returned (Store.printN (0 + a) ++ " " ++ currency)).
Proof.
  intros Hvalid Hcredit Hrow Hbalance Hcurrency Hshown Hfresh Hamount ask after.
  assert (Huser : userId input <> "").
  { by apply validate_Returned in Hvalid as (? & _). }
  apply truthy_true in Huser. apply truthy_true in Hshown.
  assert (Hafter : Store.Users after !! userId input
                   = Some (<["balance" := Store.Num (0 + a)]> row)).
  { subst after.
    destruct (credited_user_on_store db now input row a Hvalid Hcredit Hrow Hfresh
                Hamount Hbalance) as (db1 & -> & Hdb1).
    exact Hdb1. }
  unfold createUserBalanceFn, UserService.getUserBalance. subst ask.
  cbn [GetUserBalanceInput_userId]. rewrite Huser. cbn [negb].
  rewrite !(run_bind (Store.send echo)), !getUserItem_store.
  rewrite Hrow, Hafter. cbn [fmap option_fmap option_map].
  unfold Store.wire_item. rewrite !lookup_fmap.
  rewrite Hbalance. rewrite lookup_insert_eq.
  rewrite lookup_insert_ne by done. rewrite Hcurrency.
  cbn [fmap option_fmap option_map Store.wire_value mbind option_bind
       AttributeValue_S AttributeValue_N UserService.print_string].
  rewrite Hshown. split; reflexivity.
Qed.

End StoreEffects.

Lemma transact_all_or_nothing_witness :
  fst (run (Store.send false)
         (TransactService.transact (TransactService.new Config) 1700 debitRequest)
         exampleStore)
  = exampleStore.
Proof.
  apply (proj1 (transact_all_or_nothing false exampleStore 1700 debitRequest)
           InsufficientBalanceError).
  vm_compute. reflexivity.
Defined.

Lemma transact_frame_witness :
  let after :=
    fst (run (Store.send false) (@createTransactFn decimalRuntime 1700 creditRequest)
           exampleStore) in
  Store.Users after !! "9" = Store.Users exampleStore !! "9"
  /\ Store.Transactions after !! "5" = Store.Transactions exampleStore !! "5".
Proof.
  destruct (transact_frame false decimalRuntime exampleStore 1700 creditRequest "9" "5")
    as (_ & _ & Husers & Hledger); [discriminate..|].
  by split.
Defined.

Lemma ledger_append_only_witness :
  Store.Transactions
    (fst (run (Store.send false) (@createTransactFn decimalRuntime 1800 otherRequest)
            creditedStore)) !! "1"
  = Some (ledgerRecord 1700 creditRequest 10)
  /\ Store.Transactions
       (fst (run (Store.send true)
               (TransactService.transact (TransactService.new Config) 1800 otherRequest)
               creditedStore)) !! "1"
     = Some (ledgerRecord 1700 creditRequest 10).
Proof.
  destruct (ledger_append_only true decimalRuntime creditedStore 1800 otherRequest "1"
              (ledgerRecord 1700 creditRequest 10) eq_refl) as [_ Halone].
  destruct (ledger_append_only false decimalRuntime creditedStore 1800 otherRequest "1"
              (ledgerRecord 1700 creditRequest 10) eq_refl) as [Horchestrated _].
  split; [exact Horchestrated|]. apply Halone. vm_compute. eauto.
Defined.

Lemma keyed_exampleStore : keyed exampleStore.
Proof.
  split.
  - intros u row. simpl.
    destruct (decide (u = "11")) as [->|Hne11]; [by intros [= <-]|].
    rewrite lookup_insert_ne by done.
    destruct (decide (u = "9")) as [->|Hne9]; [by intros [= <-]|].
    by rewrite lookup_singleton_ne.
  - intros k row. simpl. by rewrite lookup_empty.
Qed.

Lemma keyed_preserved_witness :
  keyed (fst (run (Store.send false)
                (@createTransactFn decimalRuntime 1700 creditRequest) exampleStore)).
Proof.
  apply (keyed_preserved false decimalRuntime exampleStore 1700 creditRequest
           keyed_exampleStore).
Defined.


Lemma debit_effect_witness :
  exists after : Store.Database,
    run (Store.send false) (@createTransactFn decimalRuntime 1700 exactRequest)
      exampleStore
    = (after, Returned tt)
    /\ Store.Users after !! "9"
       = Some {[ "userId" := Store.Str "9"; "balance" := Store.Num (5 - 5) ]}
    /\ Store.Transactions after !! "7" = Some (ledgerRecord 1700 exactRequest 5).
Proof.
  destruct (debit_effect false decimalRuntime exampleStore 1700 exactRequest
              {[ "userId" := Store.Str "9"; "balance" := Store.Num 5 ]} 5%Q 5%Q)
    as (after & Hrun & Huser & Hrecord); try reflexivity; [discriminate|].
  exists after. split_and!; [exact Hrun|exact Huser|exact Hrecord].
Defined.


Lemma ledger_round_trip_witness :
  exists (item : Item) (a : Q),
    run (Store.send false)
      (TransactService.checkExistingTransaction (TransactService.new Config) "1")
      creditedStore
    = (creditedStore, Returned (Some item))
    /\ Store.readN "10" = Some a
    /\ item !! "idempotencyKey" = Some (S "1")
    /\ item !! "userId" = Some (S "11")
    /\ item !! "type" = Some (S "credit")
    /\ item !! "amount" = Some (N (Store.printN a))
    /\ item !! "timestamp" = Some (N (Store.printN (inject_Z 1700))).
Proof.
  apply (ledger_round_trip false decimalRuntime exampleStore creditedStore 1700
           creditRequest).
  - reflexivity.
  - vm_compute. reflexivity.
Defined.

Lemma default_balance_is_display_only_witness :
  let ask := {| GetUserBalanceInput_userId := "1" |} in
  let after :=
    fst (run (Store.send false) (@createTransactFn decimalRuntime 1700 firstCredit)
           seededStore) in
  run (Store.send false) (createUserBalanceFn Config ask) seededStore
  = (seededStore, Returned "100 USD")
  /\ run (Store.send false) (createUserBalanceFn Config ask) after
     = (after, Returned "10 USD").
Proof.
  apply (default_balance_is_display_only false decimalRuntime seededStore 1700
           firstCredit {[ "userId" := Store.Str "1"; "currency" := Store.Str "USD" ]}
           10%Q "USD"); try reflexivity.
  discriminate.
Defined.

(** ** The services on any client *)

Section ClientEffects.

Context {W : Type} (client : Command -> W -> W * Outcome Output).

Lemma run_attempt {A} (p : Async A) (w : W) :
  run client (attempt p) w = (fst (run client p w), Returned (snd (run client p w))).
Proof.
  revert w. induction p as [a|e|c k IH]; intros w; [done..|].
  simpl. destruct (client c w) as [w' r]. apply IH.
Qed.

Lemma sent_attempt {A} (p : Async A) (w : W) :
  sent client (attempt p) w = sent client p w.
Proof.
  revert w. induction p as [a|e|c k IH]; intros w; [done..|].
  simpl. destruct (client c w) as [w' r]. f_equal. apply IH.
Qed.

Lemma sent_transact_catch (config : TConfig) (input : TransactionInput)
    (e : Exception) (w : W) :
  sent client (TransactService.transact_catch (TransactService.new config) input e) w
  = (if balanceGuardRejection input e then []
     else if ledgerGuardRejection input e
          then [ledgerGet config (idempotentKey input)]
          else []).
Proof.
  destruct e as [| | | | | | | |message reasons|]; try reflexivity.
  cbn [TransactService.transact_catch balanceGuardRejection ledgerGuardRejection].
  destruct (_ && _); [done|].
  destruct (TransactService.idempotencyConflict input reasons); [|done].
  change (?q ≫= ?f) with (bind f q). simpl.
  destruct (client _ w) as [w' r].
  destruct r as [response|e]; simpl; [|done].
  by destruct (Output_Item response).
Qed.

(** X10.  When the rejection reports the request's key and the ledger read
    that follows is itself rejected, [transact] throws the failure of the
    read, not the generic error and not the cancellation. *)
Theorem transact_reread_failure (config : TConfig) (now : Z)
    (input : TransactionInput) (w w1 w2 : W) (e e' : Exception) :
  client (atomicWrite config now input) w = (w1, Thrown e) ->
  balanceGuardRejection input e = false ->
  ledgerGuardRejection input e = true ->
  client (ledgerGet config (idempotentKey input)) w1 = (w2, Thrown e') ->
  run client (TransactService.transact (TransactService.new config) now input) w
  = (w2, Thrown e').
Proof.
  intros Hwrite Hbalance Hledger Hread. unfold TransactService.transact.
  rewrite (run_Send client _ _ w w1 _ Hwrite).
  destruct e as [| | | | | | | |message reasons|]; try discriminate.
  cbn [TransactService.transact_catch]. simpl in Hbalance, Hledger.
  rewrite Hbalance, Hledger, (run_bind client).
  by rewrite (run_checkExistingTransaction client config _ w1 w2 _ Hread).
Qed.

(** X11.  A cancellation that hands back no record, or no reasons at all,
    is never taken for a replay: unless it is the balance-guard rejection of
    a debit, [transact] fails with the generic error carrying its message,
    and reads nothing after the write. *)
Theorem cancellation_without_record (config : TConfig) (now : Z)
    (input : TransactionInput) (w w1 : W) (message : string)
    (reasons : option (list CancellationReason)) :
  client (atomicWrite config now input) w
    = (w1, Thrown (TransactionCanceledException message reasons)) ->
  balanceGuardRejection input (TransactionCanceledException message reasons) = false ->
  (forall l, reasons = Some l -> Forall (fun r => Reason_Item r = None) l) ->
  let p := TransactService.transact (TransactService.new config) now input in
  run client p w = (w1, Thrown (Error ("Transaction failed: " ++ message)))
  /\ sent client p w = [atomicWrite config now input].
Proof.
  intros Hwrite Hbalance Hitems p. subst p.
  assert (Hledger : TransactService.idempotencyConflict input reasons = false).
  { destruct reasons as [l|]; [|done]. simpl.
    specialize (Hitems l eq_refl). clear Hwrite Hbalance.
    induction Hitems as [|r l Hr _ IH]; [done|]. simpl.
    rewrite IH, orb_false_r. unfold TransactService.reportsKey.
    rewrite Hr. simpl. apply andb_false_r. }
  unfold TransactService.transact.
  rewrite (run_Send client _ _ w w1 _ Hwrite), (sent_Send client _ _ w w1 _ Hwrite).
  rewrite sent_transact_catch. cbn [ledgerGuardRejection].
  cbn [TransactService.transact_catch]. simpl in Hbalance. rewrite Hbalance, Hledger.
  split; [done|]. by destruct (balanceGuardRejection _ _).
Qed.

(** X12.  [transact] never tries the write again: it sends the atomic write
    and after it at most the one ledger read.  When the write is accepted
    it returns normally, whatever the response, and sends nothing else. *)
Theorem transact_sends_at_most_two (config : TConfig) (now : Z)
    (input : TransactionInput) (w : W) :
  let p := TransactService.transact (TransactService.new config) now input in
  (sent client p w = [atomicWrite config now input]
   \/ sent client p w
      = [atomicWrite config now input; ledgerGet config (idempotentKey input)])
  /\ (forall (w1 : W) (response : Output),
        client (atomicWrite config now input) w = (w1, Returned response) ->
        run client p w = (w1, Returned tt)
        /\ sent client p w = [atomicWrite config now input]).
Proof.
  intros p. subst p. unfold TransactService.transact. split.
  - destruct (client (atomicWrite config now input) w) as [w1 r] eqn:Hwrite.
    rewrite (sent_Send client _ _ w w1 _ Hwrite).
    destruct r as [response|e]; [by left|].
    rewrite sent_transact_catch.
    destruct (balanceGuardRejection input e); [by left|].
    destruct (ledgerGuardRejection input e); [by right|by left].
  - intros w1 response Hwrite.
    by rewrite (run_Send client _ _ w w1 _ Hwrite),
      (sent_Send client _ _ w w1 _ Hwrite).
Qed.

(** X13.  A failure of either read of the orchestrated operation is thrown
    as it is, and nothing is sent after it: the atomic write is not
    attempted. *)
Theorem createTransactFn_read_failure `{Runtime} (now : Z) (input : TransactionInput)
    (w : W) (e : Exception) :
  TransactService.validate input = Returned tt ->
  let fn := createTransactFn now input in
  let lookup := usersGet Config (userId input) in
  let precheck := ledgerGet Config (idempotentKey input) in
  (forall w1 : W,
     client lookup w = (w1, Thrown e) ->
     run client fn w = (w1, Thrown e) /\ sent client fn w = [lookup])
  /\ (forall (w1 w2 : W) (user : Output),
        client lookup w = (w1, Returned user) ->
        is_Some (Output_Item user) ->
        client precheck w1 = (w2, Thrown e) ->
        run client fn w = (w2, Thrown e) /\ sent client fn w = [lookup; precheck]).
Proof.
  intros Hvalid fn lookup precheck. subst fn lookup precheck.
  unfold createTransactFn. rewrite Hvalid. cbv beta iota zeta.
  change (?q ≫= ?f) with (bind f q). split.
  - intros w1 Hlookup. simpl.
    unfold usersGet in Hlookup. simpl in Hlookup. by rewrite Hlookup.
  - intros w1 w2 user Hlookup [item Hitem] Hpre. simpl.
    unfold usersGet in Hlookup. simpl in Hlookup. rewrite Hlookup. simpl.
    rewrite Hitem. simpl.
    unfold ledgerGet in Hpre. simpl in Hpre. by rewrite Hpre.
Qed.

(** X14.  Whatever the request and whatever the client answers, the
    orchestrated operation sends an initial part of: the user lookup, the
    ledger read, the atomic write, the ledger read.  So it sends at most
    four commands, at most one write, and no write before both reads. *)
Theorem createTransactFn_sends_prefix `{Runtime} (now : Z) (input : TransactionInput)
    (w : W) :
  sent client (createTransactFn now input) w
  `prefix_of` [usersGet Config (userId input);
               ledgerGet Config (idempotentKey input);
               atomicWrite Config now input;
               ledgerGet Config (idempotentKey input)].
Proof.
  unfold createTransactFn.
  destruct (TransactService.validate input) as [[]|e]; [|apply prefix_nil].
  cbv beta iota zeta. change (?q ≫= ?f) with (bind f q). simpl.
  destruct (client _ w) as [w1 r1]. apply prefix_cons.
  destruct r1 as [user|e]; simpl; [|apply prefix_nil].
  destruct (Output_Item user) as [item|]; simpl; [|apply prefix_nil].
  destruct (client _ w1) as [w2 r2]. apply prefix_cons.
  destruct r2 as [existing|e]; simpl; [|apply prefix_nil].
  destruct (Output_Item existing) as [record|]; simpl; [apply prefix_nil|].
  destruct (client _ w2) as [w3 r3]. apply prefix_cons.
  destruct r3 as [response|e]; [apply prefix_nil|].
  rewrite sent_transact_catch.
  destruct (balanceGuardRejection input e); [apply prefix_nil|].
  destruct (ledgerGuardRejection input e); [done|apply prefix_nil].
Qed.

End ClientEffects.

Section BalanceReads.

Context {W : Type} (client : Command -> W -> W * Outcome Output).

(** X15.  The currency shown with a stored balance is the stored one when
    it is a non-empty string, and the default one when it is the empty
    string or no string at all. *)
Theorem getUserBalance_shows_currency (config : TConfig) (input : GetUserBalanceInput)
    (w w' : W) (response : Output) (item : Item) (n : string) :
  let userId := GetUserBalanceInput_userId input in
  let fn := createUserBalanceFn config in
  userId <> "" ->
  client (usersGet config userId) w = (w', Returned response) ->
  Output_Item response = Some item ->
  item !! "balance" = Some (N n) ->
  (forall c, item !! "currency" = Some (S c) -> c <> "" ->
     run client (fn input) w = (w', Returned (n ++ " " ++ c)))
  /\ (item !! "currency" = Some (S "") ->
      run client (fn input) w = (w', Returned (n ++ " " ++ DEFAULT_CURRENCY config)))
  /\ (forall v, item !! "currency" = Some v -> AttributeValue_S v = None ->
      run client (fn input) w = (w', Returned (n ++ " " ++ DEFAULT_CURRENCY config))).
Proof.
  intros userId fn Hu Hc Hi Hb. subst fn.
  unfold createUserBalanceFn, UserService.getUserBalance. fold userId.
  apply truthy_true in Hu. rewrite Hu. simpl.
  unfold usersGet in Hc. rewrite Hc. simpl. rewrite Hi. simpl. rewrite Hb.
  split_and!.
  - intros c -> Hne. simpl. apply truthy_true in Hne. by rewrite Hne.
  - by intros ->.
  - intros v -> Hv. simpl. by rewrite Hv.
Qed.

(** X16.  A failure of the read is thrown by [getUserBalance] as it is:
    it is not taken for a missing user, and no default is shown. *)
Theorem getUserBalance_read_failure (config : TConfig) (input : GetUserBalanceInput)
    (w w' : W) (e : Exception) :
  let userId := GetUserBalanceInput_userId input in
  userId <> "" ->
  client (usersGet config userId) w = (w', Thrown e) ->
  run client (createUserBalanceFn config input) w = (w', Thrown e).
Proof.
  intros userId Hu Hc.
  unfold createUserBalanceFn, UserService.getUserBalance. fold userId.
  apply truthy_true in Hu. rewrite Hu. simpl.
  unfold usersGet in Hc. by rewrite Hc.
Qed.


End BalanceReads.

(** ** The entry scripts *)

Section Scripts.

Context {W : Type} (client : Command -> W -> W * Outcome Output).

Lemma run_mret {A} (a : A) (w : W) : run client (mret a) w = (w, Returned a).
Proof. reflexivity. Qed.

Lemma sent_bind {A B} (p : Async A) (f : A -> Async B) (w : W) :
  sent client (p ≫= f) w
  = (sent client p w
     ++ match snd (run client p w) with
        | Returned a => sent client (f a) (fst (run client p w))
        | Thrown _ => []
        end)%list.
Proof.
  revert w. induction p as [a|e|c k IH]; intros w; [done..|].
  change (Send c k ≫= f) with (Send c (fun r => k r ≫= f)). simpl.
  destruct (client c w) as [w' r]. simpl. f_equal. apply IH.
Qed.

Lemma run_await {A} (p : Async A) (w : W) :
  run client (await p) w
  = (fst (run client p w), Returned ([], snd (run client p w))).
Proof.
  unfold await. by rewrite (run_bind client), run_attempt.
Qed.

Lemma sent_await {A} (p : Async A) (w : W) :
  sent client (await p) w = sent client p w.
Proof.
  unfold await. rewrite sent_bind, run_attempt, sent_attempt. simpl. apply app_nil_r.
Qed.

Lemma run_UserIndex_script (w : W) :
  let balance :=
    run client (UserService.getUserBalance (UserService.new Config) UserIndex.input) w in
  run client UserIndex.script w
  = (fst balance,
     Returned ([console_log "Starting application...";
                match snd balance with
                | Returned b => console_error ("User 1's balance is " ++ b) None
                | Thrown e => console_error "User 1 not found:" (Some e)
                end;
                console_log "Application finished successfully"], 0%Z)).
Proof.
  intros balance. subst balance.
  unfold UserIndex.script, launch, UserIndex.main, andThen, try, say.
  repeat (rewrite (run_bind client) || rewrite run_mret || rewrite run_await
          || cbv beta iota || cbn [fst snd]).
  by destruct (run client _ w) as [w' [b|e]].
Qed.

Lemma run_TransactIndex_script `{Runtime} (now : Z) (w : W) :
  let fn := createTransactFn now TransactIndex.input in
  run client (TransactIndex.script now) w
  = (fst (run client fn w),
     Returned
       match snd (run client fn w) with
       | Returned _ =>
           ([console_log "Starting application...";
             console_log "Application finished successfully"], 0%Z)
       | Thrown e =>
           ([console_log "Starting application...";
             console_error "Error running application:" (Some e)], 1%Z)
       end).
Proof.
  intros fn. subst fn.
  unfold TransactIndex.script, launch, TransactIndex.main, andThen, try, say.
  repeat (rewrite (run_bind client) || rewrite run_mret || rewrite run_await
          || cbv beta iota || cbn [fst snd]).
  by destruct (run client _ w) as [w' [b|e]].
Qed.

(** X18.  The balance script exits with code 0 whatever happens: a failure
    of [getUserBalance], be it the missing user or a failure of the store,
    is caught and written out as "User 1 not found:", and the script then
    reports that it finished successfully.  It sends the one read of user
    ["1"]. *)
Theorem UserIndex_always_exits_zero (w : W) :
  let balance :=
    run client (UserService.getUserBalance (UserService.new Config) UserIndex.input) w in
  run client UserIndex.script w
  = (fst balance,
     Returned ([console_log "Starting application...";
                match snd balance with
                | Returned b => console_error ("User 1's balance is " ++ b) None
                | Thrown e => console_error "User 1 not found:" (Some e)
                end;
                console_log "Application finished successfully"], 0%Z))
  /\ sent client UserIndex.script w = [usersGet Config "1"].
Proof.
  split; [apply run_UserIndex_script|].
  unfold UserIndex.script, launch, UserIndex.main, andThen, try, say.
  repeat (rewrite sent_bind || rewrite (run_bind client) || rewrite run_mret
          || rewrite run_await || rewrite sent_await
          || cbv beta iota || cbn [fst snd]).
  assert (Hsent : sent client
            (UserService.getUserBalance (UserService.new Config) UserIndex.input) w
          = [usersGet Config "1"]).
  { unfold UserService.getUserBalance, UserService.getUserItem. simpl.
    destruct (client _ w) as [w' r]. f_equal.
    destruct r as [response|e]; simpl; [|done].
    destruct (Output_Item response) as [item|]; simpl; [|done].
    by destruct (item !! "balance"). }
  rewrite Hsent.
  by destruct (run client _ w) as [w' [b|e]].
Qed.

(** X19.  The transaction script exits with code 0 exactly when the
    orchestrated operation returns normally for its request; when the
    operation throws, the script writes out the very exception under
    "Error running application:" and exits with code 1.  It sends what the
    operation sends and leaves the client where the operation leaves it. *)
Theorem TransactIndex_exit_code `{Runtime} (now : Z) (w : W) :
  let fn := createTransactFn now TransactIndex.input in
  run client (TransactIndex.script now) w
  = (fst (run client fn w),
     Returned
       match snd (run client fn w) with
       | Returned _ =>
           ([console_log "Starting application...";
             console_log "Application finished successfully"], 0%Z)
       | Thrown e =>
           ([console_log "Starting application...";
             console_error "Error running application:" (Some e)], 1%Z)
       end)
  /\ sent client (TransactIndex.script now) w = sent client fn w.
Proof.
  split; [apply run_TransactIndex_script|].
  unfold TransactIndex.script, launch, TransactIndex.main, andThen, try, say.
  repeat (rewrite sent_bind || rewrite (run_bind client) || rewrite run_mret
          || rewrite run_await || rewrite sent_await
          || cbv beta iota || cbn [fst snd]).
  destruct (run client _ w) as [w' [b|e]]; simpl; by rewrite !app_nil_r.
Qed.

End Scripts.

Section ScriptsOnStore.

Variable echo : bool.

(** X20.  The transaction script on the store, numbers being read as plain
    decimals.  When user ["11"] does not exist it exits with code 1, the
    store untouched; when the user exists and key ["1"] is in the ledger it
    exits with code 0, the store untouched; when the user exists and the
    key is new it exits with code 0, the balance of the user raised by 10,
    from 0 if there was none, and the record of the request in the
    ledger. *)
Theorem TransactIndex_on_store (db : Store.Database) (now : Z) :
  let result := run (Store.send echo) (@TransactIndex.script decimalRuntime now) db in
  let started := console_log "Starting application..." in
  let finished := console_log "Application finished successfully" in
  (Store.Users db !! "11" = None ->
   result = (db, Returned ([started;
                            console_error "Error running application:"
                              (Some (UserNotFoundError "11"))], 1%Z)))
  /\ (is_Some (Store.Users db !! "11") ->
      is_Some (Store.Transactions db !! "1") ->
      result = (db, Returned ([started; finished], 0%Z)))
  /\ (forall (row : Store.Row) (q : Q),
        Store.Users db !! "11" = Some row ->
        Store.Transactions db !! "1" = None ->
        (row !! "balance" = None /\ q = (0 + 10)%Q)
        \/ (exists b : Q, row !! "balance" = Some (Store.Num b) /\ q = (b + 10)%Q) ->
        result = (written db now TransactIndex.input 10 q,
                  Returned ([started; finished], 0%Z))).
Proof.
  intros result started finished. subst result.
  rewrite (run_TransactIndex_script (Store.send echo)).
  assert (Hvalid : @TransactService.validate decimalRuntime TransactIndex.input
                   = Returned tt) by reflexivity.
  rewrite (createTransactFn_store echo db now TransactIndex.input Hvalid).
  change (userId TransactIndex.input) with "11".
  change (idempotentKey TransactIndex.input) with "1".
  split_and!.
  - by intros ->.
  - by intros [row ->] [record ->].
  - intros row q Hrow Hfresh Hq. rewrite Hrow, Hfresh.
    rewrite transact_store.
    change (Store.readN (amount TransactIndex.input)) with (Some (10%Q)).
    cbv zeta. unfold balanceVerdict, creditVerdict, ledgerVerdict.
    change (TransactService.isCredit TransactIndex.input) with true.
    change (userId TransactIndex.input) with "11".
    change (idempotentKey TransactIndex.input) with "1".
    rewrite Hrow, Hfresh. simpl balanceOf.
    destruct Hq as [[Hnone ->]|(b & Hb & ->)].
    + rewrite Hnone. simpl. unfold written.
      change (userId TransactIndex.input) with "11". by rewrite Hrow.
    + rewrite Hb. simpl. unfold written.
      change (userId TransactIndex.input) with "11". by rewrite Hrow.
Qed.

(** X21.  Running the transaction script again is harmless: after a run
    that exited with code 0, a further run, at any time, exits with code 0
    and leaves the store exactly as it found it. *)
Theorem TransactIndex_rerun (rt : Runtime) (db db1 : Store.Database) (now now' : Z)
    (lines : list Console) :
  run (Store.send echo) (TransactIndex.script now) db = (db1, Returned (lines, 0%Z)) ->
  run (Store.send echo) (TransactIndex.script now') db1
  = (db1, Returned ([console_log "Starting application...";
                     console_log "Application finished successfully"], 0%Z)).
Proof.
  rewrite !(run_TransactIndex_script (Store.send echo)).
  destruct (run (Store.send echo) (createTransactFn now TransactIndex.input) db)
    as [db' [[]|e]] eqn:Hfirst; simpl; [|intros [= _ _ ?]; done].
  intros [= -> _].
  apply createTransactFn_success in Hfirst as (Hvalid & Huser & Hdone).
  assert (Hledger : is_Some (Store.Transactions db1 !! idempotentKey TransactIndex.input)).
  { destruct Hdone as [[Hrecord ->]|(_ & a & _ & _ & ->)]; [done|].
    simpl. rewrite lookup_insert_eq. eauto. }
  assert (Huser1 : is_Some (Store.Users db1 !! userId TransactIndex.input)).
  { destruct Hdone as [[_ ->]|(_ & a & _ & _ & ->)]; [done|].
    by apply commit_balanceVerdict_user. }
  by rewrite (createTransactFn_replay echo db1 now' TransactIndex.input Hvalid Huser1 Hledger).
Qed.

End ScriptsOnStore.

(** ** What the orchestrated operation throws *)

Section Failures.
Variable echo : bool.

(** X22.  What the orchestrated operation can throw on the store, which it
    then leaves untouched: the errors of validation, the missing user, the
    insufficient balance, which is never thrown for a CREDIT, the generic
    error carrying the message of the cancellation, and the store's
    rejection of a request it cannot read.  So it never throws a
    [DuplicateTransactionError] or an [InvalidUserIdError], and never lets
    the cancellation itself through. *)
Theorem createTransactFn_failures (rt : Runtime) (db db' : Store.Database) (now : Z)
    (input : TransactionInput) (e : Exception) :
  run (Store.send echo) (createTransactFn now input) db = (db', Thrown e) ->
  db' = db
  /\ (e = UserNotFoundError (userId input)
      \/ e = InvalidIdempotencyKeyError
      \/ e = InvalidAmountError
      \/ e = InvalidTransactionTypeError
      \/ (e = InsufficientBalanceError /\ type input <> TransactionType.CREDIT)
      \/ e = Error ("Transaction failed: " ++ cancelledMessage)
      \/ e = ServiceException "ValidationException" "The request is malformed").
Proof.
  intros Hrun. split.
  { destruct (createTransactFn_store_cases echo db db' now input _ Hrun)
      as [->|(? & _)]; [done|discriminate]. }
  destruct (TransactService.validate input) as [[]|e0] eqn:Hvalid.
  2:{ rewrite (createTransactFn_invalid echo db now input e0 Hvalid) in Hrun.
      injection Hrun as _ <-. revert Hvalid. unfold TransactService.validate.
      repeat case_match; intros [= <-]; tauto. }
  rewrite (createTransactFn_store echo db now input Hvalid) in Hrun.
  destruct (Store.Users db !! userId input) as [row|]; [|injection Hrun as _ <-; tauto].
  destruct (Store.Transactions db !! idempotentKey input) as [record|] eqn:Hfresh;
    [discriminate|].
  rewrite transact_store in Hrun.
  destruct (Store.readN (amount input)) as [a|];
    [|injection Hrun as _ <-; tauto].
  cbv zeta in Hrun.
  destruct (Store.passed _ && Store.passed _); [discriminate|].
  unfold Store.cancelled in Hrun. cbn [TransactService.transact_catch] in Hrun.
  destruct (negb (TransactService.isCredit input) && _) eqn:Hdebit.
  { injection Hrun as _ <-. do 4 right. left. split; [done|].
    apply andb_true_iff in Hdebit as [Hdebit _]. intros Hcredit.
    apply isCredit_true in Hcredit. by rewrite Hcredit in Hdebit. }
  destruct (TransactService.idempotencyConflict input _).
  - rewrite (run_bind (Store.send echo)), checkExistingTransaction_store, Hfresh in Hrun.
    injection Hrun as _ <-. tauto.
  - injection Hrun as _ <-. tauto.
Qed.
End Failures.

(** ** Seeding and the schema *)

Lemma toString_inj (a b : Z) : JS.toString a = JS.toString b -> a = b.
Proof.
  intros E. pose proof (readN_toString a) as Ha. rewrite E, readN_toString in Ha.
  by injection Ha as ->.
Qed.

Lemma toString_nonempty (z : Z) : JS.toString z <> "".
Proof.
  intros E. pose proof (readN_toString z) as Hz. rewrite E in Hz. discriminate Hz.
Qed.

Section AdminRuns.

Context {W : Type} (client : Admin.Client W).

Lemma perform_bind {A B} (p : Admin.Task A) (f : A -> Admin.Task B) (w : W) :
  Admin.perform client (p ≫= f) w
  = let '(w1, events1, r) := Admin.perform client p w in
    match r with
    | Returned a =>
        let '(w2, events2, r2) := Admin.perform client (f a) w1 in
        (w2, (events1 ++ events2)%list, r2)
    | Thrown e => (w1, events1, Thrown e)
    end.
Proof.
  revert w.
  induction p as [a|e|line k IH|k IH|k IH|params k IH|params k IH]; intros w.
  - change (Admin.Done a ≫= f) with (f a). simpl.
    by destruct (Admin.perform client (f a) w) as [[w2 events2] r2].
  - reflexivity.
  - change (Admin.Say line k ≫= f) with (Admin.Say line (k ≫= f)). simpl.
    rewrite IH. destruct (Admin.perform client k w) as [[w1 events1] [a|e]]; [|done].
    by destruct (Admin.perform client (f a) w1) as [[w2 events2] r2].
  - change (Admin.Random k ≫= f) with (Admin.Random (fun x => k x ≫= f)). simpl.
    destruct (Admin.Math_random client w) as [w' x]. apply IH.
  - change (Admin.ListTables k ≫= f) with (Admin.ListTables (fun r => k r ≫= f)).
    simpl. destruct (Admin.client_listTables client w) as [w' answer].
    rewrite IH.
    destruct (Admin.perform client (k answer) w') as [[w1 events1] [a|e]]; [|done].
    by destruct (Admin.perform client (f a) w1) as [[w2 events2] r2].
  - change (Admin.CreateTable params k ≫= f)
      with (Admin.CreateTable params (fun r => k r ≫= f)).
    simpl. destruct (Admin.client_createTable client params w) as [w' answer].
    rewrite IH.
    destruct (Admin.perform client (k answer) w') as [[w1 events1] [a|e]]; [|done].
    by destruct (Admin.perform client (f a) w1) as [[w2 events2] r2].
  - change (Admin.BatchWriteItem params k ≫= f)
      with (Admin.BatchWriteItem params (fun r => k r ≫= f)).
    simpl. destruct (Admin.client_batchWriteItem client params w) as [w' answer].
    rewrite IH.
    destruct (Admin.perform client (k answer) w') as [[w1 events1] [a|e]]; [|done].
    by destruct (Admin.perform client (f a) w1) as [[w2 events2] r2].
Qed.

Lemma perform_settle {A} (p : Admin.Task A) (resolved : A -> Admin.Task (option Z))
    (rejected : Exception -> Admin.Task (option Z)) (w : W) :
  Admin.perform client (Admin.settle p resolved rejected) w
  = let '(w1, events1, r) := Admin.perform client p w in
    let '(w2, events2, r2) :=
      Admin.perform client
        match r with Returned a => resolved a | Thrown e => rejected e end w1 in
    (w2, (events1 ++ events2)%list, r2).
Proof.
  revert w.
  induction p as [a|e|line k IH|k IH|k IH|params k IH|params k IH]; intros w; simpl.
  - by destruct (Admin.perform client (resolved a) w) as [[w2 events2] r2].
  - by destruct (Admin.perform client (rejected e) w) as [[w2 events2] r2].
  - rewrite IH. destruct (Admin.perform client k w) as [[w1 events1] r].
    by destruct (Admin.perform client _ w1) as [[w2 events2] r2].
  - destruct (Admin.Math_random client w) as [w' x]. apply IH.
  - destruct (Admin.client_listTables client w) as [w' answer]. rewrite IH.
    destruct (Admin.perform client (k answer) w') as [[w1 events1] r].
    by destruct (Admin.perform client _ w1) as [[w2 events2] r2].
  - destruct (Admin.client_createTable client params w) as [w' answer]. rewrite IH.
    destruct (Admin.perform client (k answer) w') as [[w1 events1] r].
    by destruct (Admin.perform client _ w1) as [[w2 events2] r2].
  - destruct (Admin.client_batchWriteItem client params w) as [w' answer]. rewrite IH.
    destruct (Admin.perform client (k answer) w') as [[w1 events1] r].
    by destruct (Admin.perform client _ w1) as [[w2 events2] r2].
Qed.

Lemma perform_putRequest `{Admin.Format} (i : nat) (w : W) :
  exists (w' : W) (item : Item),
    Admin.perform client (Admin.putRequest i) w = (w', [], Returned (Admin.PutRequest item))
    /\ seeded i item.
Proof.
  unfold Admin.putRequest, Admin.random.
  change (Admin.Random Admin.Done ≫= ?f) with (Admin.Random f). simpl.
  destruct (Admin.Math_random client w) as [w1 x].
  destruct (negb (Qle_bool x (1 # 2))).
  - change (Admin.Random Admin.Done ≫= ?f) with (Admin.Random f). simpl.
    destruct (Admin.Math_random client w1) as [w2 y].
    eexists _, _. split; [reflexivity|]. unfold seeded. split_and!.
    + by rewrite lookup_insert_ne, lookup_insert_ne, lookup_singleton_eq.
    + by rewrite lookup_insert_eq.
    + right. exists y. by rewrite lookup_insert_ne, lookup_insert_eq.
    + intros name [v Hv].
      apply lookup_insert_Some in Hv as [[<- _]|[_ Hv]]; [tauto|].
      apply lookup_insert_Some in Hv as [[<- _]|[_ Hv]]; [tauto|].
      apply lookup_singleton_Some in Hv as [<- _]. tauto.
  - eexists _, _. split; [reflexivity|]. unfold seeded. split_and!.
    + by rewrite lookup_insert_ne, lookup_singleton_eq.
    + by rewrite lookup_insert_eq.
    + left. by rewrite lookup_insert_ne, lookup_singleton_ne.
    + intros name [v Hv].
      apply lookup_insert_Some in Hv as [[<- _]|[_ Hv]]; [tauto|].
      apply lookup_singleton_Some in Hv as [<- _]. tauto.
Qed.

Lemma perform_putRequests `{Admin.Format} (i length : nat) (w : W) :
  exists (w' : W) (requests : list Admin.WriteRequest),
    Admin.perform client (Admin.putRequests i length) w = (w', [], Returned requests)
    /\ List.length requests = length
    /\ (forall (j : nat) (item : Item),
          requests !! j = Some (Admin.PutRequest item) -> seeded (i + j) item).
Proof.
  revert i w. induction length as [|length IH]; intros i w.
  - exists w, []. split_and!; try done.
  - cbn [Admin.putRequests]. rewrite perform_bind.
    destruct (perform_putRequest i w) as (w1 & item & -> & Hitem).
    rewrite perform_bind.
    destruct (IH (Datatypes.S i) w1) as (w2 & rest & -> & Hlength & Hrest).
    exists w2, (Admin.PutRequest item :: rest). split_and!.
    + reflexivity.
    + simpl. by rewrite Hlength.
    + intros [|j] item'; simpl.
      * intros [= <-]. by rewrite Nat.add_0_r.
      * intros Hj. replace (i + Datatypes.S j)%nat with (Datatypes.S i + j)%nat by lia.
        by apply Hrest.
Qed.

End AdminRuns.

Section Seeding.

Context {W : Type} (client : Admin.Client W).

Lemma perform_warn_each (items : list Admin.WriteRequest) (w : W) :
  Admin.perform client (Admin.warn_each items) w
  = (w, map (fun item => Admin.printed (Admin.warn_unprocessed item)) items,
     Returned tt).
Proof.
  induction items as [|item items IH]; [done|].
  cbn [Admin.warn_each]. unfold Admin.say.
  change (Admin.Say ?l (Admin.Done tt) ≫= ?f) with (Admin.Say l (f tt)).
  simpl. by rewrite IH.
Qed.

(** X23.  [seed] writes once.  It draws the requests, sends them in a
    single batch under the users table, and resolves exactly when that call
    resolves, with the failure of the call otherwise.  What the store leaves
    unprocessed is written out as warnings, one for each request, and never
    sent again.  The script, which seeds [USER_SEED_SIZE] users, then
    writes "Seed completed" and sets no exit code, or writes out the
    failure and exits with code 1. *)
Theorem seed_single_batch `{Admin.Format} (size : Z) (w : W) :
  exists (w1 w2 : W) (requests : list Admin.WriteRequest)
         (answer : Outcome Admin.BatchWriteItemOutput) (events : list Admin.Event),
    Admin.perform client (Admin.putRequests 0 (Z.to_nat size)) w
      = (w1, [], Returned requests)
    /\ Admin.client_batchWriteItem client (Admin.seed_params requests) w1 = (w2, answer)
    /\ Admin.perform client (Admin.seed size) w
       = (w2, events,
          match answer with Returned _ => Returned tt | Thrown e => Thrown e end)
    /\ Admin.calls events = [Admin.called_batchWriteItem (Admin.seed_params requests)]
    /\ filter Admin.isWarning events
       = match answer with
         | Returned result =>
             map (fun item => Admin.printed (Admin.warn_unprocessed item))
               (unprocessed result)
         | Thrown _ => []
         end
    /\ (size = USER_SEED_SIZE Config ->
        Admin.perform client Admin.seed_script w
        = (w2,
           (events
            ++ [Admin.printed
                  match answer with
                  | Returned _ => Admin.info "Seed completed"
                  | Thrown e => Admin.error_thrown e
                  end])%list,
           Returned match answer with Returned _ => None | Thrown _ => Some 1%Z end)).
Proof.
  destruct (perform_putRequests client 0 (Z.to_nat size) w)
    as (w1 & requests & Hrequests & _).
  destruct (Admin.client_batchWriteItem client (Admin.seed_params requests) w1)
    as [w2 answer] eqn:Hbatch.
  exists w1, w2, requests, answer.
  assert (Hseed : exists events : list Admin.Event,
            Admin.perform client (Admin.seed size) w
            = (w2, events,
               match answer with Returned _ => Returned tt | Thrown e => Thrown e end)
            /\ Admin.calls events
               = [Admin.called_batchWriteItem (Admin.seed_params requests)]
            /\ filter Admin.isWarning events
               = match answer with
                 | Returned result =>
                     map (fun item => Admin.printed (Admin.warn_unprocessed item))
                       (unprocessed result)
                 | Thrown _ => []
                 end).
  { unfold Admin.seed. rewrite perform_bind, Hrequests.
    unfold Admin.say.
    change (Admin.Say ?l (Admin.Done tt) ≫= ?f) with (Admin.Say l (f tt)).
    cbn [Admin.perform].
    change (Admin.BatchWriteItem ?p Admin.await ≫= ?f)
      with (Admin.BatchWriteItem p (fun r => Admin.await r ≫= f)).
    cbn [Admin.perform]. rewrite Hbatch.
    destruct answer as [result|e].
    - change (Admin.await (Returned result) ≫= ?f) with (f result). cbv beta.
      rewrite perform_bind.
      assert (Hwarn : Admin.perform client
                match Admin.UnprocessedItems result
                      ≫= (fun items : gmap string (list Admin.WriteRequest) =>
                            items !! DB_USERS_TABLE Config) with
                | Some items => Admin.warn_each items
                | None => mret tt
                end w2
              = (w2, map (fun item => Admin.printed (Admin.warn_unprocessed item))
                       (unprocessed result), Returned tt)).
      { unfold unprocessed.
        destruct (Admin.UnprocessedItems result ≫= _) as [items|]; [|done].
        apply perform_warn_each. }
      rewrite Hwarn. clear Hwarn.
      change (Admin.Say ?l (Admin.Done tt) ≫= ?f) with (Admin.Say l (f tt)).
      cbn [Admin.perform].
      eexists. split_and!; try reflexivity.
      + unfold Admin.calls. cbn [app].
        rewrite filter_cons_False by (simpl; tauto).
        rewrite filter_cons_True by done. f_equal.
        induction (unprocessed result) as [|item items IH]; [done|].
        cbn [map app]. by rewrite filter_cons_False by (simpl; tauto).
      + cbn [app].
        rewrite !filter_cons_False by (simpl; tauto).
        induction (unprocessed result) as [|item items IH]; [done|].
        cbn [map app]. rewrite filter_cons_True by done. by rewrite IH.
    - eexists. split_and!; reflexivity. }
  destruct Hseed as (events & Hperform & Hcalls & Hwarnings).
  exists events. split_and!; try done.
  intros ->. unfold Admin.seed_script. rewrite perform_settle, Hperform.
  by destruct answer.
Qed.

(** X24.  The requests of [seed]: as many as the size asks for, none for
    a negative size, drawn without printing or calling anything; the
    request at index [j] is for user [j + 1], carries the default currency
    and at most a numeric [balance] besides; and no two requests are for
    the same user. *)
Theorem seed_user_ids `{Admin.Format} (size : Z) (w : W) :
  exists (w' : W) (requests : list Admin.WriteRequest),
    Admin.perform client (Admin.putRequests 0 (Z.to_nat size)) w
      = (w', [], Returned requests)
    /\ List.length requests = Z.to_nat size
    /\ (forall (j : nat) (item : Item),
          requests !! j = Some (Admin.PutRequest item) -> seeded j item)
    /\ NoDup (userIds requests).
Proof.
  destruct (perform_putRequests client 0 (Z.to_nat size) w)
    as (w' & requests & Hrequests & Hlength & Hseeded).
  exists w', requests. split_and!; try done.
  apply NoDup_alt. intros i j id Hi Hj. unfold userIds in Hi, Hj.
  rewrite list_lookup_fmap in Hi, Hj.
  destruct (requests !! i) as [[item1]|] eqn:H1; [|done].
  destruct (requests !! j) as [[item2]|] eqn:H2; [|done].
  simpl in Hi, Hj.
  destruct (Hseeded i item1 H1) as (Hid1 & _).
  destruct (Hseeded j item2 H2) as (Hid2 & _).
  simpl in Hid1, Hid2. rewrite Hid1 in Hi. rewrite Hid2 in Hj.
  rewrite <- Hj in Hi. injection Hi as Hi. apply toString_inj in Hi. lia.
Qed.

End Seeding.

(** X25.  Seeding and the balance lookup fit together: when the read of
    user [j + 1] is answered with the item seeded at index [j],
    [getUserBalance] returns normally, with the default amount if the item
    has no balance and the seeded amount otherwise, in the default
    currency either way. *)
Theorem seeded_user_balance `{Admin.Format} {W : Type}
    (client : Command -> W -> W * Outcome Output) (j : nat) (item : Item)
    (w w' : W) :
  seeded j item ->
  let userId := JS.toString (Z.of_nat j + 1) in
  client (usersGet Config userId) w
    = (w', Returned (GetItemCommandOutput (Some item))) ->
  let shown :=
    run client (createUserBalanceFn Config {| GetUserBalanceInput_userId := userId |}) w in
  (item !! "balance" = None -> shown = (w', Returned "100 USD"))
  /\ (forall n : string,
        item !! "balance" = Some (N n) -> shown = (w', Returned (n ++ " USD"))).
Proof.
  intros (_ & Hcurrency & _ & _) userId Hread shown. subst shown.
  unfold createUserBalanceFn, UserService.getUserBalance.
  cbn [GetUserBalanceInput_userId].
  assert (Hu : JS.truthy userId = true) by apply truthy_true, toString_nonempty.
  rewrite Hu.
  cbn [negb]. rewrite (run_bind client).
  unfold UserService.getUserItem. rewrite (run_bind client).
  unfold usersGet in Hread. simpl in Hread. simpl. rewrite Hread. simpl.
  split.
  - by intros ->.
  - intros n ->. by rewrite Hcurrency.
Qed.

Section Schema.

Context {W : Type} (client : Admin.Client W).

Local Abbreviation started := (Admin.printed (Admin.log "Creating schema...")).

Lemma perform_checkTableExists (tableName : string) (w : W) :
  Admin.perform client (Admin.checkTableExists tableName) w
  = (fst (Admin.client_listTables client w),
     Admin.called_listTables
     :: match snd (Admin.client_listTables client w) with
        | Thrown e => [Admin.printed (Admin.log_error e)]
        | Returned _ => []
        end,
     Returned (reported tableName (snd (Admin.client_listTables client w)))).
Proof.
  unfold Admin.checkTableExists. cbn [Admin.perform].
  destruct (Admin.client_listTables client w) as [w1 [[[names|]]|e]]; reflexivity.
Qed.

Lemma perform_createTable (params : Admin.CreateTableInput.t) (w : W) :
  Admin.perform client (Admin.createTable params) w
  = (fst (Admin.client_createTable client params w),
     Admin.called_createTable params
     :: match snd (Admin.client_createTable client params w) with
        | Returned result =>
            if bool_decide (Admin.httpStatusCode result = Some 200%Z) then
              [Admin.printed
                 (Admin.info ("Table " ++ Admin.CreateTableInput.TableName params
                              ++ " created successfully"))]
            else []
        | Thrown e =>
            [Admin.printed
               (Admin.error
                  ("Error creating table " ++ Admin.CreateTableInput.TableName params
                   ++ ":") e)]
        end,
     match snd (Admin.client_createTable client params w) with
     | Returned _ => Returned tt
     | Thrown e => Thrown e
     end).
Proof.
  unfold Admin.createTable. cbn [Admin.perform].
  destruct (Admin.client_createTable client params w) as [w1 [result|e]]; simpl.
  - by destruct (bool_decide _).
  - reflexivity.
Qed.

Lemma perform_ensure (tableName : string) (params : Admin.CreateTableInput.t) (w : W) :
  Admin.perform client (ensure tableName params) w
  = let '(w1, events1, _) := Admin.perform client (Admin.checkTableExists tableName) w in
    if reported tableName (snd (Admin.client_listTables client w)) then
      (w1, events1, Returned tt)
    else
      let '(w2, events2, r) := Admin.perform client (Admin.createTable params) w1 in
      (w2, (events1 ++ events2)%list, r).
Proof.
  unfold ensure. rewrite perform_bind, perform_checkTableExists.
  destruct (reported tableName _); cbn [negb].
  - simpl. by rewrite app_nil_r.
  - reflexivity.
Qed.

Lemma perform_createSchema (w : W) :
  Admin.perform client Admin.createSchema w
  = let '(w1, events1, r) :=
      Admin.perform client (ensure (DB_USERS_TABLE Config) Admin.usersParams) w in
    match r with
    | Returned _ =>
        let '(w2, events2, r2) :=
          Admin.perform client
            (ensure (DB_TRANSACTIONS_TABLE Config) Admin.transactionsParams) w1 in
        (w2, started :: (events1 ++ events2)%list, r2)
    | Thrown e => (w1, started :: events1, Thrown e)
    end.
Proof.
  unfold Admin.createSchema, Admin.say, ensure.
  unfold Admin.createUsersSchema, Admin.createTransactionsSchema.
  change (Admin.Say ?l (Admin.Done tt) ≫= ?f) with (Admin.Say l (f tt)).
  cbn [Admin.perform]. rewrite !perform_bind.
  destruct (Admin.perform client (Admin.checkTableExists (DB_USERS_TABLE Config)) w)
    as [[w1 events1] [users|e]]; [|done].
  rewrite perform_bind.
  destruct (Admin.perform client _ w1) as [[w2 events2] [[]|e]]; [|done].
  destruct (Admin.perform client _ w2) as [[w3 events3] r3].
  by rewrite app_assoc.
Qed.

(** X26.  When both listings report the table they are asked about,
    [createSchema] creates nothing: it lists the tables twice and returns,
    and the script exits with code 0. *)
Theorem createSchema_tables_present (w w1 w2 : W) (names1 names2 : list string) :
  Admin.client_listTables client w
    = (w1, Returned {| Admin.TableNames := Some names1 |}) ->
  DB_USERS_TABLE Config ∈ names1 ->
  Admin.client_listTables client w1
    = (w2, Returned {| Admin.TableNames := Some names2 |}) ->
  DB_TRANSACTIONS_TABLE Config ∈ names2 ->
  Admin.perform client Admin.createSchema w
    = (w2, [started; Admin.called_listTables; Admin.called_listTables], Returned tt)
  /\ Admin.perform client Admin.schema_script w
     = (w2, [started; Admin.called_listTables; Admin.called_listTables;
             Admin.printed (Admin.log "Schema created successfully")],
        Returned (Some 0%Z)).
Proof.
  intros Hlist1 Husers Hlist2 Htransactions.
  assert (Hschema : Admin.perform client Admin.createSchema w
            = (w2, [started; Admin.called_listTables; Admin.called_listTables],
               Returned tt)).
  { unfold Admin.createSchema, Admin.say.
    change (Admin.Say ?l (Admin.Done tt) ≫= ?f) with (Admin.Say l (f tt)).
    cbn [Admin.perform]. rewrite perform_bind.
    unfold Admin.checkTableExists at 1. cbn [Admin.perform]. rewrite Hlist1.
    cbn [Admin.TableNames]. rewrite bool_decide_true by done.
    simpl Admin.perform at 1. cbv beta iota. cbn [negb].
    change (mret tt ≫= ?f) with (f tt). cbv beta.
    rewrite perform_bind.
    unfold Admin.checkTableExists. cbn [Admin.perform]. rewrite Hlist2.
    cbn [Admin.TableNames]. rewrite bool_decide_true by done.
    reflexivity. }
  split; [done|].
  unfold Admin.schema_script. rewrite perform_settle, Hschema. reflexivity.
Qed.

(** X27.  A listing that fails is taken for a missing table:
    [checkTableExists] does not throw then, it writes out the failure and
    answers [false]; so [createSchema], when the first listing fails, goes
    on to create the users table. *)
Theorem listing_failure_means_absent (tableName : string) (w w1 : W) (e : Exception) :
  Admin.client_listTables client w = (w1, Thrown e) ->
  Admin.perform client (Admin.checkTableExists tableName) w
    = (w1, [Admin.called_listTables; Admin.printed (Admin.log_error e)], Returned false)
  /\ exists (w' : W) (events : list Admin.Event) (r : Outcome unit),
       Admin.perform client Admin.createSchema w
       = (w', started :: Admin.called_listTables :: Admin.printed (Admin.log_error e)
              :: Admin.called_createTable Admin.usersParams :: events, r).
Proof.
  intros Hlist. split.
  { by rewrite perform_checkTableExists, Hlist. }
  rewrite perform_createSchema, perform_ensure, perform_checkTableExists, Hlist.
  cbn [fst snd reported]. rewrite perform_createTable.
  destruct (Admin.client_createTable client Admin.usersParams w1) as [w2 [result|e2]];
    cbn [fst snd].
  - destruct (Admin.perform client (ensure _ _) w2) as [[w3 events3] r3].
    eexists _, _, _. simpl. reflexivity.
  - eexists _, _, _. simpl. reflexivity.
Qed.

(** X28.  [createSchema] fails only through a creation: when it throws,
    the last thing it did was a [createTable], for one of its two tables,
    that the client rejected with the very exception, written out under
    "Error creating table"; when that table is the users table, the
    transactions table was neither looked for nor created.  The script then
    writes out the exception once more and exits with code 1. *)
Theorem createSchema_failure (w w' : W) (events : list Admin.Event) (e : Exception) :
  Admin.perform client Admin.createSchema w = (w', events, Thrown e) ->
  (exists (params : Admin.CreateTableInput.t) (w0 : W) (before : list Admin.Event),
     (params = Admin.usersParams \/ params = Admin.transactionsParams)
     /\ Admin.client_createTable client params w0 = (w', Thrown e)
     /\ events
        = (before
           ++ [Admin.called_createTable params;
               Admin.printed
                 (Admin.error
                    ("Error creating table " ++ Admin.CreateTableInput.TableName params
                     ++ ":") e)])%list
     /\ (params = Admin.usersParams -> Admin.calls before = [Admin.called_listTables]))
  /\ Admin.perform client Admin.schema_script w
     = (w', (events ++ [Admin.printed (Admin.error "Error creating schema:" e)])%list,
        Returned (Some 1%Z)).
Proof.
  intros Hrun. split.
  2:{ unfold Admin.schema_script. by rewrite perform_settle, Hrun. }
  revert Hrun. rewrite perform_createSchema, !perform_ensure.
  rewrite perform_checkTableExists.
  destruct (Admin.client_listTables client w) as [w1 answer1]. cbn [fst snd].
  destruct (reported (DB_USERS_TABLE Config) answer1).
  - rewrite perform_ensure, perform_checkTableExists.
    destruct (Admin.client_listTables client w1) as [w2 answer2]. cbn [fst snd].
    destruct (reported (DB_TRANSACTIONS_TABLE Config) answer2); [done|].
    rewrite perform_createTable.
    destruct (Admin.client_createTable client Admin.transactionsParams w2)
      as [w3 [result|e3]] eqn:Hcreate; cbn [fst snd]; [done|].
    intros [= <- Hevents <-].
    repeat (rewrite app_comm_cons in Hevents || rewrite app_assoc in Hevents).
    eexists Admin.transactionsParams, w2, _.
    split_and!; [by right|done|by rewrite <- Hevents|done].
  - rewrite perform_createTable.
    destruct (Admin.client_createTable client Admin.usersParams w1)
      as [w2 [result|e2]] eqn:Hcreate; cbn [fst snd].
    + rewrite perform_ensure, perform_checkTableExists.
      destruct (Admin.client_listTables client w2) as [w3 answer3]. cbn [fst snd].
      destruct (reported (DB_TRANSACTIONS_TABLE Config) answer3); [done|].
      rewrite perform_createTable.
      destruct (Admin.client_createTable client Admin.transactionsParams w3)
        as [w4 [result4|e4]] eqn:Hcreate4; cbn [fst snd]; [done|].
      intros [= <- Hevents <-].
      repeat (rewrite app_comm_cons in Hevents || rewrite app_assoc in Hevents).
      eexists Admin.transactionsParams, w3, _.
      split_and!; [by right|done|by rewrite <- Hevents|done].
    + intros [= <- <- <-].
      eexists Admin.usersParams, w1, (_ :: _ :: _).
      split_and!; [by left|done|reflexivity|].
      intros _. by destruct answer1.
Qed.

End Schema.

Lemma isKeyOf_singleton (params : Admin.CreateTableInput.t) (name value : string) :
  keyNames (Admin.CreateTableInput.KeySchema params) = [name] ->
  attributeType params name = Some "S" ->
  isKeyOf params {[ name := S value ]}.
Proof.
  intros Hkey Htype. split.
  - intros name'. rewrite Hkey, list_elem_of_singleton. split.
    + intros [v Hv]. by apply lookup_singleton_Some in Hv as [<- _].
    + intros ->. rewrite lookup_singleton_eq. eauto.
  - intros name' v t Hv Ht. apply lookup_singleton_Some in Hv as [<- <-].
    rewrite Htype in Ht. by injection Ht as <-.
Qed.

Lemma fits_ledger_item (now : Z) (input : TransactionInput) :
  fits Admin.transactionsParams
    (Put.Item match TransactService.insertNewTransaction (TransactService.new Config)
                      now input with
              | Put put => put
              | Update _ => {| Put.TableName := ""; Put.Item := ∅;
                               Put.ConditionExpression := None |}
              end).
Proof.
  split.
  - intros name Hname. apply list_elem_of_singleton in Hname as ->.
    simpl. rewrite lookup_insert_eq. eauto.
  - intros name v t Hv Ht. unfold attributeType in Ht. simpl in Hv.
    cbn -[String.eqb] in Ht.
    destruct (String.eqb_spec "idempotencyKey" name) as [<-|_].
    { rewrite lookup_insert_eq in Hv. injection Hv as <-. by injection Ht as <-. }
    destruct (String.eqb_spec "userId" name) as [<-|_]; [|done].
    rewrite lookup_insert_ne, lookup_insert_eq in Hv by done.
    injection Hv as <-. by injection Ht as <-.
Qed.

Lemma declared_keys (params : Admin.CreateTableInput.t) (name : string) :
  params = Admin.usersParams \/ params = Admin.transactionsParams ->
  is_Some (attributeType params name)
  <-> name ∈ (keyNames (Admin.CreateTableInput.KeySchema params)
              ++ indexKeyNames params)%list.
Proof.
  intros [->| ->]; unfold attributeType; cbn -[String.eqb].
  - rewrite list_elem_of_singleton.
    destruct (String.eqb_spec "userId" name) as [<-|Hne]; cbn -[String.eqb].
    + split; eauto.
    + split; intros Hname; [by apply is_Some_None in Hname|congruence].
  - rewrite !elem_of_cons, elem_of_nil.
    destruct (String.eqb_spec "idempotencyKey" name) as [<-|Hne1]; cbn -[String.eqb].
    { split; eauto. }
    destruct (String.eqb_spec "userId" name) as [<-|Hne2]; cbn -[String.eqb].
    { split; eauto. }
    split; intros Hname; [by apply is_Some_None in Hname|].
    destruct Hname as [?|[?|[]]]; congruence.
Qed.

(** X29.  The services address the tables that the schema creates.  The
    reads of a user and of a ledger record, and the balance update of the
    atomic write, name the table by the name the schema gives it and use as
    key exactly its key attribute, as a string as declared; the ledger
    record of the atomic write has the key of the transactions table and
    the key of its index, as strings as declared; every seeded item can be
    stored in the users table; and each of the two tables declares the
    attributes of its keys and of the keys of its indexes, and no other. *)
Theorem services_address_the_schema `{Admin.Format} (now : Z) (input : TransactionInput)
    (user key : string) :
  (exists params : GetItemInput.t,
     usersGet Config user = GetItemCommand params
     /\ GetItemInput.TableName params = Admin.CreateTableInput.TableName Admin.usersParams
     /\ isKeyOf Admin.usersParams (GetItemInput.Key params))
  /\ (exists params : GetItemInput.t,
        ledgerGet Config key = GetItemCommand params
        /\ GetItemInput.TableName params
           = Admin.CreateTableInput.TableName Admin.transactionsParams
        /\ isKeyOf Admin.transactionsParams (GetItemInput.Key params))
  /\ (exists (update : Update.t) (put : Put.t),
        atomicWrite Config now input = TransactWriteItemsCommand [Update update; Put put]
        /\ Update.TableName update = Admin.CreateTableInput.TableName Admin.usersParams
        /\ isKeyOf Admin.usersParams (Update.Key update)
        /\ Put.TableName put = Admin.CreateTableInput.TableName Admin.transactionsParams
        /\ fits Admin.transactionsParams (Put.Item put)
        /\ is_Some (Put.Item put !! "userId"))
  /\ (forall (j : nat) (item : Item), seeded j item -> fits Admin.usersParams item)
  /\ (forall (params : Admin.CreateTableInput.t) (name : string),
        params = Admin.usersParams \/ params = Admin.transactionsParams ->
        is_Some (attributeType params name)
        <-> name ∈ (keyNames (Admin.CreateTableInput.KeySchema params)
                    ++ indexKeyNames params)%list).
Proof.
  split_and!.
  - eexists. split_and!; [reflexivity..|]. by apply isKeyOf_singleton.
  - eexists. split_and!; [reflexivity..|]. by apply isKeyOf_singleton.
  - unfold atomicWrite.
    destruct (TransactService.isCredit input); eexists _, _;
      (split_and!;
       [reflexivity|reflexivity|by apply isKeyOf_singleton|reflexivity
       |apply (fits_ledger_item now input)|]);
      simpl; rewrite lookup_insert_ne, lookup_insert_eq by done; eauto.
  - intros j item (Hid & _). split.
    + intros name Hname. apply list_elem_of_singleton in Hname as ->.
      simpl. rewrite Hid. eauto.
    + intros name v t Hv Ht. unfold attributeType in Ht. cbn -[String.eqb] in Ht.
      destruct (String.eqb_spec "userId" name) as [<-|_]; [|done].
      rewrite Hid in Hv. injection Hv as <-. by injection Ht as <-.
  - apply declared_keys.
Qed.

(** ** The extras at work *)

Lemma transact_reread_failure_witness :
  let throttled := ServiceException "ThrottlingException" "Rate exceeded" in
  run scripted (TransactService.transact (TransactService.new Config) 1700 creditRequest)
    [Thrown (ledgerGuardFailed "1"); Thrown throttled]
  = ([], Thrown throttled).
Proof.
  intros throttled.
  apply (transact_reread_failure scripted Config 1700 creditRequest
           [Thrown (ledgerGuardFailed "1"); Thrown throttled] [Thrown throttled] []
           (ledgerGuardFailed "1") throttled); reflexivity.
Defined.

Lemma cancellation_without_record_witness :
  let p := TransactService.transact (TransactService.new Config) 1700 creditRequest in
  let bare := TransactionCanceledException "Transaction cancelled" None in
  (run scripted p [Thrown bare]
     = ([], Thrown (Error "Transaction failed: Transaction cancelled"))
   /\ sent scripted p [Thrown bare] = [atomicWrite Config 1700 creditRequest])
  /\ (run scripted p [Thrown conflictingWriter]
        = ([], Thrown (Error "Transaction failed: Transaction cancelled"))
      /\ sent scripted p [Thrown conflictingWriter]
         = [atomicWrite Config 1700 creditRequest]).
Proof.
  intros p bare. split.
  - apply (cancellation_without_record scripted Config 1700 creditRequest
             [Thrown bare] [] "Transaction cancelled" None); [reflexivity..|].
    intros l Hl. discriminate Hl.
  - apply (cancellation_without_record scripted Config 1700 creditRequest
             [Thrown conflictingWriter] [] "Transaction cancelled"
             (Some [ {| Code := Some "TransactionConflict"; Reason_Item := None |};
                     {| Code := Some "None"; Reason_Item := None |} ]));
      [reflexivity..|].
    intros l [= <-]. repeat constructor.
Defined.

Lemma transact_sends_at_most_two_witness :
  let p := TransactService.transact (TransactService.new Config) 1700 creditRequest in
  run scripted p [Returned TransactWriteItemsCommandOutput] = ([], Returned tt)
  /\ sent scripted p [Returned TransactWriteItemsCommandOutput]
     = [atomicWrite Config 1700 creditRequest].
Proof.
  intros p.
  destruct (transact_sends_at_most_two scripted Config 1700 creditRequest
              [Returned TransactWriteItemsCommandOutput]) as [_ Haccepted].
  apply (Haccepted [] TransactWriteItemsCommandOutput). reflexivity.
Defined.

Lemma createTransactFn_read_failure_witness :
  let fn := @createTransactFn decimalRuntime 1700 creditRequest in
  let throttled := ServiceException "ThrottlingException" "Rate exceeded" in
  let user := GetItemCommandOutput (Some {[ "userId" := S "11" ]}) in
  (run scripted fn [Thrown throttled] = ([], Thrown throttled)
   /\ sent scripted fn [Thrown throttled] = [usersGet Config "11"])
  /\ (run scripted fn [Returned user; Thrown throttled] = ([], Thrown throttled)
      /\ sent scripted fn [Returned user; Thrown throttled]
         = [usersGet Config "11"; ledgerGet Config "1"]).
Proof.
  intros fn throttled user. split.
  - destruct (@createTransactFn_read_failure _ scripted decimalRuntime 1700
                creditRequest [Thrown throttled] throttled eq_refl) as [Hlookup _].
    apply (Hlookup []). reflexivity.
  - destruct (@createTransactFn_read_failure _ scripted decimalRuntime 1700
                creditRequest [Returned user; Thrown throttled] throttled eq_refl)
      as [_ Hprecheck].
    apply (Hprecheck [Thrown throttled] [] user); [reflexivity| |reflexivity].
    simpl. eauto.
Defined.

Lemma getUserBalance_shows_currency_witness :
  let fn := createUserBalanceFn Config in
  let ask := {| GetUserBalanceInput_userId := "9" |} in
  let found := fun currency : AttributeValue =>
    [Returned (GetItemCommandOutput
                 (Some {[ "userId" := S "9"; "balance" := N "5";
                          "currency" := currency ]}))] in
  run scripted (fn ask) (found (S "EUR")) = ([], Returned "5 EUR")
  /\ run scripted (fn ask) (found (S "")) = ([], Returned "5 USD")
  /\ run scripted (fn ask) (found NULL) = ([], Returned "5 USD").
Proof.
  intros fn ask found.
  pose (item := fun currency : AttributeValue =>
          ({[ "userId" := S "9"; "balance" := N "5"; "currency" := currency ]} : Item)).
  split_and!.
  - destruct (getUserBalance_shows_currency scripted Config ask (found (S "EUR")) []
                (GetItemCommandOutput (Some (item (S "EUR")))) (item (S "EUR")) "5")
      as (Hstored & _); [discriminate|reflexivity..|].
    apply (Hstored "EUR"); [reflexivity|discriminate].
  - destruct (getUserBalance_shows_currency scripted Config ask (found (S "")) []
                (GetItemCommandOutput (Some (item (S "")))) (item (S "")) "5")
      as (_ & Hempty & _); [discriminate|reflexivity..|].
    apply Hempty. reflexivity.
  - destruct (getUserBalance_shows_currency scripted Config ask (found NULL) []
                (GetItemCommandOutput (Some (item NULL))) (item NULL) "5")
      as (_ & _ & Hother); [discriminate|reflexivity..|].
    apply (Hother NULL); reflexivity.
Defined.

Lemma getUserBalance_read_failure_witness :
  let throttled := ServiceException "ThrottlingException" "Rate exceeded" in
  run scripted (createUserBalanceFn Config {| GetUserBalanceInput_userId := "9" |})
    [Thrown throttled]
  = ([], Thrown throttled).
Proof.
  intros throttled.
  apply (getUserBalance_read_failure scripted Config
           {| GetUserBalanceInput_userId := "9" |} [Thrown throttled] [] throttled);
    [discriminate|reflexivity].
Defined.


Lemma TransactIndex_on_store_witness :
  let started := console_log "Starting application..." in
  let finished := console_log "Application finished successfully" in
  run (Store.send false) (@TransactIndex.script decimalRuntime 1700) emptyStore
  = (emptyStore,
     Returned ([started; console_error "Error running application:"
                           (Some (UserNotFoundError "11"))], 1%Z))
  /\ run (Store.send false) (@TransactIndex.script decimalRuntime 1800) creditedStore
     = (creditedStore, Returned ([started; finished], 0%Z))
  /\ run (Store.send false) (@TransactIndex.script decimalRuntime 1700) exampleStore
     = (written exampleStore 1700 TransactIndex.input 10 (0 + 10),
        Returned ([started; finished], 0%Z)).
Proof.
  intros started finished. split_and!.
  - destruct (TransactIndex_on_store false emptyStore 1700)
      as (Habsent & _). apply Habsent. reflexivity.
  - destruct (TransactIndex_on_store false creditedStore 1800)
      as (_ & Hreplay & _). apply Hreplay; vm_compute; eauto.
  - destruct (TransactIndex_on_store false exampleStore 1700)
      as (_ & _ & Hfresh).
    apply (Hfresh {[ "userId" := Store.Str "11" ]} (0 + 10)%Q);
      [reflexivity|reflexivity|]. left. split; reflexivity.
Defined.

Lemma TransactIndex_rerun_witness :
  let first := run (Store.send false) (@TransactIndex.script decimalRuntime 1700)
                 exampleStore in
  snd first = Returned ([console_log "Starting application...";
                         console_log "Application finished successfully"], 0%Z)
  /\ run (Store.send false) (@TransactIndex.script decimalRuntime 1800) (fst first)
     = (fst first,
        Returned ([console_log "Starting application...";
                   console_log "Application finished successfully"], 0%Z)).
Proof.
  intros first.
  assert (Hfirst : snd first
                   = Returned ([console_log "Starting application...";
                                console_log "Application finished successfully"], 0%Z)).
  { vm_compute. reflexivity. }
  split; [exact Hfirst|].
  apply (TransactIndex_rerun false decimalRuntime exampleStore (fst first) 1700 1800
           [console_log "Starting application...";
            console_log "Application finished successfully"]).
  rewrite <- Hfirst. subst first. by destruct (run _ _ _).
Defined.

Lemma seeded_seededItem : @seeded decimalFormat 0 seededItem.
Proof.
  destruct (perform_putRequests (H:=decimalFormat) scriptedAdmin 0 1
              (prepared [8 # 10; 1 # 2]%Q [] [] []))
    as (w' & requests & Hrequests & _ & Hseeded).
  vm_compute in Hrequests. injection Hrequests as _ <-.
  apply (Hseeded 0%nat). reflexivity.
Qed.

Lemma createTransactFn_failures_witness :
  let e := InsufficientBalanceError in
  run (Store.send false) (@createTransactFn decimalRuntime 1700 debitRequest) exampleStore
  = (exampleStore, Thrown e)
  /\ (e = UserNotFoundError "9"
      \/ e = InvalidIdempotencyKeyError
      \/ e = InvalidAmountError
      \/ e = InvalidTransactionTypeError
      \/ (e = InsufficientBalanceError /\ type debitRequest <> TransactionType.CREDIT)
      \/ e = Error ("Transaction failed: " ++ cancelledMessage)
      \/ e = ServiceException "ValidationException" "The request is malformed").
Proof.
  intros e.
  assert (Hrun : run (Store.send false) (@createTransactFn decimalRuntime 1700 debitRequest)
                   exampleStore = (exampleStore, Thrown e)) by (vm_compute; reflexivity).
  split; [exact Hrun|].
  apply (createTransactFn_failures false decimalRuntime exampleStore exampleStore 1700
           debitRequest e Hrun).
Defined.

Lemma seed_single_batch_witness :
  let response := {|
    Admin.UnprocessedItems := None;
    Admin.BatchWriteItemOutput_ConsumedCapacity := None
  |} in
  snd (Admin.perform scriptedAdmin (@Admin.seed_script decimalFormat)
         (prepared [] [] [] [Returned response]))
  = Returned None.
Proof.
  intros response.
  destruct (seed_single_batch (H:=decimalFormat) scriptedAdmin (USER_SEED_SIZE Config)
              (prepared [] [] [] [Returned response]))
    as (w1 & w2 & requests & answer & events & Hrequests & Hbatch & _ & _ & _ & Hscript).
  rewrite (Hscript eq_refl).
  vm_compute in Hrequests. injection Hrequests as <- _.
  vm_compute in Hbatch. by injection Hbatch as _ <-.
Defined.

Lemma seed_user_ids_witness :
  @seeded decimalFormat 0 seededItem.
Proof.
  destruct (seed_user_ids (H:=decimalFormat) scriptedAdmin 1
              (prepared [8 # 10; 1 # 2]%Q [] [] []))
    as (w' & requests & Hrequests & _ & Hseeded & _).
  vm_compute in Hrequests. injection Hrequests as _ <-.
  apply (Hseeded 0%nat). reflexivity.
Defined.

Lemma seeded_user_balance_witness :
  run scripted (createUserBalanceFn Config {| GetUserBalanceInput_userId := "1" |})
    [Returned (GetItemCommandOutput (Some seededItem))]
  = ([], Returned "5000.00 USD").
Proof.
  destruct (seeded_user_balance (H:=decimalFormat) scripted 0 seededItem
              [Returned (GetItemCommandOutput (Some seededItem))] []
              seeded_seededItem eq_refl) as [_ Hbalance].
  apply (Hbalance "5000.00"). reflexivity.
Defined.

Lemma createSchema_tables_present_witness :
  Admin.perform scriptedAdmin Admin.schema_script
    (prepared [] [listed ["Users"]; listed ["Transactions"; "Users"]] [] [])
  = (prepared [] [] [] [],
     [Admin.printed (Admin.log "Creating schema..."); Admin.called_listTables;
      Admin.called_listTables;
      Admin.printed (Admin.log "Schema created successfully")],
     Returned (Some 0%Z)).
Proof.
  destruct (createSchema_tables_present scriptedAdmin
              (prepared [] [listed ["Users"]; listed ["Transactions"; "Users"]] [] [])
              (prepared [] [listed ["Transactions"; "Users"]] [] [])
              (prepared [] [] [] [])
              ["Users"] ["Transactions"; "Users"]) as [_ Hscript];
    [reflexivity|by apply list_elem_of_here|reflexivity|by apply list_elem_of_here|].
  exact Hscript.
Defined.

Lemma listing_failure_means_absent_witness :
  Admin.perform scriptedAdmin (Admin.checkTableExists "Users")
    (prepared [] [Thrown throttled] [] [])
  = (prepared [] [] [] [],
     [Admin.called_listTables; Admin.printed (Admin.log_error throttled)],
     Returned false).
Proof.
  destruct (listing_failure_means_absent scriptedAdmin "Users"
              (prepared [] [Thrown throttled] [] []) (prepared [] [] [] [])
              throttled eq_refl) as [Hcheck _].
  exact Hcheck.
Defined.

Lemma createSchema_failure_witness :
  let events := [
    Admin.printed (Admin.log "Creating schema...");
    Admin.called_listTables;
    Admin.called_createTable Admin.usersParams;
    Admin.printed (Admin.error "Error creating table Users:" throttled)
  ] in
  Admin.perform scriptedAdmin Admin.schema_script
    (prepared [] [listed []; listed []] [Thrown throttled] [])
  = (prepared [] [listed []] [] [],
     (events ++ [Admin.printed (Admin.error "Error creating schema:" throttled)])%list,
     Returned (Some 1%Z)).
Proof.
  intros events.
  destruct (createSchema_failure scriptedAdmin
              (prepared [] [listed []; listed []] [Thrown throttled] [])
              (prepared [] [listed []] [] []) events throttled) as [_ Hscript];
    [reflexivity|].
  exact Hscript.
Defined.

Lemma services_address_the_schema_witness :
  fits Admin.usersParams seededItem
  /\ is_Some (attributeType Admin.transactionsParams "userId").
Proof.
  destruct (services_address_the_schema (H:=decimalFormat) 1700 creditRequest "11" "1")
    as (_ & _ & _ & Hseeded & Hdeclared).
  split.
  - apply (Hseeded 0%nat seededItem seeded_seededItem).
  - apply (Hdeclared Admin.transactionsParams "userId"); [by right|].
    apply list_elem_of_further, list_elem_of_here.
Defined.
